(** * Dataset analysis and dynamic training configuration

    A shallow embedding of the data-shaping core of the fine-tuning drivers
    and of what surrounds it:

    - [src/data/dataset_analyzer.py]: [_format_messages_to_text],
      [analyze_dataset_and_configure], the latter also in its module, where
      the name [os] is looked up;
    - [src/data/dataset_splitter.py]: [split_dataset], [_format_messages_to_text],
      [analyze_split_distribution];
    - [src/models/lora_config.py]: [get_dynamic_lora_config];
    - [src/training/callbacks.py] of both projects: [EarlyStoppingCallback],
      [ValidationLossLoggerCallback], [VRAMMonitorCallback],
      [TPULoggingCallback];
    - [src/training/mixed_precision.py] of both projects:
      [setup_mixed_precision], [setup_mixed_precision_tpu];
    - [scripts/train.py] of both projects: the split, the analysis and the
      statistics of [main], and the batch override of the TPU driver;
    - [scripts/extract_model.py]: the check for essential files;
    - [data/helper_restruktur_dataset.py]: [generate_planning_response] and
      the records the script writes.

    Python values are modelled as the code uses them: [int] as [Z], [float] as
    the kernel's binary64 numbers, [str] as [string], a [dict] with string keys
    as a [gmap string _], a raised exception as the [Err] result. The first part
    of the file holds the model, the second its properties. *)

From Stdlib Require Import ZArith Lia Bool Ascii String List Permutation Sorted.
From Stdlib Require Import PrimFloat FloatOps SpecFloat Uint63.
From Stdlib Require FloatAxioms.
From stdpp Require Import base option list gmap strings sorting.

Set Warnings "-inexact-float".
Local Open Scope Z_scope.

(** * Part I: the model *)

(** ** Python values, exceptions and floats *)

Module Py.

(** The exceptions the modelled functions raise, with their message where
    the code gives one. [CollaboratorError] stands for whatever an external
    collaborator (the datasets library) raises on its own account. *)
Inductive exn : Type :=
| AssertionError (msg : string)
| ValueError (msg : string)
| ZeroDivisionError
| IndexError
| KeyError (key : string)
| TypeError
| AttributeError
| NameError (name : string)
| CollaboratorError (msg : string).

Inductive result (A : Type) : Type :=
| Ok (a : A)
| Err (e : exn).
Arguments Ok {A} a.
Arguments Err {A} e.

#[export] Instance result_ret : MRet result := fun A a => Ok a.

#[export] Instance result_bind : MBind result := fun A B k r =>
  match r with
  | Ok a => k a
  | Err e => Err e
  end.

(** A comprehension or a mapped transformation whose body may raise: the
    first exception aborts the whole. *)
Fixpoint traverse {A B : Type} (f : A → result B) (xs : list A) : result (list B) :=
  match xs with
  | [] => Ok []
  | x :: xs' => y ← f x; ys ← traverse f xs'; Ok (y :: ys)
  end.

(** [xs[i]] on a list: [IndexError] out of range (the index is never
    negative where the code uses it). *)
Definition getitem {A : Type} (xs : list A) (i : nat) : result A :=
  match xs !! i with
  | Some x => Ok x
  | None => Err IndexError
  end.

(** [a / b] on floats: Python raises on a zero divisor (of either sign)
    instead of producing an infinity or a NaN. *)
Definition truediv (a b : float) : result float :=
  if PrimFloat.eqb b 0%float then Err ZeroDivisionError
  else Ok (PrimFloat.div a b).

(** [float(n)] for a non-negative [int] below 2^53. *)
Definition float_of_Z (n : Z) : float := PrimFloat.of_uint63 (Uint63.of_Z n).

(** [a / b] on two [int]s (true division): the quotient of the two converted
    operands, [ZeroDivisionError] when [b] is 0. *)
Definition int_truediv (a b : Z) : result float :=
  if b =? 0 then Err ZeroDivisionError
  else Ok (PrimFloat.div (float_of_Z a) (float_of_Z b)).

(** [int(x)] on a finite float: truncation toward zero of the exact value
    [m * 2^e]. Infinities and NaN raise in Python; they are mapped to 0 here
    and never reached. *)
Definition int_of_float (x : float) : Z :=
  match Prim2SF x with
  | S754_finite s m e =>
      let mag := if 0 <=? e then Z.shiftl (Z.pos m) e
                 else Z.shiftr (Z.pos m) (- e) in
      if s then - mag else mag
  | _ => 0
  end.

(** [math.ceil(x)] on a finite float. *)
Definition ceil_of_float (x : float) : Z :=
  let t := int_of_float x in
  if PrimFloat.ltb (float_of_Z t) x then t + 1 else t.


(** The line separator of ["\n".join]. *)
Definition nl : string := String (ascii_of_nat 10) EmptyString.

End Py.

Export Py.

(** ** Strings: lower-casing and the [in] operator *)

Module PyStr.

(** [c.lower()] on an ASCII character. Model names are repository
    identifiers, ASCII throughout. *)
Definition lower_ascii (c : ascii) : ascii :=
  let n := nat_of_ascii c in
  if ((65 <=? n) && (n <=? 90))%nat then ascii_of_nat (n + 32) else c.

(** [s.lower()]. *)
Fixpoint lower (s : string) : string :=
  match s with
  | EmptyString => EmptyString
  | String c s' => String (lower_ascii c) (lower s')
  end.

(** [needle in hay]: some suffix of [hay] starts with [needle]. *)
Fixpoint contains (needle hay : string) : bool :=
  String.prefix needle hay
  || match hay with
     | EmptyString => false
     | String _ hay' => contains needle hay'
     end.

End PyStr.

(** ** Conversation records and datasets *)

(** A value stored under a key of a message: a string, or [None] as the
    datasets library fills absent struct fields. *)
Inductive scalar : Type :=
| SNone
| SStr (s : string).

(** [str(v)], as an f-string or [str.format] renders a field. *)
Definition py_str (v : scalar) : string :=
  match v with
  | SNone => "None"
  | SStr s => s
  end.

(** A message is a [dict]: [{"role": ..., "content": ...}], either key possibly
    absent. *)
Abbreviation message := (gmap string scalar).

(** [msg.get(key, default)]. *)
Definition dict_get (msg : message) (key : string) (dflt : scalar) : scalar :=
  default dflt (msg !! key).

(** A cell of a dataset row: [None], a string, an integer, or a list of
    messages. *)
Inductive cell : Type :=
| CNone
| CStr (s : string)
| CInt (z : Z)
| CMessages (msgs : list message).

(** A row, as the function given to [Dataset.map] receives it. *)
Abbreviation row := (gmap string cell).

(** The dataset collaborator: its column names and its rows, in order. *)
Record Dataset : Type := mkDataset {
  column_names : list string;
  rows : list row
}.

(** [dataset.map(lambda x: {key: f(x)})]: every row is updated with the
    returned entry and the column is added when it is new. The cache and
    process-count arguments do not change the result. *)
Definition Dataset_map (key : string) (f : row → result cell) (dataset : Dataset)
  : result Dataset :=
  rows' ← traverse (fun x => v ← f x; Ok (<[key := v]> x)) (rows dataset);
  Ok {| column_names :=
          if bool_decide (key ∈ column_names dataset) then column_names dataset
          else column_names dataset ++ [key];
        rows := rows' |}.

(** [dataset[key]] for an integer column: the column's values in row order. *)
Definition Dataset_int_column (key : string) (dataset : Dataset) : result (list Z) :=
  if bool_decide (key ∈ column_names dataset) then
    traverse (fun x => match x !! key with
                       | Some (CInt z) => Ok z
                       | Some _ => Err TypeError
                       | None => Err (KeyError key)
                       end) (rows dataset)
  else Err (KeyError key).

(** The tokenizer collaborator: [tokenizer.encode(text, add_special_tokens)]. *)
Record Tokenizer : Type := mkTokenizer {
  encode : string → bool → list Z
}.

(** ** Text normalizer and analyzer: dataset_analyzer.py *)

Module DatasetAnalyzer.

(** The loop body, lines 13-15: [f"{role}: {content}"]. *)
Definition format_line (msg : message) : string :=
  let role := dict_get msg "role" (SStr "user") in
  let content := dict_get msg "content" (SStr "") in
  py_str role +:+ ": " +:+ py_str content.

(** Lines 2-16. [messages] is [None] or a list of dicts; [not messages]
    holds for [None] and for the empty list. *)
Definition _format_messages_to_text (messages : option (list message)) : string :=
  match messages with
  | None => ""
  | Some [] => ""
  | Some msgs => String.concat nl (map format_line msgs)
  end.

(** The function applied to a cell of the [messages] column. A cell of
    another type is falsy when empty or zero and otherwise fails in the loop:
    a character has no [get], an integer is not iterable. *)
Definition format_cell (c : cell) : result string :=
  match c with
  | CNone => Ok (_format_messages_to_text None)
  | CMessages msgs => Ok (_format_messages_to_text (Some msgs))
  | CStr s => if String.eqb s "" then Ok "" else Err AttributeError
  | CInt z => if z =? 0 then Ok "" else Err TypeError
  end.

(** The returned [dynamic_config] dict, one field per key. *)
Record dynamic_config : Type := mkConfig {
  max_seq_length : Z;
  per_device_train_batch_size : Z;
  gradient_accumulation_steps : Z;
  effective_batch_size : Z;
  use_gradient_checkpointing : bool
}.

Definition missing_messages_msg : string :=
  "Dataset does not contain a 'messages' column. This script expects conversational data.".

Definition text_not_created_msg : string :=
  "FATAL: 'text' column was not created by the 'messages' conversion. Please check your dataset structure.".

(** Line 55, [int(len(lengths) * 0.95)]. The binary64 product of [n] and the
    double nearest to 0.95, truncated, is the integer part of [19 n / 20] for
    every [n] below 2^47: the double lies 4.5e-17 below 0.95, so the product
    rounds to [19 n / 20] when that is an integer and stays strictly between
    two integers otherwise. [p95_index_binary64] is the computation as the
    interpreter performs it; the two are compared in Part II. *)
Definition p95_index (n : nat) : nat := Z.to_nat (19 * Z.of_nat n / 20).

Definition p95_index_binary64 (n : nat) : nat :=
  Z.to_nat (int_of_float (PrimFloat.mul (float_of_Z (Z.of_nat n)) 0.95%float)).

(** Lines 18-97. *)
Definition analyze_dataset_and_configure
    (dataset : Dataset) (tokenizer : Tokenizer) (max_length : Z) (vram_gb : float)
  : result (Dataset * dynamic_config) :=
  if negb (bool_decide ("messages" ∈ column_names dataset))
  then Err (ValueError missing_messages_msg) else
  dataset ← Dataset_map "text"
    (fun x => text ← format_cell (default (CMessages []) (x !! "messages"));
              Ok (CStr text)) dataset;
  if negb (bool_decide ("text" ∈ column_names dataset))
  then Err (ValueError text_not_created_msg) else
  dataset ← Dataset_map "length"
    (fun x => match x !! "text" with
              | Some (CStr text) =>
                  Ok (CInt (Z.of_nat (length (encode tokenizer text false))))
              | Some _ => Err TypeError
              | None => Err (KeyError "text")
              end) dataset;
  column ← Dataset_int_column "length" dataset;
  let lengths := merge_sort Z.le column in
  p95_length ← getitem lengths (p95_index (length lengths));
  let determined_max_seq_length := Z.min max_length (p95_length + 256) in
  let determined_max_seq_length := Z.max determined_max_seq_length 512 in
  let '(per_device_train_batch_size, gradient_accumulation_steps,
        determined_max_seq_length) :=
    if PrimFloat.leb 16.0%float vram_gb then
      if determined_max_seq_length <=? 1024 then (2, 8, determined_max_seq_length)
      else if determined_max_seq_length <=? 2048 then (1, 16, determined_max_seq_length)
      else if determined_max_seq_length <=? 4096 then (1, 32, determined_max_seq_length)
      else (1, 64, Z.min determined_max_seq_length 8192)
    else (1, 16, determined_max_seq_length) in
  let effective_batch_size :=
    per_device_train_batch_size * gradient_accumulation_steps in
  Ok (dataset,
      {| max_seq_length := determined_max_seq_length;
         per_device_train_batch_size := per_device_train_batch_size;
         gradient_accumulation_steps := gradient_accumulation_steps;
         effective_batch_size := effective_batch_size;
         use_gradient_checkpointing := true |}).

(** Lines 58-89 on their own, as a function of the percentile: the
    configuration the function builds once [p95_length] is known.
    [analyze_returns_configuration] in Part II shows that
    [analyze_dataset_and_configure] returns exactly this. *)
Definition configuration (p95_length max_length : Z) (vram_gb : float)
  : dynamic_config :=
  let determined_max_seq_length := Z.min max_length (p95_length + 256) in
  let determined_max_seq_length := Z.max determined_max_seq_length 512 in
  let '(per_device_train_batch_size, gradient_accumulation_steps,
        determined_max_seq_length) :=
    if PrimFloat.leb 16.0%float vram_gb then
      if determined_max_seq_length <=? 1024 then (2, 8, determined_max_seq_length)
      else if determined_max_seq_length <=? 2048 then (1, 16, determined_max_seq_length)
      else if determined_max_seq_length <=? 4096 then (1, 32, determined_max_seq_length)
      else (1, 64, Z.min determined_max_seq_length 8192)
    else (1, 16, determined_max_seq_length) in
  {| max_seq_length := determined_max_seq_length;
     per_device_train_batch_size := per_device_train_batch_size;
     gradient_accumulation_steps := gradient_accumulation_steps;
     effective_batch_size :=
       per_device_train_batch_size * gradient_accumulation_steps;
     use_gradient_checkpointing := true |}.

(** The second component of the returned pair. *)
Definition config_of (r : result (Dataset * dynamic_config)) : result dynamic_config :=
  '(_, dynamic_config) ← r; Ok dynamic_config.

End DatasetAnalyzer.

(** ** The analyzer in its module: the global name [os]

    Lines 31 and 46 pass [num_proc=os.cpu_count() // 2 or 1] to
    [Dataset.map]. Python evaluates the argument before the call, and
    dataset_analyzer.py holds no import: the name [os] is looked up in the
    module's global namespace and is bound there only if a caller has put it
    there. [DatasetAnalyzer.analyze_dataset_and_configure] is the data flow of
    the function once that argument evaluates; the function below adds the
    lookup in front of the first mapped transformation. *)

Module DatasetAnalyzerModule.

(** The binding of [os] in the module's globals: none, or a module whose
    [cpu_count()] returns an [int] or [None]. *)
Inductive os_binding : Type :=
| Unbound
| Bound (cpu_count : option Z).

(** The file as it is written binds nothing. *)
Definition as_written : os_binding := Unbound.

(** [os.cpu_count() // 2 or 1]. *)
Definition num_proc (os : os_binding) : result Z :=
  match os with
  | Unbound => Err (NameError "os")
  | Bound None => Err TypeError
  | Bound (Some n) => Ok (if n / 2 =? 0 then 1 else n / 2)
  end.

(** Lines 18-97 with the lookup. The second evaluation, on line 46, meets the
    same binding as the first and adds no new outcome. *)
Definition analyze_dataset_and_configure (os : os_binding)
    (dataset : Dataset) (tokenizer : Tokenizer) (max_length : Z) (vram_gb : float)
  : result (Dataset * DatasetAnalyzer.dynamic_config) :=
  if negb (bool_decide ("messages" ∈ column_names dataset))
  then Err (ValueError DatasetAnalyzer.missing_messages_msg) else
  _ ← num_proc os;
  DatasetAnalyzer.analyze_dataset_and_configure dataset tokenizer max_length vram_gb.

End DatasetAnalyzerModule.

(** ** Dataset partitioner: dataset_splitter.py *)

Module DatasetSplitter.

(** The loop body, lines 49-51: ["{}: {}".format(role, content)]. *)
Definition format_line (msg : message) : string :=
  let role := dict_get msg "role" (SStr "user") in
  let content := dict_get msg "content" (SStr "") in
  String.concat "" [py_str role; ": "; py_str content].

(** Lines 38-52, the second copy of the text normalizer. *)
Definition _format_messages_to_text (messages : option (list message)) : string :=
  match messages with
  | None => ""
  | Some [] => ""
  | Some msgs => String.concat nl (map format_line msgs)
  end.

(** The returned dict [{"train": ..., "validation": ..., "test": ...}]. *)
Record splits (D : Type) : Type := mkSplits {
  train : D;
  validation : D;
  test : D
}.
Arguments mkSplits {D} _ _ _.
Arguments train {D} _.
Arguments validation {D} _.
Arguments test {D} _.

Definition ratio_error_msg : string := "Ratios must sum to 1.0".

Section split.

Context {A : Type}.

(** The collaborator's seeded binary split,
    [dataset.train_test_split(test_size=..., seed=...).values()]: the pair
    (train part, test part), or the exception it raises. A dataset is the list
    of its records. *)
Variable train_test_split : list A → float → Z → result (list A * list A).

(** Lines 5-35. The summary lines are printed for their text only, except
    that the percentages of lines 27-29 divide by [total_samples]. *)
Definition split_dataset (dataset : list A)
    (train_ratio val_ratio test_ratio : float) (seed : Z)
  : result (splits (list A)) :=
  let total_samples := Z.of_nat (length dataset) in
  if negb (PrimFloat.ltb
             (PrimFloat.abs (train_ratio + val_ratio + test_ratio - 1.0)%float)
             1e-6%float)
  then Err (AssertionError ratio_error_msg) else
  let train_val_ratio := (train_ratio + val_ratio)%float in
  '(train_val_dataset, test_dataset) ← train_test_split dataset test_ratio seed;
  test_size ← truediv val_ratio train_val_ratio;
  '(train_dataset, val_dataset) ← train_test_split train_val_dataset test_size seed;
  _ ← int_truediv (Z.of_nat (length train_dataset)) total_samples;
  _ ← int_truediv (Z.of_nat (length val_dataset)) total_samples;
  _ ← int_truediv (Z.of_nat (length test_dataset)) total_samples;
  Ok {| train := train_dataset;
        validation := val_dataset;
        test := test_dataset |}.

End split.

End DatasetSplitter.

(** ** Two instances of the splitting collaborator

    The datasets library is not part of the repository. These two splitters
    implement its interface and serve to run [split_dataset] on concrete
    inputs. Both cut a seeded rearrangement of the records (a rotation by the
    seed) after [ceil(test_size * n)] records; the strict one also refuses what
    the library refuses: a float [test_size] outside the open interval (0, 1)
    and an empty train part. *)

Module Splitters.

Definition n_test_of (n : nat) (test_size : float) : nat :=
  Z.to_nat (Z.min (Z.of_nat n)
                  (ceil_of_float (PrimFloat.mul test_size (float_of_Z (Z.of_nat n))))).

Definition lenient {A : Type} (dataset : list A) (test_size : float) (seed : Z)
  : result (list A * list A) :=
  let n := length dataset in
  let permutation := rotate (Z.to_nat seed) dataset in
  let n_test := n_test_of n test_size in
  Ok (drop n_test permutation, take n_test permutation).

Definition strict {A : Type} (dataset : list A) (test_size : float) (seed : Z)
  : result (list A * list A) :=
  if PrimFloat.leb test_size 0%float || PrimFloat.leb 1%float test_size
  then Err (CollaboratorError "test_size should be a float in the (0, 1) range")
  else if (length dataset - n_test_of (length dataset) test_size =? 0)%nat
  then Err (CollaboratorError "the resulting train set will be empty")
  else lenient dataset test_size seed.

End Splitters.

(** ** Dynamic LoRA parameter selector: lora_config.py *)

Module LoraConfig.

Import PyStr.

(** The returned dict, one field per key. *)
Record config : Type := mkConfig {
  r : Z;
  lora_alpha : Z;
  target_modules : list string;
  lora_dropout : Z;
  bias : string;
  task_type : string;
  use_rslora : bool;
  use_gradient_checkpointing : string
}.

(** Lines 14-67. [max_seq_length] is accepted and not used. *)
Definition get_dynamic_lora_config (model_name : string) (max_seq_length : Z) : config :=
  let model_lower := lower model_name in
  let target_modules :=
    ["q_proj"; "k_proj"; "v_proj"; "o_proj"; "gate_proj"; "up_proj"; "down_proj"] in
  let '(r, alpha) :=
    if contains "0.5b" model_lower || contains "0.6b" model_lower
       || contains "270m" model_lower then (8, 16)
    else if contains "1.5b" model_lower || contains "1b" model_lower
            || contains "1.7b" model_lower then (16, 32)
    else if contains "6b" model_lower || contains "7b" model_lower then (32, 64)
    else (16, 32) in
  let use_rslora := contains "6b" model_lower || contains "7b" model_lower in
  {| r := r;
     lora_alpha := alpha;
     target_modules := target_modules;
     lora_dropout := 0;
     bias := "none";
     task_type := "CAUSAL_LM";
     use_rslora := use_rslora;
     use_gradient_checkpointing := "unsloth" |}.

End LoraConfig.

(** ** The specification's vocabulary *)

Module Spec.

Import PyStr.

(** The rendering of one message: ["<role>: <content>"], role defaulting to
    ["user"] and content to the empty string when the key is absent. *)
Definition line (msg : message) : string :=
  py_str (default (SStr "user") (msg !! "role")) +:+ ": " +:+
  py_str (default (SStr "") (msg !! "content")).

(** [clamp(x, lower_bound, upper_bound)]; the lower bound is applied last, so
    it prevails when the bounds cross. *)
Definition clamp (x lower_bound upper_bound : Z) : Z :=
  Z.max lower_bound (Z.min x upper_bound).

(** Substring, as a proposition: [hay] is [pre ++ needle ++ post]. *)
Definition is_substring (needle hay : string) : Prop :=
  ∃ pre post : string, hay = pre +:+ needle +:+ post.

(** Case-insensitive substring match on a model name. *)
Definition matches (needle name : string) : Prop :=
  is_substring needle (lower name).

(** The three tiers of the LoRA selector. *)
Definition small_tier (name : string) : Prop :=
  matches "0.5b" name ∨ matches "0.6b" name ∨ matches "270m" name.
Definition medium_tier (name : string) : Prop :=
  matches "1.5b" name ∨ matches "1b" name ∨ matches "1.7b" name.
Definition large_tier (name : string) : Prop :=
  matches "6b" name ∨ matches "7b" name.

(** The token length of a row's conversation: the tokens of its flattened
    [messages] cell ([None] or a list of messages; an absent key reads as the
    empty list). *)
Definition row_messages (x : row) : option (option (list message)) :=
  match x !! "messages" with
  | None => Some (Some [])
  | Some CNone => Some None
  | Some (CMessages msgs) => Some (Some msgs)
  | Some _ => None
  end.

(** Every [messages] cell holds [None] or a list of messages. *)
Definition conversational (dataset : Dataset) : Prop :=
  Forall (fun x => is_Some (row_messages x)) (rows dataset).

Definition token_length (tokenizer : Tokenizer) (x : row) : Z :=
  Z.of_nat (length (encode tokenizer
    (DatasetAnalyzer._format_messages_to_text (default None (row_messages x)))
    false)).

(** A row after the two mapped transformations of the analyzer: its [text]
    is the flattened conversation and its [length] the token count. *)
Definition annotated (tokenizer : Tokenizer) (x : row) : row :=
  <["length" := CInt (token_length tokenizer x)]>
    (<["text" := CStr (DatasetAnalyzer._format_messages_to_text
                         (default None (row_messages x)))]> x).

End Spec.

(** ** Concrete inputs *)

Module Examples.

(** A tokenizer with one token per character. *)
Definition char_tokenizer : Tokenizer :=
  {| encode := fun text _ =>
       map (fun c => Z.of_nat (nat_of_ascii c)) (list_ascii_of_string text) |}.

(** A string of [n] characters. *)
Fixpoint filler (n : nat) : string :=
  match n with
  | O => EmptyString
  | S n' => String "a" (filler n')
  end.

(** A row holding one user message; its text is ["user: "] followed by the
    content, six characters more than the content. *)
Definition user_row (content : string) : row :=
  {[ "messages" := CMessages [ {[ "role" := SStr "user"; "content" := SStr content ]} ] ]}.

(** A dataset of one row whose text has [tokens] characters (at least 6). *)
Definition one_row_dataset (tokens : nat) : Dataset :=
  {| column_names := ["messages"];
     rows := [user_row (filler (tokens - 6))] |}.

(** The dataset of the specification's boundary case: token lengths
    [[100]*94 + [5000]]. *)
Definition boundary_dataset : Dataset :=
  {| column_names := ["messages"];
     rows := replicate 94 (user_row (filler 94)) ++ [user_row (filler 4994)] |}.

(** A dataset with a [messages] column and no row. *)
Definition empty_dataset : Dataset :=
  {| column_names := ["messages"]; rows := [] |}.

End Examples.

(** ** Split statistics: dataset_splitter.py, [analyze_split_distribution] *)

(** [Dataset.map] on a dataset that may have no rows: the library returns a
    dataset without rows as it is, and adds no column to it. With rows it is
    [Dataset_map]. *)
Definition Dataset_map_unless_empty (key : string) (f : row → result cell)
    (dataset : Dataset) : result Dataset :=
  match rows dataset with
  | [] => Ok dataset
  | _ :: _ => Dataset_map key f dataset
  end.

Module SplitDistribution.

(** What the function prints for a split, one constructor per line of output:
    the warning of line 70, the notice of line 76, the empty split of line 80
    and the statistics of line 85. *)
Inductive report : Type :=
| TextNotFound (split_name : string)
| Skipped (split_name : string)
| NoSamples (split_name : string)
| Lengths (split_name : string) (avg_len : float) (max_len min_len : Z)
          (samples : nat).

Definition split_name_of (r : report) : string :=
  match r with
  | TextNotFound n | Skipped n | NoSamples n | Lengths n _ _ _ _ => n
  end.

(** [os.cpu_count() // 2 or 1], line 63; this module imports [os], and
    [cpu_count()] returns an [int] or [None]. *)
Definition num_proc (cpu_count : option Z) : result Z :=
  match cpu_count with
  | None => Err TypeError
  | Some n => Ok (if n / 2 =? 0 then 1 else n / 2)
  end.

(** The function given to [map] on line 62, on the [messages] cell. *)
Definition format_cell (c : cell) : result string :=
  match c with
  | CNone => Ok (DatasetSplitter._format_messages_to_text None)
  | CMessages msgs => Ok (DatasetSplitter._format_messages_to_text (Some msgs))
  | CStr s => if String.eqb s "" then Ok "" else Err AttributeError
  | CInt z => if z =? 0 then Ok "" else Err TypeError
  end.

(** The comprehension of lines 72 and 74. *)
Definition token_lengths (tokenizer : Tokenizer) (dataset : Dataset) : result (list Z) :=
  traverse (fun x => match x !! "text" with
                     | Some (CStr text) =>
                         Ok (Z.of_nat (length (encode tokenizer text false)))
                     | Some _ => Err TypeError
                     | None => Err (KeyError "text")
                     end) (rows dataset).

(** [sum(lengths)], and [max(lengths)] and [min(lengths)] on a list with a
    first entry. *)
Definition sum (lengths : list Z) : Z := foldl Z.add 0 lengths.
Definition max (x : Z) (xs : list Z) : Z := foldl Z.max x xs.
Definition min (x : Z) (xs : list Z) : Z := foldl Z.min x xs.

(** Lines 79-85. *)
Definition summary (split_name : string) (lengths : list Z) (samples : nat)
  : result report :=
  match lengths with
  | [] => Ok (NoSamples split_name)
  | x :: xs =>
      avg_len ← int_truediv (sum lengths) (Z.of_nat (length lengths));
      Ok (Lengths split_name avg_len (max x xs) (min x xs) samples)
  end.

(** The loop body, lines 58-85, for one split. *)
Definition analyze_split (cpu_count : option Z) (tokenizer : Tokenizer)
    (split_name : string) (dataset : Dataset) : result report :=
  if bool_decide ("messages" ∈ column_names dataset) then
    _ ← num_proc cpu_count;
    temp_dataset ← Dataset_map_unless_empty "text"
      (fun x => text ← format_cell (default (CMessages []) (x !! "messages"));
                Ok (CStr text)) dataset;
    if negb (bool_decide ("text" ∈ column_names temp_dataset))
    then Ok (TextNotFound split_name)
    else
      lengths ← token_lengths tokenizer temp_dataset;
      summary split_name lengths (length (rows dataset))
  else if bool_decide ("text" ∈ column_names dataset) then
    lengths ← token_lengths tokenizer dataset;
    summary split_name lengths (length (rows dataset))
  else Ok (Skipped split_name).

(** Lines 55-85: the splits in the order of the dict; what was printed, and
    the exception that ended the loop if one did. *)
Fixpoint analyze_split_distribution (cpu_count : option Z) (tokenizer : Tokenizer)
    (dataset_dict : list (string * Dataset)) : list report * option exn :=
  match dataset_dict with
  | [] => ([], None)
  | (split_name, dataset) :: dataset_dict' =>
      match analyze_split cpu_count tokenizer split_name dataset with
      | Err e => ([], Some e)
      | Ok r =>
          let '(printed, raised) :=
            analyze_split_distribution cpu_count tokenizer dataset_dict' in
          (r :: printed, raised)
      end
  end.

End SplitDistribution.




(** ** Training callbacks: callbacks.py *)

Module Callbacks.

(** The trainer's control object, as far as the callbacks write to it. It is
    shared: a flag a callback sets stays set for the callbacks and the trainer
    that read it next. *)
Record TrainerControl : Type := mkControl {
  should_training_stop : bool
}.

(** [metrics: Dict[str, float]]. *)
Abbreviation metrics := (gmap string float).

(** [EarlyStoppingCallback]: the attributes set by [__init__] and written by
    [on_evaluate]. *)
Record EarlyStoppingCallback : Type := mkEarlyStopping {
  patience : Z;
  min_delta : float;
  best_loss : float;
  counter : Z
}.

Definition __init__ (patience : Z) (min_delta : float) : EarlyStoppingCallback :=
  {| patience := patience;
     min_delta := min_delta;
     best_loss := infinity;
     counter := 0 |}.

(** [EarlyStoppingCallback.on_evaluate]: the object and the control after the
    call. The messages are printed for their text only. *)
Definition on_evaluate (self : EarlyStoppingCallback) (control : TrainerControl)
    (metrics : metrics) : EarlyStoppingCallback * TrainerControl :=
  match metrics !! "eval_loss" with
  | None => (self, control)
  | Some current_loss =>
      if PrimFloat.ltb current_loss (best_loss self - min_delta self)%float then
        ({| patience := patience self;
            min_delta := min_delta self;
            best_loss := current_loss;
            counter := 0 |}, control)
      else
        let counter := counter self + 1 in
        ({| patience := patience self;
            min_delta := min_delta self;
            best_loss := best_loss self;
            counter := counter |},
         if patience self <=? counter then {| should_training_stop := true |}
         else control)
  end.

(** The evaluations of a training run, in order: the trainer hands the object
    and the control of one call to the next. *)
Definition evaluations (self : EarlyStoppingCallback) (control : TrainerControl)
    (history : list metrics) : EarlyStoppingCallback * TrainerControl :=
  foldl (fun state metrics => on_evaluate state.1 state.2 metrics)
        (self, control) history.

(** [ValidationLossLoggerCallback]: its two lists. *)
Record ValidationLossLoggerCallback : Type := mkLogger {
  validation_losses : list float;
  validation_perplexities : list float
}.

Definition logger__init__ : ValidationLossLoggerCallback :=
  {| validation_losses := []; validation_perplexities := [] |}.

Section logger.

(** [np.exp], of the numerical library. *)
Variable exp : float → float.

(** [ValidationLossLoggerCallback.on_evaluate]; [append] adds at the end. *)
Definition logger_on_evaluate (self : ValidationLossLoggerCallback)
    (metrics : metrics) : ValidationLossLoggerCallback :=
  let val_loss := metrics !! "eval_loss" in
  let val_ppl := metrics !! "eval_perplexity" in
  let val_ppl :=
    match val_ppl, val_loss with
    | None, Some val_loss => Some (exp val_loss)
    | _, _ => val_ppl
    end in
  {| validation_losses :=
       match val_loss with
       | Some val_loss => validation_losses self ++ [val_loss]
       | None => validation_losses self
       end;
     validation_perplexities :=
       match val_ppl with
       | Some val_ppl => validation_perplexities self ++ [val_ppl]
       | None => validation_perplexities self
       end |}.

(** The perplexity an evaluation adds to the list: the one it reports, or
    else [exp] of the loss it reports. *)
Definition logged_perplexity (m : metrics) : option float :=
  match m !! "eval_perplexity" with
  | Some val_ppl => Some val_ppl
  | None => exp <$> m !! "eval_loss"
  end.

Definition logger_evaluations (self : ValidationLossLoggerCallback)
    (history : list metrics) : ValidationLossLoggerCallback :=
  foldl logger_on_evaluate self history.

End logger.

End Callbacks.

(** ** Mixed precision: mixed_precision.py of both projects *)

Module MixedPrecision.

(** [torch.cuda], as [setup_mixed_precision] reads it: whether a device is
    available and the (major, minor) compute capability of the current one. *)
Record cuda : Type := mkCuda {
  is_available : bool;
  get_device_capability : Z * Z
}.

(** The GPU project, lines 16-49: [(bf16_support, fp16_support,
    precision_mode)]. *)
Definition setup_mixed_precision (torch_cuda : cuda) : bool * bool * string :=
  if is_available torch_cuda then
    if 8 <=? (get_device_capability torch_cuda).1 then (true, false, "bf16")
    else (false, true, "fp16")
  else (false, false, "fp32").

(** The TPU project, lines 26-58: the availability of the TPU changes what is
    printed and not what is returned. *)
Definition setup_mixed_precision_tpu (check_tpu_available : bool)
  : bool * bool * string :=
  (true, false, "bf16").

End MixedPrecision.

(** ** The TPU driver: scripts/train.py, lines 156-171 *)

Module TpuTrain.

(** [dynamic_config] after the override: the keys the analyzer set and
    [global_batch_size]. *)
Record dynamic_config : Type := mkConfig {
  max_seq_length : Z;
  per_device_train_batch_size : Z;
  gradient_accumulation_steps : Z;
  effective_batch_size : Z;
  use_gradient_checkpointing : bool;
  global_batch_size : Z
}.

(** [a // b] on two [int]s. *)
Definition floordiv (a b : Z) : result Z :=
  if b =? 0 then Err ZeroDivisionError else Ok (a / b).

(** Lines 165-171: three keys of the analyzer's dict are written, the others
    are left as they are. *)
Definition override (analysed : DatasetAnalyzer.dynamic_config)
    (batch_size_per_replica world_size : Z) : result dynamic_config :=
  quotient ← floordiv 256 batch_size_per_replica;
  let gradient_accumulation_steps := Z.max 1 quotient in
  Ok {| max_seq_length := DatasetAnalyzer.max_seq_length analysed;
        per_device_train_batch_size := batch_size_per_replica;
        gradient_accumulation_steps := gradient_accumulation_steps;
        effective_batch_size := DatasetAnalyzer.effective_batch_size analysed;
        use_gradient_checkpointing :=
          DatasetAnalyzer.use_gradient_checkpointing analysed;
        global_batch_size :=
          batch_size_per_replica * world_size * gradient_accumulation_steps |}.


End TpuTrain.

(** ** Model extraction: scripts/extract_model.py, lines 64-69 *)

Module ExtractModel.

Definition essential_files : list string := ["config.json"; "tokenizer_config.json"].

(** [any(efile in str(f) for f in model_files)], the files given by their
    paths. *)
Definition found (efile : string) (model_files : list string) : bool :=
  existsb (PyStr.contains efile) model_files.

(** The status printed for each essential file, in order. *)
Definition statuses (model_files : list string) : list (string * bool) :=
  map (fun efile => (efile, found efile model_files)) essential_files.

End ExtractModel.

(** ** The GPU driver: scripts/train.py, steps 3 and 5 of [main] *)

Module Train.

Definition MODEL_NAME : string := "Qwen/Qwen3-0.6B".


Section main.

(** The splitting library, the binding of [os] in dataset_analyzer.py, and
    what [os.cpu_count()] returns. *)
Variable train_test_split : list row → float → Z → result (list row * list row).
Variable analyzer_os : DatasetAnalyzerModule.os_binding.
Variable cpu_count : option Z.


End main.

End Train.


(** ** Planner dataset: data/helper_restruktur_dataset.py

    Strings are given by their UTF-8 bytes. *)

Module PlannerDataset.

(** A blueprint entry, [module_data]: a dict of five keys, each of which may
    be missing; the functionality is a string and the other values are lists
    of strings. *)
Record module_data : Type := mkModule {
  core_functionality : option string;
  required_validations : option (list string);
  tech_stack_dependencies : option (list string);
  compliance_requirements : option (list string);
  performance_metrics : option (list string)
}.

(** Lines 5-20: the two blueprint entries and the dict that holds them. *)
Definition product_upload : module_data :=
  {| core_functionality := Some "Upload & manage product images";
     required_validations :=
       Some ["file_extension"; "file_size"; "file_count"; "mime_type"];
     tech_stack_dependencies := Some ["react-dropzone"; "multer"; "aws-sdk"];
     compliance_requirements := Some ["gdpr"; "accessibility"];
     performance_metrics := Some ["upload_time"; "image_load_time"] |}.

Definition user_registration : module_data :=
  {| core_functionality := Some "User signup with email verification";
     required_validations :=
       Some ["email_format"; "password_strength"; "phone_format"];
     tech_stack_dependencies := Some ["nodemailer"; "bcrypt"; "redis"];
     compliance_requirements := Some ["gdpr"; "ccpa"];
     performance_metrics := Some ["signup_completion_time"] |}.

Definition module_definitions : list (string * module_data) :=
  [("product_upload", product_upload); ("user_registration", user_registration)].

(** Lines 23-26. *)
Definition user_requests : gmap string string :=
  list_to_map
    [("product_upload",
      "Aku mau bikin fitur upload gambar produk untuk aplikasi marketplace. User bisa upload max 5 gambar per produk. Gambar harus muncul di halaman detail produk.");
     ("user_registration",
      "Aku mau bikin sistem registrasi user untuk aplikasi marketplace. User harus bisa daftar dengan email dan password, lalu verifikasi email sebelum bisa login.")].

(** Lines 29-37. *)
Definition SYSTEM_PROMPT : string :=
  "Kamu adalah Expert Agent Planner. Tugas kamu adalah membuat detailed technical specification dalam bahasa manusia untuk developer. JANGAN generate code. Fokus pada:
1. Complete module definition
2. Frontend validation rules
3. Backend validation rules
4. Security best practices
5. Implementation procedures
6. Error handling scenarios
7. Performance considerations
8. Compliance requirements".

(** Lines 43-51. *)
Definition validation_mapping : gmap string string :=
  list_to_map
    [("file_extension", "File Extension: hanya .jpg, .jpeg, .png, .webp");
     ("file_size", "File Size: max 2MB per file (client), 5MB (server)");
     ("file_count", "File Count: max 5 gambar per produk");
     ("mime_type", "MIME Type: validate actual content type matches extension");
     ("email_format", "Email Format: RFC 5322 compliant validation");
     ("password_strength", "Password Strength: min 8 chars, uppercase, number, symbol");
     ("phone_format", "Phone Format: E.164 format validation (opsional)")].

(** Lines 54-58. *)
Definition compliance_mapping : gmap string string :=
  list_to_map
    [("gdpr", "GDPR: explicit consent untuk data processing, right to delete");
     ("ccpa", "CCPA: California Consumer Privacy Act compliance");
     ("accessibility", "Accessibility: WCAG 2.1 compliance, screen reader support")].

(** The constant text of the template of lines 62-107, between its three
    replacement fields. *)
Definition product_upload_text_0 : string :=
  "**MODULE DEFINITION: PRODUCT IMAGE UPLOAD**

**CORE FUNCTIONALITY**: ".

Definition product_upload_text_1 : string :=
  "

**REQUIRED VALIDATIONS**:
".

Definition product_upload_text_2 : string :=
  "

**TECH STACK DEPENDENCIES**:
- Frontend: react-dropzone, react-hook-form
- Backend: multer, aws-sdk
- Database: PostgreSQL untuk metadata storage

**COMPLIANCE REQUIREMENTS**:
".

Definition product_upload_text_3 : string :=
  "

**PERFORMANCE METRICS**:
- Upload time: <15 detik untuk 5 gambar di 4G
- Image load time: <1 detik (CDN cached)

**DETAILED IMPLEMENTATION GUIDE**:
1. **Frontend Validation**:
   • Real-time extension check (.jpg, .jpeg, .png, .webp only)
   • Client-side size validation (max 2MB)
   • File count counter (3/5 gambar)
   • Instant preview dengan URL.createObjectURL()

2. **Backend Validation**:
   • Re-check extensions dan MIME type
   • Server-side size limit 5MB
   • File naming: product_{id}_{timestamp}_{random6}.{ext}
   • Storage path: /marketplace/products/{year}/{month}/{day}/

3. **Security Measures**:
   • Virus scanning with ClamAV
   • Rate limiting: 20 uploads/user/hour
   • Path traversal protection

4. **Error Handling**:
   • Partial success handling (keep successful uploads)
   • Network interruption resume capability
   • Storage failure fallback mechanism

**ACCEPTANCE CRITERIA**:
□ All validation rules implemented di frontend dan backend
□ No security vulnerabilities in penetration testing
□ Performance metrics tercapai di real-world conditions".

(** The constant text of the template of lines 110-160, between its three
    replacement fields. *)
Definition user_registration_text_0 : string :=
  "**MODULE DEFINITION: USER REGISTRATION**

**CORE FUNCTIONALITY**: ".

Definition user_registration_text_1 : string :=
  "

**REQUIRED VALIDATIONS**:
".

Definition user_registration_text_2 : string :=
  "

**TECH STACK DEPENDENCIES**:
- Email Service: nodemailer + SendGrid/Mailgun
- Password Hashing: bcrypt dengan cost factor 12
- Rate Limiting: redis untuk track failed attempts
- Database: PostgreSQL untuk user storage

**COMPLIANCE REQUIREMENTS**:
".

Definition user_registration_text_3 : string :=
  "

**PERFORMANCE METRICS**:
- Signup completion time: <30 detik
- Email delivery time: <2 menit
- Verification link expiration: 24 jam

**DETAILED IMPLEMENTATION GUIDE**:
1. **Frontend Validation**:
   • Real-time email format validation
   • Password strength meter dengan visual feedback
   • Confirm password field matching
   • Form submission disable sampai semua valid

2. **Backend Validation**:
   • Transactional database insert (user + verification token)
   • Asynchronous email sending dengan queue system
   • Rate limiting: max 3 failed attempts per IP per minute
   • Password hashing sebelum save ke database

3. **Security Measures**:
   • Verification token dengan 32-character random string
   • Token expiration 24 jam
   • Prevent timing attacks dengan constant-time comparison
   • Sanitize all user inputs untuk prevent XSS

4. **Error Handling**:
   • Duplicate email: friendly error message
   • Email sending failure: retry mechanism + admin alert
   • Token expiration: automatic cleanup job
   • Account lockout after 10 failed login attempts

**ACCEPTANCE CRITERIA**:
□ User bisa complete signup flow dalam <30 detik
□ Email verification link valid hanya 24 jam
□ No security vulnerabilities in authentication flow
□ Full compliance dengan GDPR/CCPA requirements".

(** Line 163. *)
Definition unknown_module_text : string :=
  "Module tidak dikenali. Silakan spesifikasikan module yang dibutuhkan.".

(** [d[key]] on a dict of strings. *)
Definition dict_getitem (d : gmap string string) (key : string) : result string :=
  match d !! key with
  | Some v => Ok v
  | None => Err (KeyError key)
  end.

(** [module_data[key]]. *)
Definition field {A : Type} (key : string) (value : option A) : result A :=
  match value with
  | Some v => Ok v
  | None => Err (KeyError key)
  end.

(** [['- ' + mapping[key] for key in keys]]. *)
Definition bullet_lines (mapping : gmap string string) (keys : list string)
  : result (list string) :=
  traverse (fun key => v ← dict_getitem mapping key; Ok ("- " +:+ v)) keys.

(** One of the two templates, its fields evaluated from left to right. *)
Definition fill (text_0 text_1 text_2 text_3 : string) (module_data : module_data)
  : result string :=
  core ← field "core_functionality" (core_functionality module_data);
  validations ← field "required_validations" (required_validations module_data);
  validation_lines ← bullet_lines validation_mapping validations;
  requirements ← field "compliance_requirements" (compliance_requirements module_data);
  compliance_lines ← bullet_lines compliance_mapping requirements;
  Ok (text_0 +:+ core +:+ text_1 +:+ String.concat nl validation_lines
      +:+ text_2 +:+ String.concat nl compliance_lines +:+ text_3).

(** Lines 39-163. *)
Definition generate_planning_response (module_name : string)
    (module_data : module_data) : result string :=
  if String.eqb module_name "product_upload" then
    fill product_upload_text_0 product_upload_text_1 product_upload_text_2
         product_upload_text_3 module_data
  else if String.eqb module_name "user_registration" then
    fill user_registration_text_0 user_registration_text_1 user_registration_text_2
         user_registration_text_3 module_data
  else Ok unknown_module_text.

(** Lines 168-174: the record written for one blueprint entry. The values of
    the dict display are evaluated in order, the request before the
    response. *)
Definition conversation (request response : string) : list message :=
  [ {[ "role" := SStr "system"; "content" := SStr SYSTEM_PROMPT ]};
    {[ "role" := SStr "user"; "content" := SStr request ]};
    {[ "role" := SStr "assistant"; "content" := SStr response ]} ].

Definition chat_template (module_name : string) (module_data : module_data)
  : result (list message) :=
  request ← dict_getitem user_requests module_name;
  response ← generate_planning_response module_name module_data;
  Ok (conversation request response).

(** Lines 166-175: the records of the file, one per blueprint entry in the
    order of the dict. *)
Definition records (definitions : list (string * module_data))
  : result (list (list message)) :=
  traverse (fun entry => chat_template entry.1 entry.2) definitions.

(** The file read back by the drivers: one row per line, the conversation in
    the [messages] column. *)
Definition dataset_of (records : list (list message)) : Dataset :=
  {| column_names := ["messages"];
     rows := map (fun messages => {[ "messages" := CMessages messages ]}) records |}.

End PlannerDataset.

(** ** Step callbacks: [VRAMMonitorCallback] and [TPULoggingCallback] *)

Module StepCallbacks.

(** [VRAMMonitorCallback], callbacks.py of the GPU project. *)
Record VRAMMonitorCallback : Type := mkVRAMMonitor {
  threshold_percent : float;
  oom_warning_shown : bool
}.

(** What a call of [on_step_end] did besides writing to the object: whether
    it collected garbage and emptied the cache (lines 61-62), and whether it
    took the warning back (line 67). *)
Record step : Type := mkStep {
  cleared_cache : bool;
  reset_warning : bool
}.

(** [VRAMMonitorCallback.on_step_end], lines 38-72. [mem_info] is the pair
    (used, total) read from the device, or the exception raised on the way to
    it; an exception inside the [try], the division by a total of zero
    included, is dropped. Emptying the cache is taken to return. *)
Definition on_step_end (NVML_AVAILABLE cuda_is_available : bool)
    (self : VRAMMonitorCallback) (mem_info : result (Z * Z))
  : VRAMMonitorCallback * step :=
  if negb NVML_AVAILABLE || negb cuda_is_available
  then (self, {| cleared_cache := false; reset_warning := false |})
  else
    match '(used, total) ← mem_info; int_truediv used total with
    | Err _ => (self, {| cleared_cache := false; reset_warning := false |})
    | Ok ratio =>
        let used_percent := (ratio * 100)%float in
        let clear := PrimFloat.ltb (threshold_percent self) used_percent
                     && negb (oom_warning_shown self) in
        let shown := if clear then true else oom_warning_shown self in
        let reset := PrimFloat.ltb used_percent (threshold_percent self - 5)%float in
        ({| threshold_percent := threshold_percent self;
            oom_warning_shown := if reset then false else shown |},
         {| cleared_cache := clear; reset_warning := reset |})
    end.

(** The steps of a training run, in order. *)
Fixpoint steps (NVML_AVAILABLE cuda_is_available : bool)
    (self : VRAMMonitorCallback) (readings : list (result (Z * Z)))
  : VRAMMonitorCallback * list step :=
  match readings with
  | [] => (self, [])
  | mem_info :: readings' =>
      let '(self', done) := on_step_end NVML_AVAILABLE cuda_is_available self mem_info in
      let '(self'', rest) := steps NVML_AVAILABLE cuda_is_available self' readings' in
      (self'', done :: rest)
  end.

(** The steps of a run that cleared the cache, those that took the warning
    back, and whether a warning is still to be shown. *)
Definition clears (done : list step) : nat :=
  length (filter (fun s => cleared_cache s = true) done).

Definition resets (done : list step) : nat :=
  length (filter (fun s => reset_warning s = true) done).

Definition pending (self : VRAMMonitorCallback) : nat :=
  if oom_warning_shown self then 0 else 1.

(** [TPULoggingCallback.on_step_end], callbacks.py of the TPU project, lines
    30-47: whether a logging closure was added for the step. The remainder is
    taken before the [try]; the import that fails inside it is passed over. *)
Definition tpu_on_step_end (log_every_n_steps global_step : Z)
    (torch_xla_importable : bool) : result bool :=
  if log_every_n_steps =? 0 then Err ZeroDivisionError
  else Ok ((global_step mod log_every_n_steps =? 0) && torch_xla_importable).

End StepCallbacks.

(** ** Checks by evaluation *)

Module Checks.

(** [int(n * 0.95)] in binary64 and floor(19 n / 20) are the same integer for
    the [count] values of [n] from [n] on. *)
Fixpoint p95_agree (n : Z) (count : nat) : bool :=
  match count with
  | O => true
  | S count' =>
      if int_of_float (PrimFloat.mul (float_of_Z n) 0.95%float) =? 19 * n / 20
      then p95_agree (n + 1) count' else false
  end.

End Checks.

(** * Part II: properties *)

(** ** Text normalizer *)

Section flatten_facts.

Import DatasetAnalyzer.

Lemma format_line_spec (msg : message) : format_line msg = Spec.line msg.
Proof. reflexivity. Qed.

Lemma splitter_format_line_spec (msg : message) :
  DatasetSplitter.format_line msg = Spec.line msg.
Proof. reflexivity. Qed.

Lemma flatten_some (msgs : list message) :
  _format_messages_to_text (Some msgs) = String.concat nl (map Spec.line msgs).
Proof. destruct msgs; reflexivity. Qed.

Lemma splitter_flatten_some (msgs : list message) :
  DatasetSplitter._format_messages_to_text (Some msgs)
  = String.concat nl (map Spec.line msgs).
Proof. destruct msgs; reflexivity. Qed.

Lemma flatten_copies_agree (messages : option (list message)) :
  DatasetSplitter._format_messages_to_text messages
  = _format_messages_to_text messages.
Proof.
  destruct messages as [msgs|]; [|done].
  by rewrite splitter_flatten_some, flatten_some.
Qed.

End flatten_facts.

(** C9. For every message sequence, both copies of [_format_messages_to_text]
    return the lines ["<role>: <content>"] of the messages, one per message and
    in order (role defaulting to ["user"], content to the empty string when the
    key is absent), joined by a newline; an empty or absent list gives the empty
    string; [[{role: "user", content: "hi"}]] gives ["user: hi"]; and two calls
    on the same input return the same string. *)
Theorem flatten_lines_joined :
  (∀ msgs : list message,
      ∃ lines : list string,
        length lines = length msgs
        ∧ (∀ (i : nat) (msg : message),
              msgs !! i = Some msg → lines !! i = Some (Spec.line msg))
        ∧ DatasetAnalyzer._format_messages_to_text (Some msgs)
          = String.concat nl lines
        ∧ DatasetSplitter._format_messages_to_text (Some msgs)
          = String.concat nl lines)
  ∧ DatasetAnalyzer._format_messages_to_text None = ""
  ∧ DatasetAnalyzer._format_messages_to_text (Some []) = ""
  ∧ DatasetSplitter._format_messages_to_text None = ""
  ∧ DatasetSplitter._format_messages_to_text (Some []) = ""
  ∧ DatasetAnalyzer._format_messages_to_text
      (Some [ {[ "role" := SStr "user"; "content" := SStr "hi" ]} ]) = "user: hi"
  ∧ DatasetSplitter._format_messages_to_text
      (Some [ {[ "role" := SStr "user"; "content" := SStr "hi" ]} ]) = "user: hi"
  ∧ (∀ m1 m2 : option (list message),
        m1 = m2 →
        DatasetAnalyzer._format_messages_to_text m1
        = DatasetAnalyzer._format_messages_to_text m2
        ∧ DatasetSplitter._format_messages_to_text m1
          = DatasetSplitter._format_messages_to_text m2).
Proof.
  split; [|repeat split; try reflexivity; by subst].
  intros msgs. exists (map Spec.line msgs).
  split; [by rewrite length_map|].
  split; [|split; [apply flatten_some | apply splitter_flatten_some]].
  intros i msg Hi. by rewrite list_lookup_fmap, Hi.
Qed.

(** ** Substrings *)

Section substring_facts.

Import PyStr Spec.

Lemma append_nil (b : string) : "" +:+ b = b.
Proof. reflexivity. Qed.

Lemma append_cons (x : ascii) (a b : string) :
  String x a +:+ b = String x (a +:+ b).
Proof. reflexivity. Qed.

Lemma append_assoc (a b c : string) : (a +:+ b) +:+ c = a +:+ b +:+ c.
Proof.
  induction a as [|x a IH]; [done|].
  by rewrite !append_cons, IH.
Qed.

Lemma prefix_spec (needle hay : string) :
  String.prefix needle hay = true ↔ ∃ post, hay = needle +:+ post.
Proof.
  revert hay. induction needle as [|a needle IH]; intros hay.
  - destruct hay; simpl; split; eauto.
  - destruct hay as [|b hay]; simpl.
    + split; [done | by intros [post Hpost]].
    + destruct (ascii_dec a b) as [->|Hne].
      * rewrite IH. split; intros [post Hpost]; exists post.
        -- by rewrite append_cons, Hpost.
        -- rewrite append_cons in Hpost. congruence.
      * split; [done | intros [post Hpost]].
        rewrite append_cons in Hpost. congruence.
Qed.

(** The [in] operator decides the substring relation. *)
Lemma contains_spec (needle hay : string) :
  contains needle hay = true ↔ is_substring needle hay.
Proof.
  unfold is_substring. induction hay as [|c hay IH].
  - cbn [contains]. rewrite orb_false_r, prefix_spec. split.
    + intros [post Hpost]. by exists "", post.
    + intros [pre [post Hpost]]. destruct pre; [by exists post|done].
  - cbn [contains]. rewrite orb_true_iff, IH, prefix_spec. split.
    + intros [[post Hpost] | [pre [post Hpost]]].
      * by exists "", post.
      * exists (String c pre), post. by rewrite append_cons, Hpost.
    + intros [pre [post Hpost]]. destruct pre as [|c' pre].
      * left. by exists post.
      * right. exists pre, post. rewrite append_cons in Hpost. congruence.
Qed.

Lemma contains_false_spec (needle hay : string) :
  contains needle hay = false ↔ ¬ is_substring needle hay.
Proof. rewrite <- contains_spec. by destruct (contains needle hay). Qed.

(** A string that contains [pre' ++ needle] contains [needle]. *)
Lemma is_substring_drop_prefix (pre' needle hay : string) :
  is_substring (pre' +:+ needle) hay → is_substring needle hay.
Proof.
  intros [pre [post ->]]. exists (pre +:+ pre'), post.
  by rewrite !append_assoc.
Qed.

Lemma lower_ascii_idempotent (c : ascii) : lower_ascii (lower_ascii c) = lower_ascii c.
Proof.
  destruct c as [[] [] [] [] [] [] [] []]; reflexivity.
Qed.

Lemma lower_idempotent (s : string) : lower (lower s) = lower s.
Proof.
  induction s as [|c s IH]; [done|].
  simpl. by rewrite lower_ascii_idempotent, IH.
Qed.

End substring_facts.

(** ** Dynamic LoRA parameter selector *)

Section lora_facts.

Import PyStr Spec LoraConfig.

Lemma small_tier_reflect (name : string) :
  contains "0.5b" (lower name) || contains "0.6b" (lower name)
  || contains "270m" (lower name) = true ↔ small_tier name.
Proof.
  unfold small_tier, matches. rewrite !orb_true_iff, !contains_spec. tauto.
Qed.

Lemma medium_tier_reflect (name : string) :
  contains "1.5b" (lower name) || contains "1b" (lower name)
  || contains "1.7b" (lower name) = true ↔ medium_tier name.
Proof.
  unfold medium_tier, matches. rewrite !orb_true_iff, !contains_spec. tauto.
Qed.

Lemma large_tier_reflect (name : string) :
  contains "6b" (lower name) || contains "7b" (lower name) = true ↔ large_tier name.
Proof.
  unfold large_tier, matches. rewrite !orb_true_iff, !contains_spec. tauto.
Qed.

(** The selector as a table over the three tier tests. *)
Lemma lora_config_cases (name : string) (msl : Z) :
  let small := contains "0.5b" (lower name) || contains "0.6b" (lower name)
               || contains "270m" (lower name) in
  let medium := contains "1.5b" (lower name) || contains "1b" (lower name)
                || contains "1.7b" (lower name) in
  let large := contains "6b" (lower name) || contains "7b" (lower name) in
  get_dynamic_lora_config name msl
  = {| r := if small then 8 else if medium then 16 else if large then 32 else 16;
       lora_alpha := if small then 16 else if medium then 32
                     else if large then 64 else 32;
       target_modules :=
         ["q_proj"; "k_proj"; "v_proj"; "o_proj"; "gate_proj"; "up_proj"; "down_proj"];
       lora_dropout := 0;
       bias := "none";
       task_type := "CAUSAL_LM";
       use_rslora := large;
       use_gradient_checkpointing := "unsloth" |}.
Proof.
  intros small medium large. unfold get_dynamic_lora_config.
  fold small medium large.
  by destruct small, medium, large.
Qed.

Lemma use_rslora_large (name : string) (msl : Z) :
  use_rslora (get_dynamic_lora_config name msl) = true ↔ large_tier name.
Proof. rewrite lora_config_cases. apply large_tier_reflect. Qed.

(** ["0.6b"] is ["0." ++ "6b"]: a name of the small tier through ["0.6b"] is
    also a name of the large tier. *)
Lemma matches_06b_6b (name : string) : matches "0.6b" name → matches "6b" name.
Proof. apply (is_substring_drop_prefix "0." "6b"). Qed.

End lora_facts.

(** C6. [get_dynamic_lora_config] picks rank and alpha by substring match on
    the lower-cased model name, the first matching tier winning: ["0.5b"],
    ["0.6b"] or ["270m"] give (8, 16); otherwise ["1.5b"], ["1b"] or ["1.7b"]
    give (16, 32); otherwise ["6b"] or ["7b"] give (32, 64); any other name
    gives (16, 32) with rank-stabilized scaling off. The target modules are
    always the same seven projections, and names that differ in letter case
    only get the same configuration. *)
Theorem lora_tiers_first_match_wins (name : string) (max_seq_length : Z) :
  let cfg := LoraConfig.get_dynamic_lora_config name max_seq_length in
  (Spec.small_tier name →
     LoraConfig.r cfg = 8 ∧ LoraConfig.lora_alpha cfg = 16)
  ∧ (¬ Spec.small_tier name → Spec.medium_tier name →
     LoraConfig.r cfg = 16 ∧ LoraConfig.lora_alpha cfg = 32)
  ∧ (¬ Spec.small_tier name → ¬ Spec.medium_tier name → Spec.large_tier name →
     LoraConfig.r cfg = 32 ∧ LoraConfig.lora_alpha cfg = 64)
  ∧ (¬ Spec.small_tier name → ¬ Spec.medium_tier name → ¬ Spec.large_tier name →
     LoraConfig.r cfg = 16 ∧ LoraConfig.lora_alpha cfg = 32
     ∧ LoraConfig.use_rslora cfg = false)
  ∧ LoraConfig.target_modules cfg
    = ["q_proj"; "k_proj"; "v_proj"; "o_proj"; "gate_proj"; "up_proj"; "down_proj"]
  ∧ (∀ name' : string,
        PyStr.lower name' = PyStr.lower name →
        LoraConfig.get_dynamic_lora_config name' max_seq_length = cfg).
Proof.
  intros cfg. subst cfg.
  assert (Hcase : ∀ name' : string,
             PyStr.lower name' = PyStr.lower name →
             LoraConfig.get_dynamic_lora_config name' max_seq_length
             = LoraConfig.get_dynamic_lora_config name max_seq_length).
  { intros name' Hname. rewrite !lora_config_cases. by rewrite Hname. }
  revert Hcase. rewrite lora_config_cases. intros Hcase.
  rewrite <- (small_tier_reflect name), <- (medium_tier_reflect name),
    <- (large_tier_reflect name).
  cbn [LoraConfig.r LoraConfig.lora_alpha LoraConfig.use_rslora
       LoraConfig.target_modules].
  set (small := PyStr.contains "0.5b" (PyStr.lower name)
                || PyStr.contains "0.6b" (PyStr.lower name)
                || PyStr.contains "270m" (PyStr.lower name)).
  set (medium := PyStr.contains "1.5b" (PyStr.lower name)
                 || PyStr.contains "1b" (PyStr.lower name)
                 || PyStr.contains "1.7b" (PyStr.lower name)).
  set (large := PyStr.contains "6b" (PyStr.lower name)
                || PyStr.contains "7b" (PyStr.lower name)).
  split_and!; [..|exact Hcase];
    destruct small, medium, large; intros; try done; exfalso; auto.
Qed.

(** The three configurations the specification lists. *)
Example lora_qwen3_06b :
  LoraConfig.r (LoraConfig.get_dynamic_lora_config "Qwen/Qwen3-0.6B" 2048) = 8.
Proof. reflexivity. Qed.

Example lora_some_7b_model :
  LoraConfig.use_rslora (LoraConfig.get_dynamic_lora_config "some-7b-model" 2048) = true.
Proof. reflexivity. Qed.

Example lora_unknown_model :
  let cfg := LoraConfig.get_dynamic_lora_config "unknown-model-xyz" 2048 in
  (LoraConfig.r cfg, LoraConfig.lora_alpha cfg, LoraConfig.use_rslora cfg)
  = (16, 32, false).
Proof. reflexivity. Qed.

(** C7. Every model name that contains ["0.6b"] after lower-casing gets the
    small tier's rank 8 and alpha 16 and still has rank-stabilized scaling on,
    because the scaling test looks for ["6b"], which ["0.6b"] contains. *)
Theorem lora_06b_rank8_with_rslora (name : string) (max_seq_length : Z) :
  Spec.matches "0.6b" name →
  let cfg := LoraConfig.get_dynamic_lora_config name max_seq_length in
  LoraConfig.r cfg = 8 ∧ LoraConfig.lora_alpha cfg = 16
  ∧ LoraConfig.use_rslora cfg = true
  ∧ Spec.matches "6b" name.
Proof.
  intros H06 cfg.
  assert (Hsmall : Spec.small_tier name) by (right; by left).
  assert (H6 : Spec.matches "6b" name) by by apply matches_06b_6b.
  assert (Hlarge : LoraConfig.use_rslora cfg = true)
    by (apply use_rslora_large; by left).
  apply small_tier_reflect in Hsmall.
  subst cfg. revert Hlarge. rewrite lora_config_cases.
  cbn [LoraConfig.r LoraConfig.lora_alpha LoraConfig.use_rslora].
  by rewrite Hsmall.
Qed.

Lemma lora_06b_rank8_with_rslora_witness :
  Spec.matches "0.6b" "Qwen/Qwen3-0.6B"
  ∧ LoraConfig.r (LoraConfig.get_dynamic_lora_config "Qwen/Qwen3-0.6B" 2048) = 8
  ∧ LoraConfig.lora_alpha (LoraConfig.get_dynamic_lora_config "Qwen/Qwen3-0.6B" 2048) = 16
  ∧ LoraConfig.use_rslora (LoraConfig.get_dynamic_lora_config "Qwen/Qwen3-0.6B" 2048) = true
  ∧ Spec.matches "6b" "Qwen/Qwen3-0.6B".
Proof.
  assert (H : Spec.matches "0.6b" "Qwen/Qwen3-0.6B")
    by (apply contains_spec; reflexivity).
  split; [exact H|].
  exact (lora_06b_rank8_with_rslora "Qwen/Qwen3-0.6B" 2048 H).
Defined.

(** ** Dataset analyzer *)

Section traverse_facts.

Context {A B : Type}.

Lemma traverse_ok (f : A → result B) (g : A → B) (xs : list A) :
  Forall (fun x => f x = Ok (g x)) xs → traverse f xs = Ok (map g xs).
Proof.
  induction 1 as [|x xs Hx _ IH]; [done|].
  cbn [traverse]. rewrite Hx. cbn. rewrite IH. reflexivity.
Qed.

Lemma traverse_length (f : A → result B) (xs : list A) (ys : list B) :
  traverse f xs = Ok ys → length ys = length xs.
Proof.
  revert ys. induction xs as [|x xs IH]; intros ys; cbn [traverse].
  - by intros [= <-].
  - destruct (f x) as [y|e]; cbn; [|done].
    destruct (traverse f xs) as [ys'|e]; cbn; [|done].
    intros [= <-]. cbn. by rewrite (IH ys').
Qed.

End traverse_facts.

Section analyzer_facts.

Import DatasetAnalyzer Spec.

Variable tokenizer : Tokenizer.

(** Step 6 and the tiers, spelled out. *)
Lemma p95_index_lt (n : nat) : (0 < n)%nat → (p95_index n < n)%nat.
Proof.
  intros Hn. unfold p95_index.
  assert (19 * Z.of_nat n / 20 < Z.of_nat n).
  { apply Z.div_lt_upper_bound; lia. }
  assert (0 <= 19 * Z.of_nat n / 20) by (apply Z.div_pos; lia).
  lia.
Qed.

Lemma format_cell_conversational (x : row) :
  is_Some (row_messages x) →
  format_cell (default (CMessages []) (x !! "messages"))
  = Ok (_format_messages_to_text (default None (row_messages x))).
Proof.
  unfold row_messages. intros [m Hm].
  destruct (x !! "messages") as [[| | |msgs]|]; simplify_eq; reflexivity.
Qed.


Lemma column_added (key : string) (cols : list string) :
  key ∈ (if bool_decide (key ∈ cols) then cols else cols ++ [key]).
Proof. case_bool_decide; [done | set_solver]. Qed.

Lemma column_kept (key key' : string) (cols : list string) :
  key' ∈ cols → key' ∈ (if bool_decide (key ∈ cols) then cols else cols ++ [key]).
Proof. case_bool_decide; set_solver. Qed.

(** The function, with lines 58-89 folded into [configuration]. *)
Lemma analyze_eq (dataset : Dataset) (max_length : Z) (vram_gb : float) :
  analyze_dataset_and_configure dataset tokenizer max_length vram_gb
  = (if negb (bool_decide ("messages" ∈ column_names dataset))
     then Err (ValueError missing_messages_msg) else
     dataset ← Dataset_map "text"
       (fun x => text ← format_cell (default (CMessages []) (x !! "messages"));
                 Ok (CStr text)) dataset;
     if negb (bool_decide ("text" ∈ column_names dataset))
     then Err (ValueError text_not_created_msg) else
     dataset ← Dataset_map "length"
       (fun x => match x !! "text" with
                 | Some (CStr text) =>
                     Ok (CInt (Z.of_nat (length (encode tokenizer text false))))
                 | Some _ => Err TypeError
                 | None => Err (KeyError "text")
                 end) dataset;
     column ← Dataset_int_column "length" dataset;
     p95_length ← getitem (merge_sort Z.le column)
                          (p95_index (length (merge_sort Z.le column)));
     Ok (dataset, configuration p95_length max_length vram_gb)).
Proof.
  unfold analyze_dataset_and_configure.
  destruct (negb _); [done|].
  destruct (Dataset_map "text" _ dataset) as [ds1|e]; [|done].
  cbn [mbind result_bind].
  destruct (negb _); [done|].
  destruct (Dataset_map "length" _ ds1) as [ds2|e]; [|done].
  cbn [mbind result_bind].
  destruct (Dataset_int_column _ ds2) as [column|e]; [|done].
  cbn [mbind result_bind].
  destruct (getitem _ _) as [p95|e]; [|done].
  cbn [mbind result_bind]. unfold configuration.
  destruct (PrimFloat.leb _ _); [|done].
  repeat (destruct (_ <=? _); [done|]). done.
Qed.

Lemma Dataset_map_rows (key : string) (f : row → result cell)
    (dataset dataset' : Dataset) :
  Dataset_map key f dataset = Ok dataset' →
  length (rows dataset') = length (rows dataset)
  ∧ key ∈ column_names dataset'
  ∧ (∀ key', key' ∈ column_names dataset → key' ∈ column_names dataset').
Proof.
  unfold Dataset_map.
  destruct (traverse _ (rows dataset)) as [rows'|e] eqn:Hrows; [|done].
  cbn [mbind result_bind]. intros [= <-]. cbn [rows column_names].
  split; [by apply traverse_length in Hrows|].
  split; [apply column_added | intros key'; apply column_kept].
Qed.

Lemma Dataset_int_column_length (key : string) (dataset : Dataset) (column : list Z) :
  Dataset_int_column key dataset = Ok column →
  length column = length (rows dataset).
Proof.
  unfold Dataset_int_column. case_bool_decide; [|done].
  apply traverse_length.
Qed.

(** What a returned configuration is made of: the percentile read off the
    sorted [length] column, one entry per row, and lines 58-89 applied to it. *)
Lemma analyze_inv (dataset dataset' : Dataset) (max_length : Z) (vram_gb : float)
    (cfg : dynamic_config) :
  analyze_dataset_and_configure dataset tokenizer max_length vram_gb
  = Ok (dataset', cfg) →
  "messages" ∈ column_names dataset
  ∧ ∃ (column : list Z) (p95_length : Z),
      length column = length (rows dataset)
      ∧ merge_sort Z.le column !! p95_index (length column) = Some p95_length
      ∧ cfg = configuration p95_length max_length vram_gb.
Proof.
  rewrite analyze_eq.
  case_bool_decide as Hmsg; [cbn [negb]|done].
  destruct (Dataset_map "text" _ dataset) as [ds1|e] eqn:H1; [|done].
  cbn [mbind result_bind].
  destruct (negb _); [done|].
  destruct (Dataset_map "length" _ ds1) as [ds2|e] eqn:H2; [|done].
  cbn [mbind result_bind].
  destruct (Dataset_int_column _ ds2) as [column|e] eqn:H3; [|done].
  cbn [mbind result_bind].
  unfold getitem.
  destruct (merge_sort Z.le column !! _) as [p95|] eqn:H4; [|done].
  cbn [mbind result_bind]. intros [= <- <-].
  split; [done|]. exists column, p95.
  apply Dataset_map_rows in H1 as (Hl1 & _ & _).
  apply Dataset_map_rows in H2 as (Hl2 & _ & _).
  apply Dataset_int_column_length in H3.
  split; [congruence|]. split; [|done].
  by rewrite <- H4, (Permutation_length (merge_sort_Permutation Z.le column)).
Qed.

Lemma traverse_map {A B C : Type} (f : B → result C) (h : A → B) (xs : list A) :
  traverse f (map h xs) = traverse (fun x => f (h x)) xs.
Proof.
  induction xs as [|x xs IH]; [done|].
  cbn [map traverse]. by rewrite IH.
Qed.

(** On a conversational dataset with a [messages] column and at least one
    row, the function returns: the rows annotated with [text] and [length],
    and the configuration of the percentile of the sorted token lengths. *)
Lemma analyze_returns_configuration (dataset : Dataset) (max_length : Z)
    (vram_gb : float) :
  "messages" ∈ column_names dataset →
  conversational dataset →
  rows dataset ≠ [] →
  ∃ (dataset' : Dataset) (p95_length : Z),
    analyze_dataset_and_configure dataset tokenizer max_length vram_gb
    = Ok (dataset', configuration p95_length max_length vram_gb)
    ∧ rows dataset' = map (annotated tokenizer) (rows dataset)
    ∧ merge_sort Z.le (map (token_length tokenizer) (rows dataset))
        !! p95_index (length (rows dataset)) = Some p95_length.
Proof.
  intros Hmsg Hconv Hne. rewrite analyze_eq.
  rewrite bool_decide_eq_true_2 by done. cbn [negb].
  unfold Dataset_map at 2.
  rewrite (traverse_ok _
    (fun x => <["text" := CStr (_format_messages_to_text
                                  (default None (row_messages x)))]> x)).
  2:{ eapply Forall_impl; [exact Hconv|]. intros x Hx. cbv beta.
      by rewrite (format_cell_conversational x Hx). }
  cbn [mbind result_bind column_names].
  set (cols1 := if bool_decide ("text" ∈ column_names dataset)
                then column_names dataset else column_names dataset ++ ["text"]).
  assert (Htext : "text" ∈ cols1) by apply column_added.
  clearbody cols1.
  rewrite bool_decide_eq_true_2 by done. cbn [negb].
  unfold Dataset_map. cbn [rows column_names].
  rewrite traverse_map.
  rewrite (traverse_ok _ (annotated tokenizer)).
  2:{ apply Forall_forall. intros x _. cbv beta.
      by rewrite lookup_insert_eq. }
  cbn [mbind result_bind].
  set (cols2 := if bool_decide ("length" ∈ cols1) then cols1 else cols1 ++ ["length"]).
  assert (Hlength : "length" ∈ cols2) by apply column_added.
  clearbody cols2.
  unfold Dataset_int_column. cbn [rows column_names].
  rewrite bool_decide_eq_true_2 by done.
  rewrite traverse_map.
  rewrite (traverse_ok _ (token_length tokenizer)).
  2:{ apply Forall_forall. intros x _. cbv beta. unfold annotated.
      by rewrite lookup_insert_eq. }
  cbn [mbind result_bind]. unfold getitem.
  set (lengths := merge_sort Z.le (map (token_length tokenizer) (rows dataset))).
  assert (Hlen : length lengths = length (rows dataset)).
  { unfold lengths.
    by rewrite (Permutation_length (merge_sort_Permutation Z.le _)), length_map. }
  rewrite Hlen.
  destruct (lookup_lt_is_Some_2 lengths (p95_index (length (rows dataset))))
    as [p95 Hp95].
  { rewrite Hlen. apply p95_index_lt. destruct (rows dataset); [done|cbn; lia]. }
  rewrite Hp95. cbn [mbind result_bind].
  by eexists _, p95.
Qed.

Lemma config_of_ok (r : result (Dataset * dynamic_config)) (cfg : dynamic_config) :
  config_of r = Ok cfg ↔ ∃ dataset', r = Ok (dataset', cfg).
Proof.
  unfold config_of. destruct r as [[dataset' cfg']|e]; cbn [mbind result_bind].
  - split; [intros [= ->]; by exists dataset' | by intros [? [= _ ->]]].
  - split; [done | by intros [? ?]].
Qed.

Lemma traverse_err {A B : Type} (f : A → result B) (xs : list A) (e : exn) :
  traverse f xs = Err e → ∃ x, x ∈ xs ∧ f x = Err e.
Proof.
  induction xs as [|x xs IH]; cbn [traverse]; [done|].
  destruct (f x) as [y|e'] eqn:Hx; cbn [mbind result_bind].
  - destruct (traverse f xs) as [ys|e']; cbn [mbind result_bind]; [done|].
    intros [= ->]. destruct IH as (x' & Hin & Hx'); [done|].
    exists x'. split; [by right | done].
  - intros [= ->]. exists x. split; [by left | done].
Qed.


(** The returned sequence length: step 6, then the cap of the last tier. *)
Lemma configuration_max_seq_length (p95_length max_length : Z) (vram_gb : float) :
  max_seq_length (configuration p95_length max_length vram_gb)
  = let determined := Z.max (Z.min max_length (p95_length + 256)) 512 in
    if PrimFloat.leb 16.0%float vram_gb && (4096 <? determined)
    then Z.min determined 8192 else determined.
Proof.
  unfold configuration. cbv zeta.
  generalize (Z.max (Z.min max_length (p95_length + 256)) 512). intros d.
  destruct (PrimFloat.leb _ _); cbn [andb]; [|done].
  destruct (d <=? 1024) eqn:H1; [|destruct (d <=? 2048) eqn:H2;
    [|destruct (d <=? 4096) eqn:H3]];
    destruct (4096 <? d) eqn:H4; cbn [max_seq_length]; lia.
Qed.

(** The batch tiers, keyed by the step-6 value. *)
Lemma configuration_tiers (p95_length max_length : Z) (vram_gb : float) :
  let determined := Z.max (Z.min max_length (p95_length + 256)) 512 in
  let cfg := configuration p95_length max_length vram_gb in
  (per_device_train_batch_size cfg, gradient_accumulation_steps cfg)
  = (if PrimFloat.leb 16.0%float vram_gb then
       if determined <=? 1024 then (2, 8)
       else if determined <=? 2048 then (1, 16)
       else if determined <=? 4096 then (1, 32)
       else (1, 64)
     else (1, 16))
  ∧ effective_batch_size cfg
    = per_device_train_batch_size cfg * gradient_accumulation_steps cfg
  ∧ use_gradient_checkpointing cfg = true.
Proof.
  unfold configuration. cbv zeta.
  destruct (PrimFloat.leb _ _); [|done].
  by repeat (destruct (_ <=? _)).
Qed.

End analyzer_facts.

Section example_facts.

Import DatasetAnalyzer Spec Examples.

Lemma user_row_conversational (content : string) :
  is_Some (row_messages (user_row content)).
Proof. unfold row_messages, user_row. by rewrite lookup_singleton_eq. Qed.

Lemma boundary_dataset_conversational : conversational boundary_dataset.
Proof.
  unfold conversational, boundary_dataset. cbn [rows].
  apply Forall_app. split.
  - apply Forall_replicate, user_row_conversational.
  - repeat constructor. apply user_row_conversational.
Qed.


Lemma boundary_lengths_sorted : Sorted Z.le (replicate 94 100 ++ [5000]).
Proof. apply (bool_decide_unpack _). by vm_compute. Qed.

End example_facts.

(** C1, as amended. For every non-empty conversational dataset with a
    [messages] column, [analyze_dataset_and_configure] returns; the sorted
    token lengths are an ascending rearrangement of the per-record lengths;
    p95 is the entry at index floor(0.95 N), not interpolated; and the returned
    [max_seq_length] is clamp(min(max_length, p95 + 256), 512, max_length),
    further capped at 8192 when the memory is at least 16.0 and the clamped
    value exceeds 4096. For lengths [[100]*94 + [5000]] and max_length 32768
    the percentile is 100 and the result 512. *)
Theorem analyze_percentile_sequence_length
    (dataset : Dataset) (tokenizer : Tokenizer) (max_length : Z) (vram_gb : float) :
  "messages" ∈ column_names dataset →
  Spec.conversational dataset →
  rows dataset ≠ [] →
  ∃ (dataset' : Dataset) (cfg : DatasetAnalyzer.dynamic_config)
    (lengths : list Z) (p95 : Z),
    DatasetAnalyzer.analyze_dataset_and_configure dataset tokenizer max_length vram_gb
    = Ok (dataset', cfg)
    ∧ Sorted Z.le lengths
    ∧ lengths ≡ₚ map (Spec.token_length tokenizer) (rows dataset)
    ∧ lengths !! Z.to_nat (19 * Z.of_nat (length (rows dataset)) / 20) = Some p95
    ∧ DatasetAnalyzer.max_seq_length cfg
      = (let clamped := Spec.clamp (Z.min max_length (p95 + 256)) 512 max_length in
         if PrimFloat.leb 16.0%float vram_gb && (4096 <? clamped)
         then Z.min clamped 8192 else clamped)
    ∧ (max_length = 32768 →
       map (Spec.token_length tokenizer) (rows dataset) ≡ₚ replicate 94 100 ++ [5000] →
       p95 = 100 ∧ DatasetAnalyzer.max_seq_length cfg = 512).
Proof.
  intros Hmsg Hconv Hne.
  destruct (analyze_returns_configuration tokenizer dataset max_length vram_gb
              Hmsg Hconv Hne) as (dataset' & p95 & Hret & _ & Hp95).
  set (lengths := merge_sort Z.le (map (Spec.token_length tokenizer) (rows dataset)))
    in *.
  assert (Hsorted : Sorted Z.le lengths) by apply (Sorted_merge_sort Z.le).
  assert (Hperm : lengths ≡ₚ map (Spec.token_length tokenizer) (rows dataset))
    by apply merge_sort_Permutation.
  assert (Hmax : DatasetAnalyzer.max_seq_length
                   (DatasetAnalyzer.configuration p95 max_length vram_gb)
                 = (let clamped :=
                      Spec.clamp (Z.min max_length (p95 + 256)) 512 max_length in
                    if PrimFloat.leb 16.0%float vram_gb && (4096 <? clamped)
                    then Z.min clamped 8192 else clamped)).
  { rewrite configuration_max_seq_length. unfold Spec.clamp. cbv zeta.
    replace (Z.min (Z.min max_length (p95 + 256)) max_length)
      with (Z.min max_length (p95 + 256)) by lia.
    by rewrite (Z.max_comm 512). }
  exists dataset', (DatasetAnalyzer.configuration p95 max_length vram_gb), lengths, p95.
  split_and!; try done.
  intros -> Hdata.
  assert (Heq : lengths = replicate 94 100 ++ [5000]).
  { apply (Sorted_unique Z.le); [done | apply boundary_lengths_sorted |].
    by rewrite Hperm. }
  assert (Hn : length (rows dataset) = 95%nat).
  { rewrite <- (length_map (Spec.token_length tokenizer)).
    by rewrite (Permutation_length Hdata). }
  unfold DatasetAnalyzer.p95_index in Hp95. rewrite Hn, Heq in Hp95.
  assert (p95 = 100) as -> by (vm_compute in Hp95; congruence).
  split; [done|]. rewrite Hmax. unfold Spec.clamp. cbv zeta.
  replace (4096 <? _) with false by (symmetry; apply Z.ltb_ge; lia).
  rewrite andb_false_r. lia.
Qed.

Lemma analyze_percentile_sequence_length_witness :
  ∃ (dataset' : Dataset) (cfg : DatasetAnalyzer.dynamic_config)
    (lengths : list Z) (p95 : Z),
    DatasetAnalyzer.analyze_dataset_and_configure
      Examples.boundary_dataset Examples.char_tokenizer 32768 16.0%float
    = Ok (dataset', cfg)
    ∧ Sorted Z.le lengths
    ∧ lengths ≡ₚ map (Spec.token_length Examples.char_tokenizer)
                   (rows Examples.boundary_dataset)
    ∧ lengths !! Z.to_nat (19 * Z.of_nat (length (rows Examples.boundary_dataset)) / 20)
      = Some p95
    ∧ DatasetAnalyzer.max_seq_length cfg
      = (let clamped := Spec.clamp (Z.min 32768 (p95 + 256)) 512 32768 in
         if PrimFloat.leb 16.0%float 16.0%float && (4096 <? clamped)
         then Z.min clamped 8192 else clamped)
    ∧ (32768 = 32768 →
       map (Spec.token_length Examples.char_tokenizer) (rows Examples.boundary_dataset)
       ≡ₚ replicate 94 100 ++ [5000] →
       p95 = 100 ∧ DatasetAnalyzer.max_seq_length cfg = 512).
Proof.
  apply (analyze_percentile_sequence_length
           Examples.boundary_dataset Examples.char_tokenizer 32768 16.0%float).
  - apply list_elem_of_here.
  - apply boundary_dataset_conversational.
  - discriminate.
Defined.

(** The boundary case of the specification, evaluated. *)
Example analyze_boundary_dataset :
  DatasetAnalyzer.config_of
    (DatasetAnalyzer.analyze_dataset_and_configure
       Examples.boundary_dataset Examples.char_tokenizer 32768 16.0%float)
  = Ok {| DatasetAnalyzer.max_seq_length := 512;
          DatasetAnalyzer.per_device_train_batch_size := 2;
          DatasetAnalyzer.gradient_accumulation_steps := 8;
          DatasetAnalyzer.effective_batch_size := 16;
          DatasetAnalyzer.use_gradient_checkpointing := true |}
  ∧ map (Spec.token_length Examples.char_tokenizer) (rows Examples.boundary_dataset)
    = replicate 94 100 ++ [5000].
Proof. split; by vm_compute. Qed.

(** C1, the claim as stated fails: one record of 10000 tokens, max_length
    32768 and 16.0 GB. The clamp of step 6 gives 10256, and the function
    returns 8192. *)
Lemma analyze_returns_capped_not_clamped :
  DatasetAnalyzer.config_of
    (DatasetAnalyzer.analyze_dataset_and_configure
       (Examples.one_row_dataset 10000) Examples.char_tokenizer 32768 16.0%float)
  = Ok {| DatasetAnalyzer.max_seq_length := 8192;
          DatasetAnalyzer.per_device_train_batch_size := 1;
          DatasetAnalyzer.gradient_accumulation_steps := 64;
          DatasetAnalyzer.effective_batch_size := 64;
          DatasetAnalyzer.use_gradient_checkpointing := true |}
  ∧ merge_sort Z.le (map (Spec.token_length Examples.char_tokenizer)
                         (rows (Examples.one_row_dataset 10000)))
    = [10000]
  ∧ Spec.clamp (Z.min 32768 (10000 + 256)) 512 32768 = 10256.
Proof. split_and!; by vm_compute. Qed.

(** ** The analyzer in its module *)

Section analyzer_module_facts.

Import DatasetAnalyzer Spec.

Variable tokenizer : Tokenizer.

Lemma module_analyze_bound (cpus : Z) (dataset : Dataset) (max_length : Z)
    (vram_gb : float) :
  DatasetAnalyzerModule.analyze_dataset_and_configure
    (DatasetAnalyzerModule.Bound (Some cpus)) dataset tokenizer max_length vram_gb
  = analyze_dataset_and_configure dataset tokenizer max_length vram_gb.
Proof.
  unfold DatasetAnalyzerModule.analyze_dataset_and_configure,
    analyze_dataset_and_configure.
  by destruct (negb _).
Qed.

Lemma module_analyze_ok (os : DatasetAnalyzerModule.os_binding) (dataset : Dataset)
    (max_length : Z) (vram_gb : float) (r : Dataset * dynamic_config) :
  DatasetAnalyzerModule.analyze_dataset_and_configure
    os dataset tokenizer max_length vram_gb = Ok r →
  (∃ cpus, os = DatasetAnalyzerModule.Bound (Some cpus))
  ∧ analyze_dataset_and_configure dataset tokenizer max_length vram_gb = Ok r.
Proof.
  unfold DatasetAnalyzerModule.analyze_dataset_and_configure.
  destruct (negb _); [done|].
  destruct os as [|[cpus|]]; cbn [DatasetAnalyzerModule.num_proc mbind result_bind];
    [done| |done].
  intros Hr. split; [by exists cpus | done].
Qed.


Lemma module_config_of_ok (os : DatasetAnalyzerModule.os_binding) (dataset : Dataset)
    (max_length : Z) (vram_gb : float) (cfg : dynamic_config) :
  config_of (DatasetAnalyzerModule.analyze_dataset_and_configure
               os dataset tokenizer max_length vram_gb) = Ok cfg →
  ∃ p95_length : Z, cfg = configuration p95_length max_length vram_gb.
Proof.
  intros Hcfg. apply config_of_ok in Hcfg as [dataset' Hret].
  apply module_analyze_ok in Hret as [_ Hret].
  apply analyze_inv in Hret as (_ & column & p95 & _ & _ & ->).
  by exists p95.
Qed.

Lemma Dataset_map_columns (key : string) (f : row → result cell)
    (dataset dataset' : Dataset) :
  Dataset_map key f dataset = Ok dataset' →
  column_names dataset'
  = if bool_decide (key ∈ column_names dataset) then column_names dataset
    else column_names dataset ++ [key].
Proof.
  unfold Dataset_map.
  destruct (traverse _ (rows dataset)) as [rows'|e]; [|done].
  cbn [mbind result_bind]. by intros [= <-].
Qed.

Lemma column_iff (key key' : string) (cols : list string) :
  key' ∈ (if bool_decide (key ∈ cols) then cols else cols ++ [key])
  ↔ key' ∈ cols ∨ key' = key.
Proof.
  case_bool_decide as Hkey; rewrite ?elem_of_app, ?list_elem_of_singleton;
    [|done].
  split; [by left | by intros [?| ->]].
Qed.

(** The columns of the returned dataset: those of the input, [text] and
    [length]. *)
Lemma analyze_columns (dataset dataset' : Dataset) (max_length : Z) (vram_gb : float)
    (cfg : dynamic_config) :
  analyze_dataset_and_configure dataset tokenizer max_length vram_gb
  = Ok (dataset', cfg) →
  ∀ key : string,
    key ∈ column_names dataset'
    ↔ key ∈ column_names dataset ∨ key = "text" ∨ key = "length".
Proof.
  rewrite analyze_eq.
  destruct (negb _); [done|].
  destruct (Dataset_map "text" _ dataset) as [ds1|e] eqn:H1; [|done].
  cbn [mbind result_bind].
  destruct (negb _); [done|].
  destruct (Dataset_map "length" _ ds1) as [ds2|e] eqn:H2; [|done].
  cbn [mbind result_bind].
  destruct (Dataset_int_column _ ds2) as [column|e]; [|done].
  cbn [mbind result_bind].
  destruct (getitem _ _) as [p95|e]; [|done].
  cbn [mbind result_bind]. intros [= <- _] key.
  apply Dataset_map_columns in H1, H2. rewrite H2, H1, !column_iff. tauto.
Qed.

(** In a sorted list the entries up to an index are at most the entry at the
    index. *)
Lemma sorted_prefix_le (l : list Z) (i : nat) (x : Z) :
  Sorted Z.le l → l !! i = Some x → Forall (fun y => y ≤ x) (take (S i) l).
Proof.
  intros Hsorted%Sorted_StronglySorted; [|intros ???; lia].
  revert i. induction Hsorted as [|y l Hl IH Hy]; intros i Hi; [done|].
  destruct i as [|i]; cbn in Hi |- *.
  - simplify_eq. rewrite take_0. by repeat constructor.
  - constructor.
    + rewrite Forall_forall in Hy. apply Hy. by eapply list_elem_of_lookup_2.
    + by apply IH.
Qed.

Lemma filter_length_take (P : Z → Prop) `{!∀ y, Decision (P y)} (l : list Z) (n : nat) :
  Forall P (take n l) → (n ≤ length l)%nat → (n ≤ length (filter P l))%nat.
Proof.
  intros Hall Hn. rewrite <- (take_drop n l) at 1. rewrite filter_app, length_app.
  assert (filter P (take n l) = take n l) as ->.
  { clear Hn. induction Hall as [|y l' Hy _ IH]; [done|].
    by rewrite filter_cons_True, IH. }
  rewrite length_take. lia.
Qed.

(** The entry at index floor(0.95 N) of a sorted list bounds more than 19 in
    20 of its entries. *)
Lemma sorted_percentile_covers (l : list Z) (x : Z) :
  Sorted Z.le l → l !! p95_index (length l) = Some x →
  19 * Z.of_nat (length l) < 20 * Z.of_nat (length (filter (fun y => y ≤ x) l)).
Proof.
  intros Hsorted Hx.
  pose proof (sorted_prefix_le _ _ _ Hsorted Hx) as Hall.
  apply (filter_length_take (fun y => y ≤ x)) in Hall;
    [|apply lookup_lt_Some in Hx; lia].
  unfold p95_index in Hall.
  pose proof (Z.mul_succ_div_gt (19 * Z.of_nat (length l)) 20 ltac:(lia)).
  assert (0 <= 19 * Z.of_nat (length l) / 20) by (apply Z.div_pos; lia).
  lia.
Qed.

End analyzer_module_facts.

(** X1. dataset_analyzer.py imports nothing, so the name [os] of line 31 is
    unbound when the module is used as it is written: every call raises, the
    [ValueError] of the missing [messages] column when the column is missing
    and [NameError] for [os] otherwise, and no call returns a configuration. *)
Theorem analyzer_as_written_never_returns
    (dataset : Dataset) (tokenizer : Tokenizer) (max_length : Z) (vram_gb : float) :
  ∃ e : exn,
    DatasetAnalyzerModule.analyze_dataset_and_configure
      DatasetAnalyzerModule.as_written dataset tokenizer max_length vram_gb = Err e
    ∧ ("messages" ∈ column_names dataset → e = NameError "os")
    ∧ ("messages" ∉ column_names dataset →
       e = ValueError DatasetAnalyzer.missing_messages_msg).
Proof.
  unfold DatasetAnalyzerModule.analyze_dataset_and_configure,
    DatasetAnalyzerModule.as_written.
  case_bool_decide as Hmsg; cbn [negb DatasetAnalyzerModule.num_proc mbind result_bind].
  - exists (NameError "os"). by split_and!.
  - exists (ValueError DatasetAnalyzer.missing_messages_msg). by split_and!.
Qed.

(** X2. With [os] bound and a processor count at hand, on a dataset with a
    [messages] column, at least one row and [None] or a message list in every
    [messages] cell, the analyzer returns. The returned dataset has the rows
    of the input in their order, each with [text] set to the flattened
    conversation and [length] to the number of tokens of that text; its
    columns are those of the input, [text] and [length]; and the
    configuration is the one of the entry at index floor(0.95 N) of the sorted
    token lengths. *)
Theorem analyzer_returns_annotated_rows
    (cpus : Z) (dataset : Dataset) (tokenizer : Tokenizer) (max_length : Z)
    (vram_gb : float) :
  "messages" ∈ column_names dataset →
  Spec.conversational dataset →
  rows dataset ≠ [] →
  ∃ (dataset' : Dataset) (p95 : Z),
    DatasetAnalyzerModule.analyze_dataset_and_configure
      (DatasetAnalyzerModule.Bound (Some cpus)) dataset tokenizer max_length vram_gb
    = Ok (dataset', DatasetAnalyzer.configuration p95 max_length vram_gb)
    ∧ merge_sort Z.le (map (Spec.token_length tokenizer) (rows dataset))
        !! Z.to_nat (19 * Z.of_nat (length (rows dataset)) / 20) = Some p95
    ∧ length (rows dataset') = length (rows dataset)
    ∧ (∀ (i : nat) (x : row),
          rows dataset !! i = Some x →
          ∃ text : string,
            DatasetAnalyzer.format_cell (default (CMessages []) (x !! "messages"))
            = Ok text
            ∧ rows dataset' !! i
              = Some (<["length" := CInt (Z.of_nat (length (encode tokenizer text false)))]>
                        (<["text" := CStr text]> x)))
    ∧ (∀ key : string,
          key ∈ column_names dataset'
          ↔ key ∈ column_names dataset ∨ key = "text" ∨ key = "length").
Proof.
  intros Hmsg Hconv Hne.
  destruct (analyze_returns_configuration tokenizer dataset max_length vram_gb
              Hmsg Hconv Hne) as (dataset' & p95 & Hret & Hrows & Hp95).
  exists dataset', p95. rewrite module_analyze_bound.
  split_and!; [done|done|by rewrite Hrows, length_map| |by eapply analyze_columns].
  intros i x Hx.
  exists (DatasetAnalyzer._format_messages_to_text (default None (Spec.row_messages x))).
  split.
  - apply format_cell_conversational.
    unfold Spec.conversational in Hconv. rewrite Forall_forall in Hconv.
    apply Hconv. by eapply list_elem_of_lookup_2.
  - by rewrite Hrows, list_lookup_fmap, Hx.
Qed.

Lemma analyzer_returns_annotated_rows_witness :
  ∃ (dataset' : Dataset) (p95 : Z),
    DatasetAnalyzerModule.analyze_dataset_and_configure
      (DatasetAnalyzerModule.Bound (Some 2)) Examples.boundary_dataset
      Examples.char_tokenizer 32768 16.0%float
    = Ok (dataset', DatasetAnalyzer.configuration p95 32768 16.0%float)
    ∧ merge_sort Z.le (map (Spec.token_length Examples.char_tokenizer)
                           (rows Examples.boundary_dataset))
        !! Z.to_nat (19 * Z.of_nat (length (rows Examples.boundary_dataset)) / 20)
      = Some p95
    ∧ length (rows dataset') = length (rows Examples.boundary_dataset)
    ∧ (∀ (i : nat) (x : row),
          rows Examples.boundary_dataset !! i = Some x →
          ∃ text : string,
            DatasetAnalyzer.format_cell (default (CMessages []) (x !! "messages"))
            = Ok text
            ∧ rows dataset' !! i
              = Some (<["length" := CInt (Z.of_nat (length
                                        (encode Examples.char_tokenizer text false)))]>
                        (<["text" := CStr text]> x)))
    ∧ (∀ key : string,
          key ∈ column_names dataset'
          ↔ key ∈ column_names Examples.boundary_dataset
            ∨ key = "text" ∨ key = "length").
Proof.
  apply (analyzer_returns_annotated_rows 2 Examples.boundary_dataset
           Examples.char_tokenizer 32768 16.0%float).
  - apply list_elem_of_here.
  - apply boundary_dataset_conversational.
  - discriminate.
Defined.

(** X3. Whatever the inputs and the binding of [os], a returned
    [max_seq_length] is at least 512 and at most the larger of [max_length]
    and 512, hence at most [max_length] when that is 512 or more; with memory
    of 16.0 or more it is at most 8192 as well. *)
Theorem returned_max_seq_length_bounds
    (os : DatasetAnalyzerModule.os_binding) (dataset : Dataset)
    (tokenizer : Tokenizer) (max_length : Z) (vram_gb : float)
    (cfg : DatasetAnalyzer.dynamic_config) :
  DatasetAnalyzer.config_of
    (DatasetAnalyzerModule.analyze_dataset_and_configure
       os dataset tokenizer max_length vram_gb) = Ok cfg →
  512 ≤ DatasetAnalyzer.max_seq_length cfg ≤ Z.max max_length 512
  ∧ (512 ≤ max_length → DatasetAnalyzer.max_seq_length cfg ≤ max_length)
  ∧ (PrimFloat.leb 16.0%float vram_gb = true →
     DatasetAnalyzer.max_seq_length cfg ≤ 8192).
Proof.
  intros [p95 ->]%module_config_of_ok.
  rewrite configuration_max_seq_length. cbv zeta.
  generalize (Z.min max_length (p95 + 256)) (Z.le_min_l max_length (p95 + 256)).
  intros d Hd.
  destruct (PrimFloat.leb _ _); cbn [andb].
  - destruct (4096 <? Z.max d 512) eqn:Hcap;
      [apply Z.ltb_lt in Hcap | apply Z.ltb_ge in Hcap]; lia.
  - split_and!; [lia..|done].
Qed.

Lemma returned_max_seq_length_bounds_witness :
  512 ≤ 8192 ≤ Z.max 32768 512
  ∧ (512 ≤ 32768 → 8192 ≤ 32768)
  ∧ (PrimFloat.leb 16.0%float 16.0%float = true → 8192 ≤ 8192).
Proof.
  assert (H : DatasetAnalyzer.config_of
                (DatasetAnalyzerModule.analyze_dataset_and_configure
                   (DatasetAnalyzerModule.Bound (Some 2))
                   (Examples.one_row_dataset 10000) Examples.char_tokenizer
                   32768 16.0%float)
              = Ok {| DatasetAnalyzer.max_seq_length := 8192;
                      DatasetAnalyzer.per_device_train_batch_size := 1;
                      DatasetAnalyzer.gradient_accumulation_steps := 64;
                      DatasetAnalyzer.effective_batch_size := 64;
                      DatasetAnalyzer.use_gradient_checkpointing := true |})
    by (vm_compute; reflexivity).
  exact (returned_max_seq_length_bounds _ _ _ _ _ _ H).
Defined.

(** X4. Every returned configuration is in the tier of its own
    [max_seq_length]: with memory of 16.0 or more, batch size and accumulation
    steps are (2, 8) up to 1024, (1, 16) up to 2048, (1, 32) up to 4096 and
    (1, 64) beyond; with less memory they are (1, 16). The effective batch
    size is their product, one of 16, 32 and 64, and gradient checkpointing is
    on. *)
Theorem returned_batch_tier
    (os : DatasetAnalyzerModule.os_binding) (dataset : Dataset)
    (tokenizer : Tokenizer) (max_length : Z) (vram_gb : float)
    (cfg : DatasetAnalyzer.dynamic_config) :
  DatasetAnalyzer.config_of
    (DatasetAnalyzerModule.analyze_dataset_and_configure
       os dataset tokenizer max_length vram_gb) = Ok cfg →
  (PrimFloat.leb 16.0%float vram_gb = true →
     (DatasetAnalyzer.max_seq_length cfg ≤ 1024 →
        DatasetAnalyzer.per_device_train_batch_size cfg = 2
        ∧ DatasetAnalyzer.gradient_accumulation_steps cfg = 8)
     ∧ (1024 < DatasetAnalyzer.max_seq_length cfg ≤ 2048 →
        DatasetAnalyzer.per_device_train_batch_size cfg = 1
        ∧ DatasetAnalyzer.gradient_accumulation_steps cfg = 16)
     ∧ (2048 < DatasetAnalyzer.max_seq_length cfg ≤ 4096 →
        DatasetAnalyzer.per_device_train_batch_size cfg = 1
        ∧ DatasetAnalyzer.gradient_accumulation_steps cfg = 32)
     ∧ (4096 < DatasetAnalyzer.max_seq_length cfg →
        DatasetAnalyzer.per_device_train_batch_size cfg = 1
        ∧ DatasetAnalyzer.gradient_accumulation_steps cfg = 64))
  ∧ (PrimFloat.leb 16.0%float vram_gb = false →
     DatasetAnalyzer.per_device_train_batch_size cfg = 1
     ∧ DatasetAnalyzer.gradient_accumulation_steps cfg = 16)
  ∧ DatasetAnalyzer.effective_batch_size cfg
    = DatasetAnalyzer.per_device_train_batch_size cfg
      * DatasetAnalyzer.gradient_accumulation_steps cfg
  ∧ (DatasetAnalyzer.effective_batch_size cfg = 16
     ∨ DatasetAnalyzer.effective_batch_size cfg = 32
     ∨ DatasetAnalyzer.effective_batch_size cfg = 64)
  ∧ DatasetAnalyzer.use_gradient_checkpointing cfg = true.
Proof.
  intros [p95 ->]%module_config_of_ok.
  pose proof (configuration_max_seq_length p95 max_length vram_gb) as Hm.
  destruct (configuration_tiers p95 max_length vram_gb) as (Htier & Heff & Hgc).
  cbv zeta in Hm, Htier.
  revert Hm Htier Heff Hgc.
  generalize (Z.max (Z.min max_length (p95 + 256)) 512).
  generalize (DatasetAnalyzer.configuration p95 max_length vram_gb).
  intros [m batch accum eff gc] d. cbn. intros -> Htier -> ->.
  destruct (PrimFloat.leb _ _); cbn [andb].
  - destruct (d <=? 1024) eqn:H1; [apply Z.leb_le in H1 | apply Z.leb_gt in H1];
    [|destruct (d <=? 2048) eqn:H2; [apply Z.leb_le in H2 | apply Z.leb_gt in H2];
      [|destruct (d <=? 4096) eqn:H3;
          [apply Z.leb_le in H3 | apply Z.leb_gt in H3]]];
    (destruct (4096 <? d) eqn:H4; [apply Z.ltb_lt in H4 | apply Z.ltb_ge in H4]);
    injection Htier as -> ->;
    split_and!; try done; try (intros; lia); try (by left);
      try (by right; left); try (by right; right).
  - injection Htier as -> ->. split_and!; try done. by left.
Qed.

Lemma returned_batch_tier_witness :
  (PrimFloat.leb 16.0%float 16.0%float = true →
     (3000 ≤ 1024 → 1 = 2 ∧ 32 = 8)
     ∧ (1024 < 3000 ≤ 2048 → 1 = 1 ∧ 32 = 16)
     ∧ (2048 < 3000 ≤ 4096 → 1 = 1 ∧ 32 = 32)
     ∧ (4096 < 3000 → 1 = 1 ∧ 32 = 64))
  ∧ (PrimFloat.leb 16.0%float 16.0%float = false → 1 = 1 ∧ 32 = 16)
  ∧ 32 = 1 * 32
  ∧ (32 = 16 ∨ 32 = 32 ∨ 32 = 64)
  ∧ true = true.
Proof.
  assert (H : DatasetAnalyzer.config_of
                (DatasetAnalyzerModule.analyze_dataset_and_configure
                   (DatasetAnalyzerModule.Bound (Some 2))
                   (Examples.one_row_dataset 2744) Examples.char_tokenizer
                   32768 16.0%float)
              = Ok {| DatasetAnalyzer.max_seq_length := 3000;
                      DatasetAnalyzer.per_device_train_batch_size := 1;
                      DatasetAnalyzer.gradient_accumulation_steps := 32;
                      DatasetAnalyzer.effective_batch_size := 32;
                      DatasetAnalyzer.use_gradient_checkpointing := true |})
    by (vm_compute; reflexivity).
  exact (returned_batch_tier _ _ _ _ _ _ H).
Defined.



Lemma p95_agree_spec (n : Z) (count : nat) :
  Checks.p95_agree n count = true →
  ∀ z : Z, n ≤ z < n + Z.of_nat count →
    int_of_float (PrimFloat.mul (float_of_Z z) 0.95%float) = 19 * z / 20.
Proof.
  revert n. induction count as [|count IH]; intros n Hagree z Hz; [lia|].
  cbn [Checks.p95_agree] in Hagree.
  destruct (_ =? _) eqn:Hn; [|done]. apply Z.eqb_eq in Hn.
  destruct (decide (z = n)) as [->|Hne]; [done|].
  apply (IH (n + 1)); [done | lia].
Qed.

(** X6. Line 55 computes the index as [int(len(lengths) * 0.95)] in binary64.
    For every list of up to 65536 entries this is floor(19 N / 20): rounding
    the product never moves it across an integer. *)
Theorem p95_index_binary64_exact (n : nat) :
  Z.of_nat n ≤ 65536 →
  DatasetAnalyzer.p95_index_binary64 n = DatasetAnalyzer.p95_index n.
Proof.
  intros Hn. unfold DatasetAnalyzer.p95_index_binary64, DatasetAnalyzer.p95_index.
  f_equal. apply (p95_agree_spec 0 (Z.to_nat 65537)); [by vm_compute | lia].
Qed.

Lemma p95_index_binary64_exact_witness :
  DatasetAnalyzer.p95_index_binary64 95 = DatasetAnalyzer.p95_index 95.
Proof. apply (p95_index_binary64_exact 95). lia. Defined.

(** X7. The percentile the analyzer picks covers more than 19 in 20 of the
    records: on a dataset as in X2, the configuration returned is the one of a
    token length p95 that occurs in the dataset, and the records of at most
    p95 tokens number more than 0.95 N. *)
Theorem percentile_covers_19_in_20
    (cpus : Z) (dataset : Dataset) (tokenizer : Tokenizer) (max_length : Z)
    (vram_gb : float) :
  "messages" ∈ column_names dataset →
  Spec.conversational dataset →
  rows dataset ≠ [] →
  ∃ (dataset' : Dataset) (p95 : Z),
    DatasetAnalyzerModule.analyze_dataset_and_configure
      (DatasetAnalyzerModule.Bound (Some cpus)) dataset tokenizer max_length vram_gb
    = Ok (dataset', DatasetAnalyzer.configuration p95 max_length vram_gb)
    ∧ p95 ∈ map (Spec.token_length tokenizer) (rows dataset)
    ∧ 19 * Z.of_nat (length (rows dataset))
      < 20 * Z.of_nat (length (filter (fun n => n ≤ p95)
                                 (map (Spec.token_length tokenizer) (rows dataset)))).
Proof.
  intros Hmsg Hconv Hne.
  destruct (analyze_returns_configuration tokenizer dataset max_length vram_gb
              Hmsg Hconv Hne) as (dataset' & p95 & Hret & _ & Hp95).
  exists dataset', p95. rewrite module_analyze_bound.
  set (column := map (Spec.token_length tokenizer) (rows dataset)) in *.
  assert (Hperm : merge_sort Z.le column ≡ₚ column) by apply merge_sort_Permutation.
  assert (Hlen : length (merge_sort Z.le column) = length (rows dataset)).
  { by rewrite (Permutation_length Hperm); unfold column; rewrite length_map. }
  split_and!; [done| |].
  - rewrite <- Hperm. by eapply list_elem_of_lookup_2.
  - pose proof (sorted_percentile_covers (merge_sort Z.le column) p95
                  (Sorted_merge_sort Z.le column)) as Hcov.
    rewrite Hlen in Hcov. specialize (Hcov Hp95).
    assert (Hf : length (filter (fun n => n ≤ p95) (merge_sort Z.le column))
                 = length (filter (fun n => n ≤ p95) column)).
    { apply Permutation_length. by apply filter_Permutation. }
    by rewrite <- Hf.
Qed.

Lemma percentile_covers_19_in_20_witness :
  ∃ (dataset' : Dataset) (p95 : Z),
    DatasetAnalyzerModule.analyze_dataset_and_configure
      (DatasetAnalyzerModule.Bound (Some 2)) Examples.boundary_dataset
      Examples.char_tokenizer 32768 16.0%float
    = Ok (dataset', DatasetAnalyzer.configuration p95 32768 16.0%float)
    ∧ p95 ∈ map (Spec.token_length Examples.char_tokenizer)
                (rows Examples.boundary_dataset)
    ∧ 19 * Z.of_nat (length (rows Examples.boundary_dataset))
      < 20 * Z.of_nat (length (filter (fun n => n ≤ p95)
                                 (map (Spec.token_length Examples.char_tokenizer)
                                      (rows Examples.boundary_dataset)))).
Proof.
  apply (percentile_covers_19_in_20 2 Examples.boundary_dataset
           Examples.char_tokenizer 32768 16.0%float).
  - apply list_elem_of_here.
  - apply boundary_dataset_conversational.
  - discriminate.
Defined.

(** ** Dataset partitioner *)

Section splitter_facts.

Import DatasetSplitter.

Context {A : Type}.

Variable train_test_split : list A → float → Z → result (list A * list A).

Lemma int_truediv_ok (a b : Z) : b ≠ 0 → ∃ q, int_truediv a b = Ok q.
Proof.
  intros Hb. unfold int_truediv.
  destruct (b =? 0) eqn:Hz; [apply Z.eqb_eq in Hz; done | by eexists].
Qed.

Lemma int_truediv_zero (a : Z) : int_truediv a 0 = Err ZeroDivisionError.
Proof. reflexivity. Qed.

(** What a call that returns went through. *)
Lemma split_dataset_inv (dataset : list A) (train_ratio val_ratio test_ratio : float)
    (seed : Z) (r : splits (list A)) :
  split_dataset train_test_split dataset train_ratio val_ratio test_ratio seed = Ok r
  ↔ PrimFloat.ltb
      (PrimFloat.abs (train_ratio + val_ratio + test_ratio - 1.0)%float) 1e-6%float
    = true
    ∧ PrimFloat.eqb (train_ratio + val_ratio)%float 0%float = false
    ∧ dataset ≠ []
    ∧ ∃ train_val : list A,
        train_test_split dataset test_ratio seed = Ok (train_val, test r)
        ∧ train_test_split train_val
            (PrimFloat.div val_ratio (train_ratio + val_ratio)%float) seed
          = Ok (train r, validation r).
Proof.
  unfold split_dataset.
  destruct (PrimFloat.ltb _ _); cbn [negb]; [|by split; [|intros [? _]]].
  destruct (train_test_split dataset test_ratio seed) as [[train_val te]|e] eqn:H1;
    cbn [mbind result_bind]; [|by split; [|intros (_ & _ & _ & ? & ? & _)]].
  unfold truediv.
  destruct (PrimFloat.eqb _ _); cbn [mbind result_bind];
    [by split; [|intros (_ & ? & _)]|].
  destruct (train_test_split train_val _ seed) as [[tr va]|e] eqn:H2;
    cbn [mbind result_bind].
  2:{ split; [done|]. intros (_ & _ & _ & tv & [= <- _] & H2').
      by rewrite H2 in H2'. }
  destruct dataset as [|x dataset].
  - cbn [length Z.of_nat]. rewrite int_truediv_zero. cbn [mbind result_bind].
    by split; [|intros (_ & _ & ? & _)].
  - destruct (int_truediv_ok (Z.of_nat (length tr)) (Z.of_nat (length (x :: dataset))))
      as [q1 ->]; [done|].
    destruct (int_truediv_ok (Z.of_nat (length va)) (Z.of_nat (length (x :: dataset))))
      as [q2 ->]; [done|].
    destruct (int_truediv_ok (Z.of_nat (length te)) (Z.of_nat (length (x :: dataset))))
      as [q3 ->]; [done|].
    cbn [mbind result_bind]. split.
    + intros [= <-]. cbn [train validation test]. split_and!; [done..|].
      by exists train_val.
    + intros (_ & _ & _ & tv & [= <- Hte] & H2').
      rewrite H2 in H2'. destruct r as [tr' va' te']. cbn in *. by simplify_eq.
Qed.

End splitter_facts.

Section splitter_instances.

Context {A : Type}.

Lemma lenient_partition (dataset : list A) (test_size : float) (seed : Z)
    (train_part test_part : list A) :
  Splitters.lenient dataset test_size seed = Ok (train_part, test_part) →
  train_part ++ test_part ≡ₚ dataset.
Proof.
  unfold Splitters.lenient. intros [= <- <-].
  rewrite Permutation_app_comm, take_drop.
  unfold rotate. by rewrite Permutation_app_comm, take_drop.
Qed.

Lemma strict_partition (dataset : list A) (test_size : float) (seed : Z)
    (train_part test_part : list A) :
  Splitters.strict dataset test_size seed = Ok (train_part, test_part) →
  train_part ++ test_part ≡ₚ dataset.
Proof.
  unfold Splitters.strict.
  destruct (_ || _); [done|]. destruct (_ =? _)%nat; [done|].
  apply lenient_partition.
Qed.

Lemma strict_no_assertion (dataset : list A) (test_size : float) (seed : Z)
    (msg : string) :
  Splitters.strict dataset test_size seed ≠ Err (AssertionError msg).
Proof.
  unfold Splitters.strict, Splitters.lenient.
  destruct (_ || _); [done|]. by destruct (_ =? _)%nat.
Qed.

End splitter_instances.

(** X8. When [split_dataset] returns. For every collaborator: a call returns
    exactly when the ratios pass the check of line 13, [train_ratio +
    val_ratio] is not zero, the dataset is not empty, the collaborator splits
    the dataset at [test_ratio] and splits the first part of that at
    [val_ratio / (train_ratio + val_ratio)], both with the caller's seed; and
    what is returned is then the test part of the first split with the two
    parts of the second. *)
Theorem split_dataset_returns_iff {A : Type}
    (train_test_split : list A → float → Z → result (list A * list A))
    (dataset : list A) (train_ratio val_ratio test_ratio : float) (seed : Z) :
  ((∃ r, DatasetSplitter.split_dataset train_test_split dataset
           train_ratio val_ratio test_ratio seed = Ok r)
   ↔ PrimFloat.ltb
       (PrimFloat.abs (train_ratio + val_ratio + test_ratio - 1.0)%float) 1e-6%float
     = true
     ∧ PrimFloat.eqb (train_ratio + val_ratio)%float 0%float = false
     ∧ dataset ≠ []
     ∧ ∃ train_val test_part train_part val_part : list A,
         train_test_split dataset test_ratio seed = Ok (train_val, test_part)
         ∧ train_test_split train_val
             (PrimFloat.div val_ratio (train_ratio + val_ratio)%float) seed
           = Ok (train_part, val_part))
  ∧ (∀ (r : DatasetSplitter.splits (list A))
       (train_val test_part train_part val_part : list A),
        DatasetSplitter.split_dataset train_test_split dataset
          train_ratio val_ratio test_ratio seed = Ok r →
        train_test_split dataset test_ratio seed = Ok (train_val, test_part) →
        train_test_split train_val
          (PrimFloat.div val_ratio (train_ratio + val_ratio)%float) seed
        = Ok (train_part, val_part) →
        r = {| DatasetSplitter.train := train_part;
               DatasetSplitter.validation := val_part;
               DatasetSplitter.test := test_part |}).
Proof.
  split; [split|].
  - intros [r (Hsum & Hden & Hne & train_val & H1 & H2)%split_dataset_inv].
    split_and!; [done..|]. by eexists _, _, _, _.
  - intros (Hsum & Hden & Hne & train_val & test_part & train_part & val_part
            & H1 & H2).
    exists {| DatasetSplitter.train := train_part;
              DatasetSplitter.validation := val_part;
              DatasetSplitter.test := test_part |}.
    apply split_dataset_inv. split_and!; [done..|]. by exists train_val.
  - intros r train_val test_part train_part val_part
      (_ & _ & _ & train_val' & H1' & H2')%split_dataset_inv H1 H2.
    rewrite H1 in H1'. injection H1' as <- Hte. rewrite H2 in H2'.
    destruct r as [tr va te]. cbn in *. by simplify_eq.
Qed.

(** X9. When the ratios fail the check of line 13, [split_dataset] raises an
    [AssertionError] with the fixed message "Ratios must sum to 1.0" whatever
    the dataset and the collaborator; and with a collaborator that raises no
    [AssertionError] of its own, an [AssertionError] out of [split_dataset]
    means that the check failed. *)
Theorem split_dataset_assertion_iff {A : Type}
    (train_test_split : list A → float → Z → result (list A * list A))
    (dataset : list A) (train_ratio val_ratio test_ratio : float) (seed : Z) :
  (∀ d ts s msg, train_test_split d ts s ≠ Err (AssertionError msg)) →
  (PrimFloat.ltb
     (PrimFloat.abs (train_ratio + val_ratio + test_ratio - 1.0)%float) 1e-6%float
   = false →
   DatasetSplitter.split_dataset train_test_split dataset
     train_ratio val_ratio test_ratio seed
   = Err (AssertionError DatasetSplitter.ratio_error_msg))
  ∧ (∀ msg : string,
        DatasetSplitter.split_dataset train_test_split dataset
          train_ratio val_ratio test_ratio seed = Err (AssertionError msg) →
        PrimFloat.ltb
          (PrimFloat.abs (train_ratio + val_ratio + test_ratio - 1.0)%float)
          1e-6%float = false
        ∧ msg = DatasetSplitter.ratio_error_msg).
Proof.
  intros Hcollab. unfold DatasetSplitter.split_dataset.
  destruct (PrimFloat.ltb _ _); cbn [negb].
  - split; [done|]. intros msg.
    destruct (train_test_split dataset test_ratio seed) as [[train_val te]|e] eqn:H1;
      cbn [mbind result_bind]; [|intros [= ->]; by destruct (Hcollab _ _ _ _ H1)].
    unfold truediv. destruct (PrimFloat.eqb _ _); cbn [mbind result_bind]; [done|].
    destruct (train_test_split train_val _ seed) as [[tr va]|e] eqn:H2;
      cbn [mbind result_bind]; [|intros [= ->]; by destruct (Hcollab _ _ _ _ H2)].
    unfold int_truediv. by repeat (destruct (_ =? 0); cbn [mbind result_bind]).
  - split; [done|]. by intros msg [= <-].
Qed.

Lemma split_dataset_assertion_iff_witness :
  (PrimFloat.ltb (PrimFloat.abs (0.7 + 0.2 + 0.05 - 1.0)%float) 1e-6%float = false →
   DatasetSplitter.split_dataset Splitters.strict [1; 2; 3] 0.7%float 0.2%float
     0.05%float 1
   = Err (AssertionError DatasetSplitter.ratio_error_msg))
  ∧ (∀ msg : string,
        DatasetSplitter.split_dataset Splitters.strict [1; 2; 3] 0.7%float 0.2%float
          0.05%float 1 = Err (AssertionError msg) →
        PrimFloat.ltb (PrimFloat.abs (0.7 + 0.2 + 0.05 - 1.0)%float) 1e-6%float
        = false
        ∧ msg = DatasetSplitter.ratio_error_msg).
Proof.
  apply (split_dataset_assertion_iff Splitters.strict [1; 2; 3]
           0.7%float 0.2%float 0.05%float 1).
  intros d ts s msg. apply strict_no_assertion.
Defined.

(** X10. With a collaborator whose two parts are always a rearrangement of
    what it was given, the three parts [split_dataset] returns are a
    rearrangement of the dataset: their sizes add up to the size of the
    dataset, every record is in one of them, and when the records are
    distinct no record is in two. *)
Theorem split_dataset_partition {A : Type}
    (train_test_split : list A → float → Z → result (list A * list A))
    (dataset : list A) (train_ratio val_ratio test_ratio : float) (seed : Z)
    (r : DatasetSplitter.splits (list A)) :
  (∀ d ts s train_part test_part,
      train_test_split d ts s = Ok (train_part, test_part) →
      train_part ++ test_part ≡ₚ d) →
  DatasetSplitter.split_dataset train_test_split dataset
    train_ratio val_ratio test_ratio seed = Ok r →
  DatasetSplitter.train r ++ DatasetSplitter.validation r ++ DatasetSplitter.test r
  ≡ₚ dataset
  ∧ (length (DatasetSplitter.train r) + length (DatasetSplitter.validation r)
     + length (DatasetSplitter.test r) = length dataset)%nat
  ∧ (∀ x, x ∈ dataset ↔ x ∈ DatasetSplitter.train r
                        ∨ x ∈ DatasetSplitter.validation r
                        ∨ x ∈ DatasetSplitter.test r)
  ∧ (NoDup dataset →
     (∀ x, x ∈ DatasetSplitter.train r → x ∉ DatasetSplitter.validation r)
     ∧ (∀ x, x ∈ DatasetSplitter.train r → x ∉ DatasetSplitter.test r)
     ∧ (∀ x, x ∈ DatasetSplitter.validation r → x ∉ DatasetSplitter.test r)).
Proof.
  intros Hcollab (_ & _ & _ & train_val & H1 & H2)%split_dataset_inv.
  apply Hcollab in H1, H2.
  assert (Hperm : DatasetSplitter.train r ++ DatasetSplitter.validation r
                  ++ DatasetSplitter.test r ≡ₚ dataset).
  { by rewrite (assoc_L (++)), H2, H1. }
  split_and!; [done| | |].
  - apply Permutation_length in Hperm. rewrite !length_app in Hperm. lia.
  - intros x. rewrite <- Hperm, !elem_of_app. tauto.
  - intros Hnodup. rewrite <- Hperm in Hnodup.
    apply NoDup_app in Hnodup as (_ & Htr & Hrest).
    apply NoDup_app in Hrest as (_ & Hva & _).
    split_and!; intros x Hx; [| |by apply Hva];
      specialize (Htr x Hx); rewrite elem_of_app in Htr; tauto.
Qed.

Lemma split_dataset_partition_witness :
  [1; 2; 4; 5; 6; 7; 8; 9] ++ [10] ++ [3] ≡ₚ [1; 2; 3; 4; 5; 6; 7; 8; 9; 10]
  ∧ (length [1; 2; 4; 5; 6; 7; 8; 9] + length [10] + length [3]
     = length [1; 2; 3; 4; 5; 6; 7; 8; 9; 10])%nat
  ∧ (∀ x, x ∈ [1; 2; 3; 4; 5; 6; 7; 8; 9; 10]
          ↔ x ∈ [1; 2; 4; 5; 6; 7; 8; 9] ∨ x ∈ [10] ∨ x ∈ [3])
  ∧ (NoDup [1; 2; 3; 4; 5; 6; 7; 8; 9; 10] →
     (∀ x, x ∈ [1; 2; 4; 5; 6; 7; 8; 9] → x ∉ [10])
     ∧ (∀ x, x ∈ [1; 2; 4; 5; 6; 7; 8; 9] → x ∉ [3])
     ∧ (∀ x, x ∈ [10] → x ∉ [3])).
Proof.
  assert (H : DatasetSplitter.split_dataset Splitters.strict
                [1; 2; 3; 4; 5; 6; 7; 8; 9; 10] 0.8%float 0.1%float 0.1%float 42
              = Ok {| DatasetSplitter.train := [1; 2; 4; 5; 6; 7; 8; 9];
                      DatasetSplitter.validation := [10];
                      DatasetSplitter.test := [3] |})
    by (vm_compute; reflexivity).
  exact (split_dataset_partition Splitters.strict _ _ _ _ _ _
           (fun d ts s tr te => strict_partition d ts s tr te) H).
Defined.

(** X11. Two inputs on which [split_dataset] cannot return, whatever the
    collaborator does: an empty dataset, and ratios with [train_ratio +
    val_ratio] equal to zero (such as 0, 0, 1, which pass the check of line
    13). When the collaborator does return its parts, the exception is the
    [ZeroDivisionError] of line 27, respectively of line 23. *)
Theorem split_dataset_division_by_zero {A : Type}
    (train_test_split : list A → float → Z → result (list A * list A))
    (dataset : list A) (train_ratio val_ratio test_ratio : float) (seed : Z) :
  dataset = [] ∨ PrimFloat.eqb (train_ratio + val_ratio)%float 0%float = true →
  (∀ r, DatasetSplitter.split_dataset train_test_split dataset
          train_ratio val_ratio test_ratio seed ≠ Ok r)
  ∧ (PrimFloat.ltb
       (PrimFloat.abs (train_ratio + val_ratio + test_ratio - 1.0)%float) 1e-6%float
     = true →
     (PrimFloat.eqb (train_ratio + val_ratio)%float 0%float = true →
      (∃ p, train_test_split dataset test_ratio seed = Ok p) →
      DatasetSplitter.split_dataset train_test_split dataset
        train_ratio val_ratio test_ratio seed = Err ZeroDivisionError)
     ∧ (PrimFloat.eqb (train_ratio + val_ratio)%float 0%float = false →
        (∃ train_val p q,
            train_test_split dataset test_ratio seed = Ok (train_val, p)
            ∧ train_test_split train_val
                (PrimFloat.div val_ratio (train_ratio + val_ratio)%float) seed
              = Ok q) →
        DatasetSplitter.split_dataset train_test_split dataset
          train_ratio val_ratio test_ratio seed = Err ZeroDivisionError)).
Proof.
  intros Hdegenerate. split.
  - intros r (_ & Hden & Hne & _)%split_dataset_inv.
    destruct Hdegenerate as [->|Hden']; [done | by rewrite Hden' in Hden].
  - intros Hsum. unfold DatasetSplitter.split_dataset. rewrite Hsum. cbn [negb].
    split.
    + intros Hden [[train_val te] ->]. cbn [mbind result_bind].
      unfold truediv. by rewrite Hden.
    + intros Hden (train_val & te & [tr va] & -> & H2). cbn [mbind result_bind].
      unfold truediv. rewrite Hden. cbn [mbind result_bind]. rewrite H2.
      cbn [mbind result_bind].
      destruct Hdegenerate as [->|Hden']; [done | by rewrite Hden' in Hden].
Qed.

Lemma split_dataset_division_by_zero_witness :
  (∀ r, DatasetSplitter.split_dataset Splitters.lenient [1; 2; 3]
          0%float 0%float 1%float 42 ≠ Ok r)
  ∧ (PrimFloat.ltb (PrimFloat.abs (0 + 0 + 1 - 1.0)%float) 1e-6%float = true →
     (PrimFloat.eqb (0 + 0)%float 0%float = true →
      (∃ p, Splitters.lenient [1; 2; 3] 1%float 42 = Ok p) →
      DatasetSplitter.split_dataset Splitters.lenient [1; 2; 3]
        0%float 0%float 1%float 42 = Err ZeroDivisionError)
     ∧ (PrimFloat.eqb (0 + 0)%float 0%float = false →
        (∃ train_val p q,
            Splitters.lenient [1; 2; 3] 1%float 42 = Ok (train_val, p)
            ∧ Splitters.lenient train_val (PrimFloat.div 0 (0 + 0))%float 42 = Ok q) →
        DatasetSplitter.split_dataset Splitters.lenient [1; 2; 3]
          0%float 0%float 1%float 42 = Err ZeroDivisionError)).
Proof.
  apply (split_dataset_division_by_zero Splitters.lenient [1; 2; 3]
           0%float 0%float 1%float 42).
  right. reflexivity.
Defined.

(** ** Split statistics *)

Section split_distribution_facts.

Import SplitDistribution.

Variable tokenizer : Tokenizer.

Lemma split_format_cell_eq (c : cell) :
  format_cell c = DatasetAnalyzer.format_cell c.
Proof. by destruct c as [| | |[|]]. Qed.

Lemma split_max_spec (x : Z) (xs : list Z) :
  max x xs ∈ x :: xs ∧ Forall (fun n => n ≤ max x xs) (x :: xs).
Proof.
  unfold max. revert x. induction xs as [|y xs IH]; intros x; cbn [foldl].
  - split; [left | by repeat constructor].
  - destruct (IH (Z.max x y)) as [Hin Hall]. split.
    + apply elem_of_cons in Hin as [->|Hin].
      * destruct (Z.max_spec x y) as [[_ ->]|[_ ->]]; [right; left | left].
      * by right; right.
    + apply Forall_cons in Hall as [Hxy Hall].
      repeat constructor; [lia..|done].
Qed.

Lemma split_min_spec (x : Z) (xs : list Z) :
  min x xs ∈ x :: xs ∧ Forall (fun n => min x xs ≤ n) (x :: xs).
Proof.
  unfold min. revert x. induction xs as [|y xs IH]; intros x; cbn [foldl].
  - split; [left | by repeat constructor].
  - destruct (IH (Z.min x y)) as [Hin Hall]. split.
    + apply elem_of_cons in Hin as [->|Hin].
      * destruct (Z.min_spec x y) as [[_ ->]|[_ ->]]; [left | right; left].
      * by right; right.
    + apply Forall_cons in Hall as [Hxy Hall].
      repeat constructor; [lia..|done].
Qed.

(** The statistics of a list of lengths with a first entry. *)
Lemma summary_cons (split_name : string) (x : Z) (xs : list Z) (samples : nat) :
  ∃ avg_len : float,
    summary split_name (x :: xs) samples
    = Ok (Lengths split_name avg_len (max x xs) (min x xs) samples)
    ∧ int_truediv (sum (x :: xs)) (Z.of_nat (length (x :: xs))) = Ok avg_len.
Proof.
  unfold summary.
  destruct (int_truediv_ok (sum (x :: xs)) (Z.of_nat (length (x :: xs))))
    as [avg_len Havg]; [done|].
  exists avg_len. by rewrite Havg.
Qed.

Lemma summary_ok (split_name : string) (lengths : list Z) (samples : nat) :
  ∃ r, summary split_name lengths samples = Ok r ∧ split_name_of r = split_name.
Proof.
  destruct lengths as [|x xs]; [by eexists|].
  destruct (summary_cons split_name x xs samples) as (avg_len & -> & _).
  by eexists.
Qed.


(** The mapped transformation of line 61 on a conversational split with rows,
    and the lengths read off the result. *)
Lemma map_text_conversational (dataset : Dataset) :
  Spec.conversational dataset →
  rows dataset ≠ [] →
  ∃ temp_dataset : Dataset,
    Dataset_map_unless_empty "text"
      (fun x => text ← format_cell (default (CMessages []) (x !! "messages"));
                Ok (CStr text)) dataset = Ok temp_dataset
    ∧ "text" ∈ column_names temp_dataset
    ∧ token_lengths tokenizer temp_dataset
      = Ok (map (Spec.token_length tokenizer) (rows dataset)).
Proof.
  intros Hconv Hne. unfold Dataset_map_unless_empty.
  destruct (rows dataset) as [|x0 rows0] eqn:Hrows; [done|]. rewrite <- Hrows.
  unfold Dataset_map.
  rewrite (traverse_ok _
    (fun x => <["text" := CStr (DatasetAnalyzer._format_messages_to_text
                                  (default None (Spec.row_messages x)))]> x)).
  2:{ eapply Forall_impl; [exact Hconv|]. intros x Hx. cbv beta.
      by rewrite split_format_cell_eq, (format_cell_conversational x Hx). }
  cbn [mbind result_bind]. eexists. split; [done|].
  cbn [column_names rows]. split; [apply column_added|].
  unfold token_lengths. cbn [rows]. rewrite traverse_map.
  apply traverse_ok, Forall_forall. intros x _. cbv beta.
  by rewrite lookup_insert_eq.
Qed.

(** One split, case by case. *)
Lemma analyze_split_conversational (cpus : Z) (split_name : string)
    (dataset : Dataset) :
  "messages" ∈ column_names dataset →
  Spec.conversational dataset →
  rows dataset ≠ [] →
  analyze_split (Some cpus) tokenizer split_name dataset
  = summary split_name (map (Spec.token_length tokenizer) (rows dataset))
      (length (rows dataset)).
Proof.
  intros Hmsg Hconv Hne. unfold analyze_split.
  rewrite bool_decide_eq_true_2 by done. cbn [num_proc mbind result_bind].
  destruct (map_text_conversational dataset Hconv Hne)
    as (temp_dataset & -> & Htext & Hlengths).
  cbn [mbind result_bind]. rewrite bool_decide_eq_true_2 by done.
  cbn [negb]. by rewrite Hlengths.
Qed.






(** The exceptions of one split: none of them is a division by zero. *)
Lemma summary_no_zero_division (split_name : string) (lengths : list Z)
    (samples : nat) (e : exn) :
  summary split_name lengths samples ≠ Err e.
Proof. by destruct (summary_ok split_name lengths samples) as (r & -> & _). Qed.

Lemma token_lengths_no_zero_division (dataset : Dataset) :
  token_lengths tokenizer dataset ≠ Err ZeroDivisionError.
Proof.
  unfold token_lengths. intros (x & _ & Hx)%traverse_err.
  by destruct (x !! "text") as [[| | |]|].
Qed.

Lemma analyze_split_no_zero_division (cpu_count : option Z) (split_name : string)
    (dataset : Dataset) :
  analyze_split cpu_count tokenizer split_name dataset ≠ Err ZeroDivisionError.
Proof.
  unfold analyze_split. case_bool_decide as Hmsg.
  - destruct cpu_count as [cpus|]; cbn [num_proc mbind result_bind]; [|done].
    destruct (Dataset_map_unless_empty _ _ dataset) as [temp|e] eqn:Hmap;
      cbn [mbind result_bind].
    + destruct (negb _); [done|].
      destruct (token_lengths tokenizer temp) as [lengths|e] eqn:Hlen;
        cbn [mbind result_bind]; [apply summary_no_zero_division|].
      intros [= ->]. by apply token_lengths_no_zero_division in Hlen.
    + intros [= ->]. unfold Dataset_map_unless_empty in Hmap.
      destruct (rows dataset) as [|x0 rows0] eqn:Hrows; [done|].
      unfold Dataset_map in Hmap.
      destruct (traverse _ (rows dataset)) as [rows'|e'] eqn:Ht; [done|].
      cbn [mbind result_bind] in Hmap. simplify_eq.
      apply traverse_err in Ht as (x & _ & Hx). unfold format_cell in Hx.
      by destruct (x !! "messages") as [[|s|z|]|]; cbn [default] in Hx;
        repeat case_match; cbn [mbind result_bind] in Hx; simplify_eq.
  - case_bool_decide as Htext; [|done].
    destruct (token_lengths tokenizer dataset) as [lengths|e] eqn:Hlen;
      cbn [mbind result_bind]; [apply summary_no_zero_division|].
    intros [= ->]. by apply token_lengths_no_zero_division in Hlen.
Qed.

End split_distribution_facts.

(** X12. The statistics line of a split. On a split with a [messages] column,
    at least one row, and [None] or a message list in every [messages] cell,
    the loop body of [analyze_split_distribution] prints the statistics line
    with the split's name and its number of rows; the maximum and the minimum
    it prints are token lengths of records of the split and bound all of them,
    and the average is the quotient of their sum by their number. *)
Theorem split_statistics_line
    (cpus : Z) (tokenizer : Tokenizer) (split_name : string) (dataset : Dataset) :
  "messages" ∈ column_names dataset →
  Spec.conversational dataset →
  rows dataset ≠ [] →
  ∃ (avg_len : float) (max_len min_len : Z),
    SplitDistribution.analyze_split (Some cpus) tokenizer split_name dataset
    = Ok (SplitDistribution.Lengths split_name avg_len max_len min_len
            (length (rows dataset)))
    ∧ max_len ∈ map (Spec.token_length tokenizer) (rows dataset)
    ∧ min_len ∈ map (Spec.token_length tokenizer) (rows dataset)
    ∧ Forall (fun n => min_len ≤ n ≤ max_len)
             (map (Spec.token_length tokenizer) (rows dataset))
    ∧ int_truediv
        (SplitDistribution.sum (map (Spec.token_length tokenizer) (rows dataset)))
        (Z.of_nat (length (rows dataset)))
      = Ok avg_len.
Proof.
  intros Hmsg Hconv Hne.
  rewrite analyze_split_conversational by done.
  destruct (map (Spec.token_length tokenizer) (rows dataset)) as [|n lengths] eqn:Hl.
  { apply (f_equal length) in Hl. rewrite length_map in Hl.
    by destruct (rows dataset). }
  destruct (summary_cons split_name n lengths (length (rows dataset)))
    as (avg_len & -> & Havg).
  destruct (split_max_spec n lengths) as [Hmax_in Hmax].
  destruct (split_min_spec n lengths) as [Hmin_in Hmin].
  exists avg_len, (SplitDistribution.max n lengths), (SplitDistribution.min n lengths).
  split_and!; [done..| |].
  - rewrite Forall_forall in Hmax, Hmin. apply Forall_forall. intros k Hk.
    split; [by apply Hmin | by apply Hmax].
  - rewrite <- Havg. f_equal. apply (f_equal length) in Hl.
    rewrite length_map in Hl. by rewrite Hl.
Qed.

Lemma split_statistics_line_witness :
  ∃ (avg_len : float) (max_len min_len : Z),
    SplitDistribution.analyze_split (Some 2) Examples.char_tokenizer "train"
      Examples.boundary_dataset
    = Ok (SplitDistribution.Lengths "train" avg_len max_len min_len
            (length (rows Examples.boundary_dataset)))
    ∧ max_len ∈ map (Spec.token_length Examples.char_tokenizer)
                    (rows Examples.boundary_dataset)
    ∧ min_len ∈ map (Spec.token_length Examples.char_tokenizer)
                    (rows Examples.boundary_dataset)
    ∧ Forall (fun n => min_len ≤ n ≤ max_len)
             (map (Spec.token_length Examples.char_tokenizer)
                  (rows Examples.boundary_dataset))
    ∧ int_truediv
        (SplitDistribution.sum (map (Spec.token_length Examples.char_tokenizer)
                                    (rows Examples.boundary_dataset)))
        (Z.of_nat (length (rows Examples.boundary_dataset)))
      = Ok avg_len.
Proof.
  apply (split_statistics_line 2 Examples.char_tokenizer "train"
           Examples.boundary_dataset).
  - apply list_elem_of_here.
  - apply boundary_dataset_conversational.
  - discriminate.
Defined.

(** X13. The analyzer and the statistics on the same training split, as
    train.py runs them: the analyzer returns a configuration, the statistics
    line of the split is printed, the percentile the configuration is computed
    from lies between the minimum and the maximum of that line, and the
    configured sequence length is at most the larger of 512 and the maximum
    plus 256. *)
Theorem sequence_length_within_statistics
    (cpus : Z) (tokenizer : Tokenizer) (dataset : Dataset) (max_length : Z)
    (vram_gb : float) :
  "messages" ∈ column_names dataset →
  Spec.conversational dataset →
  rows dataset ≠ [] →
  ∃ (dataset' : Dataset) (p95 : Z) (avg_len : float) (max_len min_len : Z),
    DatasetAnalyzerModule.analyze_dataset_and_configure
      (DatasetAnalyzerModule.Bound (Some cpus)) dataset tokenizer max_length vram_gb
    = Ok (dataset', DatasetAnalyzer.configuration p95 max_length vram_gb)
    ∧ SplitDistribution.analyze_split (Some cpus) tokenizer "train" dataset
      = Ok (SplitDistribution.Lengths "train" avg_len max_len min_len
              (length (rows dataset)))
    ∧ min_len ≤ p95 ≤ max_len
    ∧ DatasetAnalyzer.max_seq_length
        (DatasetAnalyzer.configuration p95 max_length vram_gb)
      ≤ Z.max (max_len + 256) 512.
Proof.
  intros Hmsg Hconv Hne.
  destruct (analyze_returns_configuration tokenizer dataset max_length vram_gb
              Hmsg Hconv Hne) as (dataset' & p95 & Hret & _ & Hp95).
  rewrite analyze_split_conversational by done.
  assert (Hin : p95 ∈ map (Spec.token_length tokenizer) (rows dataset)).
  { rewrite <- (merge_sort_Permutation Z.le). by eapply list_elem_of_lookup_2. }
  destruct (map (Spec.token_length tokenizer) (rows dataset)) as [|n lengths];
    [by apply elem_of_nil in Hin|].
  destruct (summary_cons "train" n lengths (length (rows dataset)))
    as (avg_len & -> & _).
  destruct (split_max_spec n lengths) as [_ Hmax].
  destruct (split_min_spec n lengths) as [_ Hmin].
  rewrite Forall_forall in Hmax, Hmin. specialize (Hmax p95 Hin).
  specialize (Hmin p95 Hin). cbv beta in Hmax, Hmin.
  exists dataset', p95, avg_len, (SplitDistribution.max n lengths),
    (SplitDistribution.min n lengths).
  rewrite module_analyze_bound. split_and!; [done..|].
  rewrite configuration_max_seq_length. cbv zeta.
  revert Hmax. generalize (SplitDistribution.max n lengths). intros max_len Hmax.
  destruct (_ && _); lia.
Qed.

Lemma sequence_length_within_statistics_witness :
  ∃ (dataset' : Dataset) (p95 : Z) (avg_len : float) (max_len min_len : Z),
    DatasetAnalyzerModule.analyze_dataset_and_configure
      (DatasetAnalyzerModule.Bound (Some 2)) Examples.boundary_dataset
      Examples.char_tokenizer 32768 16.0%float
    = Ok (dataset', DatasetAnalyzer.configuration p95 32768 16.0%float)
    ∧ SplitDistribution.analyze_split (Some 2) Examples.char_tokenizer "train"
        Examples.boundary_dataset
      = Ok (SplitDistribution.Lengths "train" avg_len max_len min_len
              (length (rows Examples.boundary_dataset)))
    ∧ min_len ≤ p95 ≤ max_len
    ∧ DatasetAnalyzer.max_seq_length
        (DatasetAnalyzer.configuration p95 32768 16.0%float)
      ≤ Z.max (max_len + 256) 512.
Proof.
  apply (sequence_length_within_statistics 2 Examples.char_tokenizer
           Examples.boundary_dataset 32768 16.0%float).
  - apply list_elem_of_here.
  - apply boundary_dataset_conversational.
  - discriminate.
Defined.




(** X15. Where the statistics stop. Whatever the splits hold, the lines
    printed are those of the leading splits in the order of the dict; if no
    exception is raised there is a line for every split; an exception is the
    one raised by the split after the last line printed, and it is never a
    [ZeroDivisionError]: the average is taken only of a list with an entry. *)
Theorem split_distribution_stops_at_first_exception
    (cpu_count : option Z) (tokenizer : Tokenizer)
    (dataset_dict : list (string * Dataset))
    (printed : list SplitDistribution.report) (raised : option exn) :
  SplitDistribution.analyze_split_distribution cpu_count tokenizer dataset_dict
  = (printed, raised) →
  (∀ (i : nat) (line : SplitDistribution.report),
      printed !! i = Some line →
      ∃ split_name dataset,
        dataset_dict !! i = Some (split_name, dataset)
        ∧ SplitDistribution.analyze_split cpu_count tokenizer split_name dataset
          = Ok line)
  ∧ (raised = None → length printed = length dataset_dict)
  ∧ (∀ e : exn,
        raised = Some e →
        e ≠ ZeroDivisionError
        ∧ ∃ split_name dataset,
            dataset_dict !! length printed = Some (split_name, dataset)
            ∧ SplitDistribution.analyze_split cpu_count tokenizer split_name dataset
              = Err e).
Proof.
  revert printed raised.
  induction dataset_dict as [|[split_name dataset] dataset_dict IH];
    intros printed raised; cbn [SplitDistribution.analyze_split_distribution].
  { intros [= <- <-]. split_and!; [by intros i ? ?|done|done]. }
  destruct (SplitDistribution.analyze_split cpu_count tokenizer split_name dataset)
    as [line|e] eqn:Hline.
  - destruct (SplitDistribution.analyze_split_distribution
                cpu_count tokenizer dataset_dict) as [printed' raised'].
    intros [= <- <-]. destruct (IH printed' raised' eq_refl) as (Hlines & Hall & Hexn).
    split_and!.
    + intros [|i] line' Hi; cbn in Hi.
      * simplify_eq. by exists split_name, dataset.
      * by apply Hlines.
    + intros Hnone. cbn. by rewrite Hall.
    + intros e He. by apply Hexn.
  - intros [= <- <-]. split_and!; [by intros i ? ?|done|].
    intros e' [= <-]. split.
    + intros ->. by apply analyze_split_no_zero_division in Hline.
    + by exists split_name, dataset.
Qed.

Lemma split_distribution_stops_at_first_exception_witness :
  (∀ (i : nat) (line : SplitDistribution.report),
      [SplitDistribution.Skipped "train"] !! i = Some line →
      ∃ split_name dataset,
        [("train", {| column_names := ["id"]; rows := [] |});
         ("validation", Examples.boundary_dataset)] !! i
        = Some (split_name, dataset)
        ∧ SplitDistribution.analyze_split None Examples.char_tokenizer
            split_name dataset = Ok line)
  ∧ (Some TypeError = None →
     length [SplitDistribution.Skipped "train"]
     = length [("train", {| column_names := ["id"]; rows := [] |});
               ("validation", Examples.boundary_dataset)])
  ∧ (∀ e : exn,
        Some TypeError = Some e →
        e ≠ ZeroDivisionError
        ∧ ∃ split_name dataset,
            [("train", {| column_names := ["id"]; rows := [] |});
             ("validation", Examples.boundary_dataset)]
              !! length [SplitDistribution.Skipped "train"]
            = Some (split_name, dataset)
            ∧ SplitDistribution.analyze_split None Examples.char_tokenizer
                split_name dataset = Err e).
Proof.
  assert (H : SplitDistribution.analyze_split_distribution None
                Examples.char_tokenizer
                [("train", {| column_names := ["id"]; rows := [] |});
                 ("validation", Examples.boundary_dataset)]
              = ([SplitDistribution.Skipped "train"], Some TypeError))
    by (vm_compute; reflexivity).
  exact (split_distribution_stops_at_first_exception _ _ _ _ _ H).
Defined.

(** ** Training callbacks *)

Section float_facts.

(** A float is NaN exactly when it differs from itself. *)
Lemma is_nan_spec (x : float) : is_nan x = true ↔ Prim2SF x = S754_nan.
Proof.
  unfold is_nan. rewrite FloatAxioms.eqb_spec. unfold SFeqb.
  destruct (Prim2SF x) as [s|s| |s m e]; cbn.
  - done.
  - by destruct s.
  - done.
  - assert (Pos.compare_cont Eq m m = Eq) as Hm by apply Pos.compare_cont_refl.
    rewrite Z.compare_refl, Hm. by destruct s.
Qed.

(** NaN is less than nothing. *)
Lemma ltb_nan_l (x y : float) : is_nan x = true → PrimFloat.ltb x y = false.
Proof.
  intros Hx%is_nan_spec. rewrite FloatAxioms.ltb_spec, Hx. reflexivity.
Qed.

Lemma ltb_nan_r (x y : float) : is_nan y = true → PrimFloat.ltb x y = false.
Proof.
  intros Hy%is_nan_spec. rewrite FloatAxioms.ltb_spec, Hy. unfold SFltb.
  by destruct (Prim2SF x).
Qed.

(** Subtracting a finite number from plus infinity leaves plus infinity. *)
Lemma sub_infinity_finite (d : float) :
  is_finite d = true → (infinity - d)%float = infinity.
Proof.
  unfold is_finite, is_infinity. intros Hd.
  apply negb_true_iff, orb_false_iff in Hd as [Hnan Hinf].
  apply FloatAxioms.Prim2SF_inj. rewrite FloatAxioms.sub_spec.
  rewrite FloatAxioms.eqb_spec, FloatAxioms.abs_spec in Hinf.
  assert (Hnan' : Prim2SF d ≠ S754_nan).
  { intros Hd. apply is_nan_spec in Hd. congruence. }
  change (Prim2SF infinity) with (S754_infinity false) in *.
  destruct (Prim2SF d) as [s|s| |s m e]; try done.
Qed.

(** What is less than plus infinity: everything but NaN and plus infinity. *)
Lemma ltb_infinity (x : float) :
  PrimFloat.ltb x infinity = negb (is_nan x || PrimFloat.eqb x infinity).
Proof.
  destruct (is_nan x) eqn:Hnan; cbn [orb negb]; [by apply ltb_nan_l|].
  assert (Hnan' : Prim2SF x ≠ S754_nan).
  { intros Hx. apply is_nan_spec in Hx. congruence. }
  rewrite FloatAxioms.ltb_spec, FloatAxioms.eqb_spec.
  change (Prim2SF infinity) with (S754_infinity false).
  destruct (Prim2SF x) as [s|s| |s m e]; try done; by destruct s.
Qed.

End float_facts.

Section early_stopping_facts.

Import Callbacks.

(** One evaluation that reports a loss and does not improve. *)
Lemma on_evaluate_stale (self : EarlyStoppingCallback) (control : TrainerControl)
    (m : metrics) (loss : float) :
  m !! "eval_loss" = Some loss →
  PrimFloat.ltb loss (best_loss self - min_delta self)%float = false →
  on_evaluate self control m
  = ({| patience := patience self;
        min_delta := min_delta self;
        best_loss := best_loss self;
        counter := counter self + 1 |},
     if patience self <=? counter self + 1 then {| should_training_stop := true |}
     else control).
Proof. intros Hm Hloss. unfold on_evaluate. by rewrite Hm, Hloss. Qed.

(** One evaluation, whatever it reports. *)
Lemma on_evaluate_step (self : EarlyStoppingCallback) (control : TrainerControl)
    (m : metrics) :
  let self' := (on_evaluate self control m).1 in
  let control' := (on_evaluate self control m).2 in
  patience self' = patience self
  ∧ min_delta self' = min_delta self
  ∧ (should_training_stop control = true → should_training_stop control' = true)
  ∧ (should_training_stop control' = should_training_stop control
     ∨ (should_training_stop control' = true ∧ patience self ≤ counter self'))
  ∧ (0 ≤ counter self → 0 ≤ counter self' ≤ counter self + 1)
  ∧ (best_loss self' = best_loss self ∨ m !! "eval_loss" = Some (best_loss self'))
  ∧ (is_nan (best_loss self) = false → is_nan (best_loss self') = false).
Proof.
  unfold on_evaluate. destruct (m !! "eval_loss") as [loss|]; cbn.
  2:{ split_and!; try done; [by left | lia | by left]. }
  destruct (PrimFloat.ltb loss _) eqn:Hlt; cbn.
  - split_and!; try done; [by left | lia | by right |].
    intros _. destruct (is_nan loss) eqn:Hnan; [|done].
    by rewrite ltb_nan_l in Hlt.
  - destruct (Z.leb_spec (patience self) (counter self + 1)); cbn;
      split_and!; try done; try lia; try (by left); by right.
Qed.

Lemma evaluations_snoc (self : EarlyStoppingCallback) (control : TrainerControl)
    (history : list metrics) (m : metrics) :
  evaluations self control (history ++ [m])
  = on_evaluate (evaluations self control history).1
                (evaluations self control history).2 m.
Proof. unfold evaluations. by rewrite foldl_snoc. Qed.

Lemma evaluations_cons (self : EarlyStoppingCallback) (control : TrainerControl)
    (m : metrics) (history : list metrics) :
  evaluations self control (m :: history)
  = evaluations (on_evaluate self control m).1 (on_evaluate self control m).2 history.
Proof.
  unfold evaluations. cbn [foldl fst snd].
  by destruct (on_evaluate self control m).
Qed.

End early_stopping_facts.

Section early_stopping_runs.

Import Callbacks.

(** A run of evaluations none of which improves on the best loss. *)
Lemma evaluations_stale (self : EarlyStoppingCallback) (control : TrainerControl)
    (history : list metrics) :
  Forall (fun m => ∃ loss, m !! "eval_loss" = Some loss
                           ∧ PrimFloat.ltb loss (best_loss self - min_delta self)%float
                             = false) history →
  (evaluations self control history).1
  = {| patience := patience self;
       min_delta := min_delta self;
       best_loss := best_loss self;
       counter := counter self + Z.of_nat (length history) |}
  ∧ should_training_stop (evaluations self control history).2
    = should_training_stop control
      || (negb (Nat.eqb (length history) 0)
          && (patience self <=? counter self + Z.of_nat (length history))).
Proof.
  intros Hstale. revert self control Hstale.
  induction history as [|m history IH]; intros self control Hstale.
  { cbn. rewrite Z.add_0_r, orb_false_r. by destruct self. }
  apply Forall_cons in Hstale as [(loss & Hm & Hloss) Hstale].
  rewrite evaluations_cons, (on_evaluate_stale self control m loss Hm Hloss).
  cbn [fst snd].
  edestruct IH as [-> ->]; [exact Hstale|].
  cbn [patience min_delta best_loss counter length]. split.
  - f_equal. lia.
  - replace (counter self + 1 + Z.of_nat (length history))
      with (counter self + Z.of_nat (S (length history))) by lia.
    cbn [Nat.eqb negb andb].
    destruct (Z.leb_spec (patience self) (counter self + 1)) as [Hp|Hp];
      cbn [should_training_stop].
    + replace (patience self <=? counter self + Z.of_nat (S (length history)))
        with true by (symmetry; apply Z.leb_le; lia).
      by rewrite andb_true_r, !orb_true_r.
    + destruct (length history) as [|n] eqn:Hn; cbn [Nat.eqb negb andb].
      * rewrite orb_false_r.
        replace (patience self <=? counter self + Z.of_nat 1) with false
          by (symmetry; apply Z.leb_gt; lia).
        by rewrite orb_false_r.
      * done.
Qed.

(** Any run of evaluations. *)
Lemma evaluations_invariants (self : EarlyStoppingCallback) (control : TrainerControl)
    (history : list metrics) :
  patience (evaluations self control history).1 = patience self
  ∧ min_delta (evaluations self control history).1 = min_delta self
  ∧ (should_training_stop control = true →
     should_training_stop (evaluations self control history).2 = true)
  ∧ (0 ≤ counter self →
     0 ≤ counter (evaluations self control history).1
       ≤ counter self + Z.of_nat (length history))
  ∧ (0 ≤ counter self →
     counter self + Z.of_nat (length history) < patience self →
     should_training_stop (evaluations self control history).2
     = should_training_stop control)
  ∧ (best_loss (evaluations self control history).1 = best_loss self
     ∨ ∃ m, m ∈ history
            ∧ m !! "eval_loss" = Some (best_loss (evaluations self control history).1))
  ∧ (is_nan (best_loss self) = false →
     is_nan (best_loss (evaluations self control history).1) = false).
Proof.
  induction history as [|m history IH] using rev_ind.
  { cbn. split_and!; try done; [lia | by left]. }
  destruct IH as (Hp & Hd & Hstop & Hcount & Hquiet & Hbest & Hnan).
  rewrite evaluations_snoc, length_app. cbn [length].
  pose proof (on_evaluate_step (evaluations self control history).1
                (evaluations self control history).2 m) as Hstep.
  cbv zeta in Hstep.
  destruct Hstep as (Hp' & Hd' & Hstop' & Hflip & Hcount' & Hbest' & Hnan').
  split_and!.
  - congruence.
  - congruence.
  - auto.
  - intros Hc. specialize (Hcount Hc). specialize (Hcount' ltac:(lia)). lia.
  - intros Hc Hlt. specialize (Hcount Hc). specialize (Hcount' ltac:(lia)).
    destruct Hflip as [->|[_ Hflip]]; [apply Hquiet; lia|].
    rewrite Hp in Hflip. lia.
  - destruct Hbest' as [->|Hbest'].
    + destruct Hbest as [->|(m' & Hin & Hm')]; [by left|].
      right. exists m'. split; [|done]. apply elem_of_app. by left.
    + right. exists m. split; [|done]. apply elem_of_app. right. by left.
  - auto.
Qed.

End early_stopping_runs.

(** X16. Patience. From any state of the callback, after a run of evaluations
    that each report a loss and none of which passes the improvement test
    against the best loss, the counter has grown by the number of evaluations,
    the best loss is the same, and a stop of the training has been requested
    exactly if it was requested before or the run is not empty and the counter
    has reached the patience. *)
Theorem early_stopping_patience_exhausted
    (self : Callbacks.EarlyStoppingCallback) (control : Callbacks.TrainerControl)
    (history : list Callbacks.metrics) :
  Forall (fun m => ∃ loss,
            m !! "eval_loss" = Some loss
            ∧ PrimFloat.ltb loss (Callbacks.best_loss self - Callbacks.min_delta self)%float
              = false) history →
  Callbacks.counter (Callbacks.evaluations self control history).1
  = Callbacks.counter self + Z.of_nat (length history)
  ∧ Callbacks.best_loss (Callbacks.evaluations self control history).1
    = Callbacks.best_loss self
  ∧ (Callbacks.should_training_stop (Callbacks.evaluations self control history).2
     = true
     ↔ Callbacks.should_training_stop control = true
       ∨ (history ≠ []
          ∧ Callbacks.patience self
            ≤ Callbacks.counter self + Z.of_nat (length history))).
Proof.
  intros Hstale. destruct (evaluations_stale self control history Hstale) as [-> ->].
  cbn [Callbacks.counter Callbacks.best_loss]. split_and!; [done..|].
  rewrite orb_true_iff, andb_true_iff, negb_true_iff, Z.leb_le, Nat.eqb_neq.
  by rewrite length_zero_iff_nil.
Qed.

Lemma early_stopping_patience_exhausted_witness :
  Callbacks.counter
    (Callbacks.evaluations (Callbacks.__init__ 2 0.001%float)
       {| Callbacks.should_training_stop := false |}
       [ {[ "eval_loss" := nan ]}; {[ "eval_loss" := nan ]} ]).1
  = Callbacks.counter (Callbacks.__init__ 2 0.001%float)
    + Z.of_nat (length [ ({[ "eval_loss" := nan ]} : Callbacks.metrics);
                         {[ "eval_loss" := nan ]} ])
  ∧ Callbacks.best_loss
      (Callbacks.evaluations (Callbacks.__init__ 2 0.001%float)
         {| Callbacks.should_training_stop := false |}
         [ {[ "eval_loss" := nan ]}; {[ "eval_loss" := nan ]} ]).1
    = Callbacks.best_loss (Callbacks.__init__ 2 0.001%float)
  ∧ (Callbacks.should_training_stop
       (Callbacks.evaluations (Callbacks.__init__ 2 0.001%float)
          {| Callbacks.should_training_stop := false |}
          [ {[ "eval_loss" := nan ]}; {[ "eval_loss" := nan ]} ]).2
     = true
     ↔ Callbacks.should_training_stop {| Callbacks.should_training_stop := false |}
       = true
       ∨ ([ ({[ "eval_loss" := nan ]} : Callbacks.metrics);
            {[ "eval_loss" := nan ]} ] ≠ []
          ∧ Callbacks.patience (Callbacks.__init__ 2 0.001%float)
            ≤ Callbacks.counter (Callbacks.__init__ 2 0.001%float)
              + Z.of_nat (length [ ({[ "eval_loss" := nan ]} : Callbacks.metrics);
                                   {[ "eval_loss" := nan ]} ]))).
Proof.
  apply (early_stopping_patience_exhausted (Callbacks.__init__ 2 0.001%float)
           {| Callbacks.should_training_stop := false |}
           [ {[ "eval_loss" := nan ]}; {[ "eval_loss" := nan ]} ]).
  repeat apply Forall_cons_2; [..|apply Forall_nil_2];
    (exists nan; split; [apply lookup_singleton_eq | reflexivity]).
Defined.

(** X17. What holds over every run of evaluations, whatever they report:
    patience and threshold are never written; a requested stop is never taken
    back; the counter stays between zero and the number of evaluations made
    since it was zero, so no stop is requested before that many evaluations
    as the patience; the best loss is the initial one or a loss that was
    reported; and it is never NaN. *)
Theorem early_stopping_run_invariants
    (self : Callbacks.EarlyStoppingCallback) (control : Callbacks.TrainerControl)
    (history : list Callbacks.metrics) :
  Callbacks.patience (Callbacks.evaluations self control history).1
  = Callbacks.patience self
  ∧ Callbacks.min_delta (Callbacks.evaluations self control history).1
    = Callbacks.min_delta self
  ∧ (Callbacks.should_training_stop control = true →
     Callbacks.should_training_stop (Callbacks.evaluations self control history).2
     = true)
  ∧ (0 ≤ Callbacks.counter self →
     0 ≤ Callbacks.counter (Callbacks.evaluations self control history).1
       ≤ Callbacks.counter self + Z.of_nat (length history))
  ∧ (0 ≤ Callbacks.counter self →
     Callbacks.counter self + Z.of_nat (length history) < Callbacks.patience self →
     Callbacks.should_training_stop (Callbacks.evaluations self control history).2
     = Callbacks.should_training_stop control)
  ∧ (Callbacks.best_loss (Callbacks.evaluations self control history).1
     = Callbacks.best_loss self
     ∨ ∃ m, m ∈ history
            ∧ m !! "eval_loss"
              = Some (Callbacks.best_loss (Callbacks.evaluations self control history).1))
  ∧ (is_nan (Callbacks.best_loss self) = false →
     is_nan (Callbacks.best_loss (Callbacks.evaluations self control history).1)
     = false)
  ∧ (∀ patience min_delta,
        self = Callbacks.__init__ patience min_delta →
        Z.of_nat (length history) < patience →
        Callbacks.should_training_stop (Callbacks.evaluations self control history).2
        = Callbacks.should_training_stop control).
Proof.
  destruct (evaluations_invariants self control history)
    as (Hp & Hd & Hstop & Hcount & Hquiet & Hbest & Hnan).
  split_and!; try done.
  intros p d -> Hlt. apply Hquiet; cbn; lia.
Qed.

(** X18. A fresh callback and its first losses. With a finite threshold, the
    first reported loss becomes the best loss, with the counter at zero,
    exactly if it is neither NaN nor plus infinity; and a NaN loss never
    passes the improvement test, so a run of as many NaN losses as the
    patience (one at least) requests the stop and leaves the best loss at
    plus infinity. *)
Theorem early_stopping_fresh_callback
    (patience : Z) (min_delta : float) (control : Callbacks.TrainerControl) :
  (is_finite min_delta = true →
   ∀ (m : Callbacks.metrics) (loss : float),
     m !! "eval_loss" = Some loss →
     (is_nan loss || PrimFloat.eqb loss infinity = false →
      (Callbacks.on_evaluate (Callbacks.__init__ patience min_delta) control m).1
      = {| Callbacks.patience := patience;
           Callbacks.min_delta := min_delta;
           Callbacks.best_loss := loss;
           Callbacks.counter := 0 |})
     ∧ (is_nan loss || PrimFloat.eqb loss infinity = true →
        (Callbacks.on_evaluate (Callbacks.__init__ patience min_delta) control m).1
        = {| Callbacks.patience := patience;
             Callbacks.min_delta := min_delta;
             Callbacks.best_loss := infinity;
             Callbacks.counter := 1 |}))
  ∧ (∀ history : list Callbacks.metrics,
        Forall (fun m => ∃ loss, m !! "eval_loss" = Some loss ∧ is_nan loss = true)
               history →
        history ≠ [] →
        patience ≤ Z.of_nat (length history) →
        Callbacks.should_training_stop
          (Callbacks.evaluations (Callbacks.__init__ patience min_delta)
             control history).2 = true
        ∧ Callbacks.best_loss
            (Callbacks.evaluations (Callbacks.__init__ patience min_delta)
               control history).1 = infinity).
Proof.
  split.
  - intros Hd m loss Hm. unfold Callbacks.on_evaluate, Callbacks.__init__.
    rewrite Hm. cbn [Callbacks.best_loss Callbacks.min_delta Callbacks.patience
                     Callbacks.counter].
    rewrite (sub_infinity_finite min_delta Hd), ltb_infinity.
    by split; intros ->.
  - intros history Hnan Hne Hlen.
    destruct (evaluations_stale (Callbacks.__init__ patience min_delta) control
                history) as [-> ->].
    { eapply Forall_impl; [exact Hnan|]. intros m (loss & Hm & Hloss).
      exists loss. split; [done | by apply ltb_nan_l]. }
    cbn [Callbacks.best_loss Callbacks.__init__ Callbacks.patience
         Callbacks.counter]. split; [|done].
    apply orb_true_iff. right. apply andb_true_iff. split.
    + apply negb_true_iff, Nat.eqb_neq. by destruct history.
    + apply Z.leb_le. lia.
Qed.

Example early_stopping_fresh_example :
  is_finite 0.001%float = true
  ∧ Callbacks.evaluations (Callbacks.__init__ 2 0.001%float)
      {| Callbacks.should_training_stop := false |}
      [ {[ "eval_loss" := 1.5%float ]}; {[ "eval_loss" := 1.4995%float ]};
        {[ "eval_perplexity" := 4.0%float ]}; {[ "eval_loss" := 1.6%float ]} ]
    = ({| Callbacks.patience := 2;
          Callbacks.min_delta := 0.001%float;
          Callbacks.best_loss := 1.5%float;
          Callbacks.counter := 2 |},
       {| Callbacks.should_training_stop := true |}).
Proof. split; by vm_compute. Qed.

Section logger_facts.

Import Callbacks.

Variable exp : float → float.

Lemma logger_on_evaluate_lists (self : ValidationLossLoggerCallback) (m : metrics) :
  validation_losses (logger_on_evaluate exp self m)
  = validation_losses self ++ omap (fun m => m !! "eval_loss") [m]
  ∧ validation_perplexities (logger_on_evaluate exp self m)
    = validation_perplexities self ++ omap (logged_perplexity exp) [m].
Proof.
  unfold logger_on_evaluate, logged_perplexity. cbn.
  destruct (m !! "eval_loss") as [loss|], (m !! "eval_perplexity") as [ppl|]; cbn;
    by rewrite ?app_nil_r.
Qed.

Lemma logger_evaluations_lists (self : ValidationLossLoggerCallback)
    (history : list metrics) :
  validation_losses (logger_evaluations exp self history)
  = validation_losses self ++ omap (fun m => m !! "eval_loss") history
  ∧ validation_perplexities (logger_evaluations exp self history)
    = validation_perplexities self ++ omap (logged_perplexity exp) history.
Proof.
  unfold logger_evaluations. revert self.
  induction history as [|m history IH]; intros self.
  { cbn. by rewrite !app_nil_r. }
  cbn [foldl]. destruct (IH (logger_on_evaluate exp self m)) as [-> ->].
  destruct (logger_on_evaluate_lists self m) as [-> ->].
  rewrite <- !(assoc_L (++)). split; f_equal.
  - cbn. by destruct (m !! "eval_loss").
  - cbn. by destruct (logged_perplexity exp m).
Qed.

Lemma omap_length_le {A B : Type} (f : A → option B) (l : list A) :
  (length (omap f l) ≤ length l)%nat.
Proof. induction l as [|x l IH]; cbn; [done|]. destruct (f x); cbn; lia. Qed.

Lemma logged_counts (history : list metrics) :
  (length (omap (fun m : metrics => m !! "eval_loss") history)
   ≤ length (omap (logged_perplexity exp) history))%nat.
Proof.
  induction history as [|m history IH]; cbn; [done|].
  unfold logged_perplexity at 1.
  destruct (m !! "eval_loss") as [loss|], (m !! "eval_perplexity") as [ppl|];
    cbn; lia.
Qed.

End logger_facts.

(** X19. The two lists of the validation logger. After any run of
    evaluations, [validation_losses] is what it was followed by the losses
    reported, in order, and [validation_perplexities] is what it was followed,
    for each evaluation in order, by the perplexity reported or else the
    exponential of the loss reported; an evaluation that reports neither adds
    nothing. So a fresh logger never holds more losses than perplexities nor
    more perplexities than evaluations made, and when every evaluation reports
    a loss and none a perplexity the i-th perplexity is the exponential of the
    i-th loss. *)
Theorem validation_logger_lists
    (exp : float → float) (self : Callbacks.ValidationLossLoggerCallback)
    (history : list Callbacks.metrics) :
  Callbacks.validation_losses (Callbacks.logger_evaluations exp self history)
  = Callbacks.validation_losses self
    ++ omap (fun m : Callbacks.metrics => m !! "eval_loss") history
  ∧ Callbacks.validation_perplexities (Callbacks.logger_evaluations exp self history)
    = Callbacks.validation_perplexities self
      ++ omap (fun m : Callbacks.metrics =>
                 match m !! "eval_perplexity" with
                 | Some val_ppl => Some val_ppl
                 | None => exp <$> m !! "eval_loss"
                 end) history
  ∧ (self = Callbacks.logger__init__ →
     (length (Callbacks.validation_losses
                (Callbacks.logger_evaluations exp self history))
      ≤ length (Callbacks.validation_perplexities
                  (Callbacks.logger_evaluations exp self history))
      ≤ length history)%nat)
  ∧ (self = Callbacks.logger__init__ →
     Forall (fun m : Callbacks.metrics =>
               is_Some (m !! "eval_loss") ∧ m !! "eval_perplexity" = None) history →
     Callbacks.validation_perplexities (Callbacks.logger_evaluations exp self history)
     = map exp (Callbacks.validation_losses
                  (Callbacks.logger_evaluations exp self history))
     ∧ length (Callbacks.validation_losses
                 (Callbacks.logger_evaluations exp self history))
       = length history).
Proof.
  destruct (logger_evaluations_lists exp self history) as [Hlosses Hppls].
  split_and!; [done|done| |].
  - intros ->. rewrite Hlosses, Hppls. cbn [app Callbacks.logger__init__
      Callbacks.validation_losses Callbacks.validation_perplexities].
    split; [apply logged_counts | apply omap_length_le].
  - intros -> Hall. rewrite Hlosses, Hppls. cbn [app Callbacks.logger__init__
      Callbacks.validation_losses Callbacks.validation_perplexities].
    clear Hlosses Hppls.
    induction Hall as [|m history [[loss Hloss] Hppl] _ [IH1 IH2]]; [done|].
    cbn. unfold Callbacks.logged_perplexity. rewrite Hloss, Hppl. cbn.
    fold (Callbacks.logged_perplexity exp). split; [by rewrite IH1 | by rewrite IH2].
Qed.

(** ** Mixed precision *)

(** X20. The precision flags are exclusive and the mode names them: for every
    state of [torch.cuda], [setup_mixed_precision] never returns both flags
    set; the mode is "bf16" exactly with the first flag, "fp16" exactly with
    the second and "fp32" exactly with neither; bf16 is chosen exactly on an
    available device of compute capability 8 or more, fp32 exactly without a
    device. [setup_mixed_precision_tpu] returns, whatever the TPU's
    availability, what the GPU variant returns on such a device. *)
Theorem mixed_precision_flags
    (torch_cuda : MixedPrecision.cuda) (check_tpu_available : bool) :
  ∃ (bf16_support fp16_support : bool) (precision_mode : string),
    MixedPrecision.setup_mixed_precision torch_cuda
    = (bf16_support, fp16_support, precision_mode)
    ∧ bf16_support && fp16_support = false
    ∧ (precision_mode = "bf16" ↔ bf16_support = true)
    ∧ (precision_mode = "fp16" ↔ fp16_support = true)
    ∧ (precision_mode = "fp32" ↔ bf16_support || fp16_support = false)
    ∧ (bf16_support = true
       ↔ MixedPrecision.is_available torch_cuda = true
         ∧ 8 ≤ (MixedPrecision.get_device_capability torch_cuda).1)
    ∧ (bf16_support || fp16_support = false
       ↔ MixedPrecision.is_available torch_cuda = false)
    ∧ (bf16_support = true →
       MixedPrecision.setup_mixed_precision_tpu check_tpu_available
       = MixedPrecision.setup_mixed_precision torch_cuda).
Proof.
  unfold MixedPrecision.setup_mixed_precision,
    MixedPrecision.setup_mixed_precision_tpu.
  destruct (MixedPrecision.is_available torch_cuda);
    [destruct (Z.leb_spec 8 (MixedPrecision.get_device_capability torch_cuda).1)|];
    (eexists _, _, _; split; [done|]);
    split_and!; try done;
    (split; [done | intros [? ?]; first [done | lia]]).
Qed.

(** ** The TPU driver *)

Section tpu_facts.


(** The product of the batch size and the accumulation steps it yields. *)
Lemma accumulated_batch (b : Z) :
  1 ≤ b →
  128 < b * Z.max 1 (256 / b)
  ∧ (b ≤ 256 → 256 - b < b * Z.max 1 (256 / b) ≤ 256)
  ∧ (256 < b → Z.max 1 (256 / b) = 1).
Proof.
  intros Hb.
  pose proof (Z.mul_div_le 256 b ltac:(lia)) as Hle.
  pose proof (Z.mul_succ_div_gt 256 b ltac:(lia)) as Hgt.
  assert (Hq : 0 ≤ 256 / b) by (apply Z.div_pos; lia).
  revert Hle Hgt Hq. generalize (256 / b). intros q Hle Hgt Hq.
  destruct (Z.le_gt_cases b 256) as [Hsmall|Hbig].
  - assert (1 ≤ q) by nia.
    rewrite Z.max_r by done. split_and!; [nia | intros _; nia | lia].
  - assert (q = 0) as -> by nia. cbn. split_and!; lia.
Qed.


End tpu_facts.

(** X21. The override of the TPU driver. It raises [ZeroDivisionError] for a
    batch size per replica of 0 and returns otherwise. What it returns keeps
    the analyzer's sequence length, effective batch size and checkpointing
    flag; the accumulation steps are max(1, 256 // batch) and at least 1, and
    the global batch size is the product of batch size, world size and
    accumulation steps. For a batch size from 1 to 256 the batch accumulated
    per replica lies in (256 - batch, 256], and is 256 when the batch size
    divides 256; above 256, and below 0, there is one accumulation step. *)
Theorem tpu_override_batch
    (analysed : DatasetAnalyzer.dynamic_config) (batch_size_per_replica world_size : Z) :
  (batch_size_per_replica = 0 →
   TpuTrain.override analysed batch_size_per_replica world_size
   = Err ZeroDivisionError)
  ∧ (batch_size_per_replica ≠ 0 →
     ∃ cfg : TpuTrain.dynamic_config,
       TpuTrain.override analysed batch_size_per_replica world_size = Ok cfg
       ∧ TpuTrain.max_seq_length cfg = DatasetAnalyzer.max_seq_length analysed
       ∧ TpuTrain.effective_batch_size cfg
         = DatasetAnalyzer.effective_batch_size analysed
       ∧ TpuTrain.use_gradient_checkpointing cfg
         = DatasetAnalyzer.use_gradient_checkpointing analysed
       ∧ TpuTrain.per_device_train_batch_size cfg = batch_size_per_replica
       ∧ 1 ≤ TpuTrain.gradient_accumulation_steps cfg
       ∧ TpuTrain.global_batch_size cfg
         = TpuTrain.per_device_train_batch_size cfg * world_size
           * TpuTrain.gradient_accumulation_steps cfg
       ∧ (1 ≤ batch_size_per_replica ≤ 256 →
          256 - batch_size_per_replica
          < batch_size_per_replica * TpuTrain.gradient_accumulation_steps cfg
          ≤ 256)
       ∧ ((batch_size_per_replica | 256) → 1 ≤ batch_size_per_replica →
          batch_size_per_replica * TpuTrain.gradient_accumulation_steps cfg = 256)
       ∧ (256 < batch_size_per_replica ∨ batch_size_per_replica < 0 →
          TpuTrain.gradient_accumulation_steps cfg = 1)).
Proof.
  split.
  - by intros ->.
  - intros Hb. unfold TpuTrain.override, TpuTrain.floordiv.
    destruct (Z.eqb_spec batch_size_per_replica 0) as [->|_]; [done|].
    cbn [mbind result_bind]. eexists. split; [done|].
    cbn [TpuTrain.max_seq_length TpuTrain.effective_batch_size
         TpuTrain.use_gradient_checkpointing TpuTrain.per_device_train_batch_size
         TpuTrain.gradient_accumulation_steps TpuTrain.global_batch_size].
    split_and!; try done; try lia.
    + intros [H1 H256].
      by destruct (accumulated_batch batch_size_per_replica H1) as (_ & Hin & _);
        apply Hin.
    + intros [k Hk] H1.
      assert (256 / batch_size_per_replica = k) as ->.
      { rewrite Hk. apply Z.div_mul. lia. }
      assert (1 ≤ k) by nia. rewrite Z.max_r by done. lia.
    + intros [Hbig|Hneg].
      * by destruct (accumulated_batch batch_size_per_replica ltac:(lia))
          as (_ & _ & Hone); apply Hone.
      * pose proof (Z.div_mod 256 batch_size_per_replica ltac:(lia)) as Hdiv.
        pose proof (Z.mod_neg_bound 256 batch_size_per_replica ltac:(lia)) as Hmod.
        assert (256 / batch_size_per_replica < 0) by nia.
        lia.
Qed.

Section configuration_facts.

Import DatasetAnalyzer.


End configuration_facts.



(** ** Model extraction *)

Lemma found_spec (efile : string) (model_files : list string) :
  ExtractModel.found efile model_files = true
  ↔ ∃ f, f ∈ model_files ∧ Spec.is_substring efile f.
Proof.
  unfold ExtractModel.found. rewrite existsb_exists.
  split; intros (f & Hin & Hf); exists f.
  - by rewrite list_elem_of_In, <- contains_spec.
  - by rewrite <- list_elem_of_In, contains_spec.
Qed.

(** X23. The check for essential files is a substring test on the paths:
    a file counts as found exactly if some path of the extracted files
    contains its name. Since "tokenizer_config.json" ends with "config.json",
    the line for config.json reports it found whenever tokenizer_config.json
    is found, also when no file of that name was extracted, as in a directory
    that holds tokenizer_config.json alone. *)
Theorem essential_files_found_by_substring (model_files : list string) :
  (∀ efile : string,
      ExtractModel.found efile model_files = true
      ↔ ∃ f, f ∈ model_files ∧ Spec.is_substring efile f)
  ∧ (ExtractModel.found "tokenizer_config.json" model_files = true →
     ExtractModel.found "config.json" model_files = true)
  ∧ ExtractModel.statuses ["outputs/final_model/tokenizer_config.json"]
    = [("config.json", true); ("tokenizer_config.json", true)]
  ∧ "config.json" ∉ ["tokenizer_config.json"].
Proof.
  split_and!.
  - intros efile. apply found_spec.
  - rewrite !found_spec. intros (f & Hin & Hf). exists f. split; [done|].
    by apply (is_substring_drop_prefix "tokenizer_" "config.json").
  - reflexivity.
  - by intros [=]%list_elem_of_singleton.
Qed.

(** ** More on the LoRA selector *)

Lemma matches_17b_7b (name : string) :
  Spec.matches "1.7b" name → Spec.matches "7b" name.
Proof. apply (is_substring_drop_prefix "1." "7b"). Qed.

(** X24. Rank, alpha and scaling in [get_dynamic_lora_config]. For every
    model name: alpha is twice the rank and the rank is 8, 16 or 32; the
    result does not depend on [max_seq_length]; rank-stabilized scaling comes
    with a rank below 32 exactly for the names of the small or the medium tier
    that contain "6b" or "7b"; in particular a name that contains "1.7b" and
    is not of the small tier gets rank 16, alpha 32 and the scaling on,
    "1.7b" containing "7b". Dropout, bias, task type and the checkpointing
    mode are constants. *)
Theorem lora_rank_alpha_scaling (name : string) (max_seq_length : Z) :
  LoraConfig.lora_alpha (LoraConfig.get_dynamic_lora_config name max_seq_length)
  = 2 * LoraConfig.r (LoraConfig.get_dynamic_lora_config name max_seq_length)
  ∧ (LoraConfig.r (LoraConfig.get_dynamic_lora_config name max_seq_length) = 8
     ∨ LoraConfig.r (LoraConfig.get_dynamic_lora_config name max_seq_length) = 16
     ∨ LoraConfig.r (LoraConfig.get_dynamic_lora_config name max_seq_length) = 32)
  ∧ (∀ max_seq_length' : Z,
        LoraConfig.get_dynamic_lora_config name max_seq_length'
        = LoraConfig.get_dynamic_lora_config name max_seq_length)
  ∧ (LoraConfig.use_rslora (LoraConfig.get_dynamic_lora_config name max_seq_length)
     = true
     ∧ LoraConfig.r (LoraConfig.get_dynamic_lora_config name max_seq_length) ≠ 32
     ↔ Spec.large_tier name ∧ (Spec.small_tier name ∨ Spec.medium_tier name))
  ∧ (Spec.matches "1.7b" name → ¬ Spec.small_tier name →
     LoraConfig.r (LoraConfig.get_dynamic_lora_config name max_seq_length) = 16
     ∧ LoraConfig.lora_alpha (LoraConfig.get_dynamic_lora_config name max_seq_length)
       = 32
     ∧ LoraConfig.use_rslora (LoraConfig.get_dynamic_lora_config name max_seq_length)
       = true)
  ∧ LoraConfig.lora_dropout (LoraConfig.get_dynamic_lora_config name max_seq_length)
    = 0
  ∧ LoraConfig.bias (LoraConfig.get_dynamic_lora_config name max_seq_length) = "none"
  ∧ LoraConfig.task_type (LoraConfig.get_dynamic_lora_config name max_seq_length)
    = "CAUSAL_LM"
  ∧ LoraConfig.use_gradient_checkpointing
      (LoraConfig.get_dynamic_lora_config name max_seq_length) = "unsloth".
Proof.
  assert (H17 : Spec.matches "1.7b" name → ¬ Spec.small_tier name →
                Spec.medium_tier name ∧ Spec.large_tier name).
  { intros H17 _. split; [by right; right | right; by apply matches_17b_7b]. }
  revert H17.
  rewrite <- (small_tier_reflect name), <- (medium_tier_reflect name),
    <- (large_tier_reflect name).
  assert (Hmsl : ∀ max_seq_length' : Z,
            LoraConfig.get_dynamic_lora_config name max_seq_length'
            = LoraConfig.get_dynamic_lora_config name max_seq_length)
    by (intros ?; by rewrite !lora_config_cases).
  revert Hmsl. rewrite !lora_config_cases.
  cbn [LoraConfig.r LoraConfig.lora_alpha LoraConfig.use_rslora
       LoraConfig.lora_dropout LoraConfig.bias LoraConfig.task_type
       LoraConfig.use_gradient_checkpointing].
  generalize (PyStr.contains "0.5b" (PyStr.lower name)
              || PyStr.contains "0.6b" (PyStr.lower name)
              || PyStr.contains "270m" (PyStr.lower name)).
  generalize (PyStr.contains "1.5b" (PyStr.lower name)
              || PyStr.contains "1b" (PyStr.lower name)
              || PyStr.contains "1.7b" (PyStr.lower name)).
  generalize (PyStr.contains "6b" (PyStr.lower name)
              || PyStr.contains "7b" (PyStr.lower name)).
  intros large medium small Hmsl H17.
  split_and!; try done.
  - by destruct small, medium, large.
  - destruct small, medium, large; auto.
  - destruct small, medium, large; split; try done; try (intros [? ?]; done);
      try (intros [? [?|?]]; done); auto.
  - intros Hm Hs. destruct (H17 Hm Hs) as [-> ->].
    destruct small; [by destruct Hs|done].
Qed.

Example lora_qwen3_17b :
  Spec.matches "1.7b" "Qwen/Qwen3-1.7B"
  ∧ LoraConfig.get_dynamic_lora_config "Qwen/Qwen3-1.7B" 2048
    = {| LoraConfig.r := 16;
         LoraConfig.lora_alpha := 32;
         LoraConfig.target_modules :=
           ["q_proj"; "k_proj"; "v_proj"; "o_proj"; "gate_proj"; "up_proj";
            "down_proj"];
         LoraConfig.lora_dropout := 0;
         LoraConfig.bias := "none";
         LoraConfig.task_type := "CAUSAL_LM";
         LoraConfig.use_rslora := true;
         LoraConfig.use_gradient_checkpointing := "unsloth" |}.
Proof. split; [apply contains_spec|]; reflexivity. Qed.

(** ** The GPU driver *)


Section driver_facts.

Variable train_test_split : list row → float → Z → result (list row * list row).

Hypothesis train_test_split_rearranges :
  ∀ d ts s train_part test_part,
    train_test_split d ts s = Ok (train_part, test_part) →
    train_part ++ test_part ≡ₚ d.


End driver_facts.



(** ** Planner dataset *)

Section planner_facts.

Import PlannerDataset.

Lemma field_ok {A : Type} (key : string) (value : option A) (v : A) :
  field key value = Ok v ↔ value = Some v.
Proof. destruct value; cbn; split; congruence. Qed.

Lemma dict_getitem_ok (d : gmap string string) (key : string) :
  (∃ v, dict_getitem d key = Ok v) ↔ is_Some (d !! key).
Proof.
  unfold dict_getitem. destruct (d !! key) as [v|].
  - split; [by eexists | by exists v].
  - split; [by intros [v ?] | by intros [v ?]].
Qed.

Lemma bullet_lines_ok (mapping : gmap string string) (keys : list string) :
  (∃ lines, bullet_lines mapping keys = Ok lines)
  ↔ Forall (fun key => is_Some (mapping !! key)) keys.
Proof.
  unfold bullet_lines. induction keys as [|key keys IH]; cbn [traverse].
  { split; [done | by eexists]. }
  rewrite Forall_cons, <- IH, <- dict_getitem_ok.
  destruct (dict_getitem mapping key) as [v|e]; cbn [mbind result_bind].
  - destruct (traverse _ keys) as [lines|e]; cbn [mbind result_bind].
    + split; [intros _; split; by eexists | by eexists].
    + split; [by intros [? ?] | by intros [_ [? ?]]].
  - split; [by intros [? ?] | by intros [[? ?] _]].
Qed.

Lemma bullet_lines_key_error (mapping : gmap string string) (keys : list string)
    (e : exn) :
  bullet_lines mapping keys = Err e → ∃ key, e = KeyError key.
Proof.
  unfold bullet_lines. intros (key & _ & Hkey)%traverse_err.
  unfold dict_getitem in Hkey.
  destruct (mapping !! key); cbn [mbind result_bind] in Hkey; [done|].
  injection Hkey as <-. by exists key.
Qed.

(** When a template is filled. *)
Lemma fill_ok (t0 t1 t2 t3 : string) (data : module_data) :
  (∃ text, fill t0 t1 t2 t3 data = Ok text)
  ↔ is_Some (core_functionality data)
    ∧ (∃ validations,
          required_validations data = Some validations
          ∧ Forall (fun key => is_Some (validation_mapping !! key)) validations)
    ∧ (∃ requirements,
          compliance_requirements data = Some requirements
          ∧ Forall (fun key => is_Some (compliance_mapping !! key)) requirements).
Proof.
  unfold fill.
  destruct (core_functionality data) as [core|]; cbn [field mbind result_bind].
  2:{ split; [by intros [? ?] | by intros [[? ?] _]]. }
  destruct (required_validations data) as [validations|];
    cbn [field mbind result_bind].
  2:{ split; [by intros [? ?] | by intros (_ & (? & ? & _) & _)]. }
  pose proof (bullet_lines_ok validation_mapping validations) as Hv.
  destruct (bullet_lines validation_mapping validations) as [vlines|e];
    cbn [mbind result_bind].
  2:{ split; [by intros [? ?]|]. intros (_ & (vs & [= <-] & Hvs) & _).
      apply Hv in Hvs as [? ?]. done. }
  destruct (compliance_requirements data) as [requirements|];
    cbn [field mbind result_bind].
  2:{ split; [by intros [? ?] | by intros (_ & _ & (? & ? & _))]. }
  pose proof (bullet_lines_ok compliance_mapping requirements) as Hc.
  destruct (bullet_lines compliance_mapping requirements) as [clines|e];
    cbn [mbind result_bind].
  2:{ split; [by intros [? ?]|]. intros (_ & _ & (rs & [= <-] & Hrs)).
      apply Hc in Hrs as [? ?]. done. }
  split; [intros _ | by eexists].
  split_and!; [done| |].
  - exists validations. split; [done|]. apply Hv. by eexists.
  - exists requirements. split; [done|]. apply Hc. by eexists.
Qed.

Lemma fill_key_error (t0 t1 t2 t3 : string) (data : module_data) (e : exn) :
  fill t0 t1 t2 t3 data = Err e → ∃ key, e = KeyError key.
Proof.
  unfold fill.
  destruct (core_functionality data) as [core|]; cbn [field mbind result_bind];
    [|intros [= <-]; by eexists].
  destruct (required_validations data) as [validations|];
    cbn [field mbind result_bind]; [|intros [= <-]; by eexists].
  destruct (bullet_lines validation_mapping validations) as [vlines|e'] eqn:Hv;
    cbn [mbind result_bind];
    [|intros [= <-]; by eapply bullet_lines_key_error].
  destruct (compliance_requirements data) as [requirements|];
    cbn [field mbind result_bind]; [|intros [= <-]; by eexists].
  destruct (bullet_lines compliance_mapping requirements) as [clines|e'] eqn:Hc;
    cbn [mbind result_bind];
    [done | intros [= <-]; by eapply bullet_lines_key_error].
Qed.

Lemma generate_cases (module_name : string) (data : module_data) :
  (module_name = "product_upload"
   ∧ generate_planning_response module_name data
     = fill product_upload_text_0 product_upload_text_1 product_upload_text_2
         product_upload_text_3 data)
  ∨ (module_name = "user_registration"
     ∧ generate_planning_response module_name data
       = fill user_registration_text_0 user_registration_text_1
           user_registration_text_2 user_registration_text_3 data)
  ∨ (module_name ≠ "product_upload" ∧ module_name ≠ "user_registration"
     ∧ generate_planning_response module_name data = Ok unknown_module_text).
Proof.
  unfold generate_planning_response.
  destruct (String.eqb_spec module_name "product_upload") as [->|H1]; [by left|].
  destruct (String.eqb_spec module_name "user_registration") as [->|H2];
    [by right; left | by right; right].
Qed.

End planner_facts.

(** X27. When [generate_planning_response] returns. For a module name other
    than "product_upload" and "user_registration" it returns the fixed text of
    line 163 and reads nothing of the blueprint entry. For these two names it
    returns exactly if the entry has a functionality, has validations that
    are all keys of [validation_mapping], and has compliance requirements that
    are all keys of [compliance_mapping]; otherwise it raises a [KeyError],
    the one for "core_functionality" when that key is missing; and it never
    reads the technology stack and the performance metrics of the entry. *)
Theorem planning_response_returns_iff
    (module_name : string) (data : PlannerDataset.module_data) :
  (module_name ≠ "product_upload" → module_name ≠ "user_registration" →
   PlannerDataset.generate_planning_response module_name data
   = Ok PlannerDataset.unknown_module_text)
  ∧ (module_name = "product_upload" ∨ module_name = "user_registration" →
     ((∃ text, PlannerDataset.generate_planning_response module_name data = Ok text)
      ↔ is_Some (PlannerDataset.core_functionality data)
        ∧ (∃ validations,
              PlannerDataset.required_validations data = Some validations
              ∧ Forall (fun key => is_Some (PlannerDataset.validation_mapping !! key))
                       validations)
        ∧ (∃ requirements,
              PlannerDataset.compliance_requirements data = Some requirements
              ∧ Forall (fun key => is_Some (PlannerDataset.compliance_mapping !! key))
                       requirements))
     ∧ (∀ e, PlannerDataset.generate_planning_response module_name data = Err e →
             ∃ key, e = KeyError key)
     ∧ (PlannerDataset.core_functionality data = None →
        PlannerDataset.generate_planning_response module_name data
        = Err (KeyError "core_functionality")))
  ∧ (∀ tech_stack metrics,
        PlannerDataset.generate_planning_response module_name
          {| PlannerDataset.core_functionality :=
               PlannerDataset.core_functionality data;
             PlannerDataset.required_validations :=
               PlannerDataset.required_validations data;
             PlannerDataset.tech_stack_dependencies := tech_stack;
             PlannerDataset.compliance_requirements :=
               PlannerDataset.compliance_requirements data;
             PlannerDataset.performance_metrics := metrics |}
        = PlannerDataset.generate_planning_response module_name data).
Proof.
  split_and!.
  - intros H1 H2.
    by destruct (generate_cases module_name data)
      as [[? _]|[[? _]|(_ & _ & ->)]].
  - intros Hknown.
    destruct (generate_cases module_name data)
      as [[_ ->]|[[_ ->]|(H1 & H2 & _)]]; [| |by destruct Hknown].
    + split_and!; [apply fill_ok | apply fill_key_error |].
      intros Hcore. unfold PlannerDataset.fill. by rewrite Hcore.
    + split_and!; [apply fill_ok | apply fill_key_error |].
      intros Hcore. unfold PlannerDataset.fill. by rewrite Hcore.
  - intros tech_stack metrics. unfold PlannerDataset.generate_planning_response.
    by repeat (destruct (String.eqb _ _)).
Qed.

Section planner_dataset_facts.

Lemma dataset_of_conversational (records : list (list message)) :
  Spec.conversational (PlannerDataset.dataset_of records).
Proof.
  unfold Spec.conversational, PlannerDataset.dataset_of. cbn [rows].
  apply Forall_forall. intros x (messages & -> & _)%list_elem_of_fmap.
  unfold Spec.row_messages. by rewrite lookup_singleton_eq.
Qed.

End planner_dataset_facts.

Section planner_blueprint_facts.

Import PlannerDataset.

Lemma generate_product_upload (data : module_data) :
  generate_planning_response "product_upload" data
  = fill product_upload_text_0 product_upload_text_1 product_upload_text_2
      product_upload_text_3 data.
Proof. reflexivity. Qed.

Lemma generate_user_registration (data : module_data) :
  generate_planning_response "user_registration" data
  = fill user_registration_text_0 user_registration_text_1 user_registration_text_2
      user_registration_text_3 data.
Proof. reflexivity. Qed.

(** The keys the blueprint uses are keys of the mappings. *)
Lemma blueprint_returns :
  (∃ response, generate_planning_response "product_upload" product_upload
               = Ok response)
  ∧ (∃ response, generate_planning_response "user_registration" user_registration
                 = Ok response).
Proof.
  rewrite generate_product_upload, generate_user_registration.
  split; apply fill_ok; (split_and!; [by eexists| |]);
    eexists; (split; [reflexivity|]);
    repeat constructor; eexists; vm_compute; reflexivity.
Qed.

End planner_blueprint_facts.

(** X28. The file the script writes. The loop over the blueprint raises
    nothing: both entries have a request, and their validations and
    requirements are all in the mappings. It writes two records, in the order
    of the blueprint, each the conversation of the system prompt, the request
    of the module and the response generated for it. Read back as a dataset
    with the conversations in a [messages] column, the file is one the
    analyzer accepts: with [os] at hand it returns a configuration for it,
    whatever the tokenizer. *)
Theorem planner_records_feed_analyzer :
  ∃ request1 response1 request2 response2 : string,
    PlannerDataset.user_requests !! "product_upload" = Some request1
    ∧ PlannerDataset.user_requests !! "user_registration" = Some request2
    ∧ PlannerDataset.generate_planning_response "product_upload"
        PlannerDataset.product_upload = Ok response1
    ∧ PlannerDataset.generate_planning_response "user_registration"
        PlannerDataset.user_registration = Ok response2
    ∧ PlannerDataset.records PlannerDataset.module_definitions
      = Ok [PlannerDataset.conversation request1 response1;
            PlannerDataset.conversation request2 response2]
    ∧ (∀ (cpus : Z) (tokenizer : Tokenizer) (max_length : Z) (vram_gb : float),
          ∃ (dataset' : Dataset) (cfg : DatasetAnalyzer.dynamic_config),
            DatasetAnalyzerModule.analyze_dataset_and_configure
              (DatasetAnalyzerModule.Bound (Some cpus))
              (PlannerDataset.dataset_of
                 [PlannerDataset.conversation request1 response1;
                  PlannerDataset.conversation request2 response2])
              tokenizer max_length vram_gb
            = Ok (dataset', cfg)
            ∧ length (rows dataset') = 2%nat).
Proof.
  destruct blueprint_returns as [[response1 H1] [response2 H2]].
  assert (Hr1 : ∃ request,
            PlannerDataset.user_requests !! "product_upload" = Some request)
    by (eexists; vm_compute; reflexivity).
  assert (Hr2 : ∃ request,
            PlannerDataset.user_requests !! "user_registration" = Some request)
    by (eexists; vm_compute; reflexivity).
  destruct Hr1 as [request1 Hr1], Hr2 as [request2 Hr2].
  exists request1, response1, request2, response2.
  split_and!; [done..| |].
  - unfold PlannerDataset.records, PlannerDataset.module_definitions.
    cbn [traverse fst snd].
    unfold PlannerDataset.chat_template, PlannerDataset.dict_getitem.
    by rewrite Hr1, Hr2, H1, H2.
  - intros cpus tokenizer max_length vram_gb.
    destruct (analyze_returns_configuration tokenizer
                (PlannerDataset.dataset_of
                   [PlannerDataset.conversation request1 response1;
                    PlannerDataset.conversation request2 response2])
                max_length vram_gb)
      as (dataset' & p95 & Hret & Hrows & _);
      [apply list_elem_of_here | apply dataset_of_conversational | discriminate |].
    exists dataset', (DatasetAnalyzer.configuration p95 max_length vram_gb).
    rewrite module_analyze_bound. split; [exact Hret|]. by rewrite Hrows.
Qed.

(** ** Step callbacks *)

Section vram_facts.

Import StepCallbacks.

(** One step: a clearing takes the warning as not shown and leaves it shown,
    unless the same step takes it back. *)
Lemma on_step_end_balance (nvml cuda : bool) (self : VRAMMonitorCallback)
    (mem_info : result (Z * Z)) :
  let self' := (on_step_end nvml cuda self mem_info).1 in
  let done := (on_step_end nvml cuda self mem_info).2 in
  threshold_percent self' = threshold_percent self
  ∧ (clears [done] + pending self' ≤ resets [done] + pending self)%nat
  ∧ (nvml && cuda = false → self' = self ∧ cleared_cache done = false).
Proof.
  unfold on_step_end, clears, resets, pending.
  destruct nvml, cuda; cbn [negb orb andb fst snd]; try by split_and!.
  destruct (_ ≫= _) as [ratio|e]; cbn [fst snd]; [|by split_and!].
  cbv zeta. cbn [threshold_percent oom_warning_shown cleared_cache reset_warning].
  destruct (PrimFloat.ltb (threshold_percent self) _),
    (PrimFloat.ltb _ (threshold_percent self - 5)%float),
    (oom_warning_shown self); cbn [andb negb];
    (split_and!; [done | compute; lia | done]).
Qed.

Lemma clears_cons (s : step) (done : list step) :
  clears (s :: done) = (clears [s] + clears done)%nat.
Proof. unfold clears. cbn. by destruct (decide (cleared_cache s = true)). Qed.

Lemma resets_cons (s : step) (done : list step) :
  resets (s :: done) = (resets [s] + resets done)%nat.
Proof. unfold resets. cbn. by destruct (decide (reset_warning s = true)). Qed.

Lemma steps_balance (nvml cuda : bool) (self : VRAMMonitorCallback)
    (readings : list (result (Z * Z))) :
  threshold_percent (steps nvml cuda self readings).1 = threshold_percent self
  ∧ length (steps nvml cuda self readings).2 = length readings
  ∧ (clears (steps nvml cuda self readings).2
     + pending (steps nvml cuda self readings).1
     ≤ resets (steps nvml cuda self readings).2 + pending self)%nat
  ∧ (nvml && cuda = false →
     (steps nvml cuda self readings).1 = self
     ∧ clears (steps nvml cuda self readings).2 = 0%nat).
Proof.
  revert self. induction readings as [|mem_info readings IH]; intros self.
  { cbn. split_and!; [done|done|lia|done]. }
  cbn [steps].
  pose proof (on_step_end_balance nvml cuda self mem_info) as Hstep.
  cbv zeta in Hstep.
  destruct (on_step_end nvml cuda self mem_info) as [self' done].
  cbn [fst snd] in Hstep. destruct Hstep as (Hthr & Hbal & Hoff).
  specialize (IH self').
  destruct (steps nvml cuda self' readings) as [self'' rest]. cbn [fst snd] in *.
  destruct IH as (Hthr' & Hlen & Hbal' & Hoff').
  rewrite clears_cons, resets_cons. split_and!.
  - congruence.
  - cbn. by rewrite Hlen.
  - lia.
  - intros Hno. destruct (Hoff Hno) as [-> Hclear].
    destruct (Hoff' Hno) as [-> ->]. split; [done|].
    unfold clears. cbn. rewrite Hclear. by rewrite decide_False.
Qed.

End vram_facts.

(** X29. The cache is cleared once per excursion. Over any run of steps and
    whatever the device reports, the VRAM monitor clears the cache at most
    once more often than it takes its warning back, and not more often than
    that when the warning is shown at the start; it never writes its
    threshold; and without NVML or without CUDA it clears nothing and stays as
    it is. *)
Theorem vram_monitor_clears_once_per_excursion
    (NVML_AVAILABLE cuda_is_available : bool)
    (self : StepCallbacks.VRAMMonitorCallback) (readings : list (result (Z * Z))) :
  StepCallbacks.threshold_percent
    (StepCallbacks.steps NVML_AVAILABLE cuda_is_available self readings).1
  = StepCallbacks.threshold_percent self
  ∧ length (StepCallbacks.steps NVML_AVAILABLE cuda_is_available self readings).2
    = length readings
  ∧ (StepCallbacks.clears
       (StepCallbacks.steps NVML_AVAILABLE cuda_is_available self readings).2
     ≤ StepCallbacks.resets
         (StepCallbacks.steps NVML_AVAILABLE cuda_is_available self readings).2
       + 1)%nat
  ∧ (StepCallbacks.oom_warning_shown self = true →
     (StepCallbacks.clears
        (StepCallbacks.steps NVML_AVAILABLE cuda_is_available self readings).2
      ≤ StepCallbacks.resets
          (StepCallbacks.steps NVML_AVAILABLE cuda_is_available self readings).2)%nat)
  ∧ (NVML_AVAILABLE && cuda_is_available = false →
     (StepCallbacks.steps NVML_AVAILABLE cuda_is_available self readings).1 = self
     ∧ StepCallbacks.clears
         (StepCallbacks.steps NVML_AVAILABLE cuda_is_available self readings).2
       = 0%nat).
Proof.
  destruct (steps_balance NVML_AVAILABLE cuda_is_available self readings)
    as (Hthr & Hlen & Hbal & Hoff).
  unfold StepCallbacks.pending in Hbal.
  split_and!; [done|done| | |done].
  - destruct (StepCallbacks.oom_warning_shown self),
      (StepCallbacks.oom_warning_shown _); lia.
  - intros Hshown. rewrite Hshown in Hbal.
    destruct (StepCallbacks.oom_warning_shown _); lia.
Qed.

Example vram_monitor_run :
  StepCallbacks.steps true true
    {| StepCallbacks.threshold_percent := 95.0%float;
       StepCallbacks.oom_warning_shown := false |}
    [Ok (96, 100); Ok (97, 100); Ok (92, 100); Ok (80, 100); Ok (1, 0);
     Err (CollaboratorError "NVML"); Ok (99, 100)]
  = ({| StepCallbacks.threshold_percent := 95.0%float;
        StepCallbacks.oom_warning_shown := true |},
     [ {| StepCallbacks.cleared_cache := true; StepCallbacks.reset_warning := false |};
       {| StepCallbacks.cleared_cache := false; StepCallbacks.reset_warning := false |};
       {| StepCallbacks.cleared_cache := false; StepCallbacks.reset_warning := false |};
       {| StepCallbacks.cleared_cache := false; StepCallbacks.reset_warning := true |};
       {| StepCallbacks.cleared_cache := false; StepCallbacks.reset_warning := false |};
       {| StepCallbacks.cleared_cache := false; StepCallbacks.reset_warning := false |};
       {| StepCallbacks.cleared_cache := true; StepCallbacks.reset_warning := false |} ]).
Proof. by vm_compute. Qed.

(** X30. The steps the TPU logger logs. With [log_every_n_steps] set to 0
    every call raises [ZeroDivisionError]. Otherwise no call raises, and a
    step is logged exactly if the XLA library can be imported and the step is
    a multiple of the interval; so with a positive interval, among any that
    many consecutive steps exactly one is logged. *)
Theorem tpu_logging_steps (log_every_n_steps : Z) :
  (log_every_n_steps = 0 →
   ∀ global_step importable,
     StepCallbacks.tpu_on_step_end log_every_n_steps global_step importable
     = Err ZeroDivisionError)
  ∧ (log_every_n_steps ≠ 0 →
     ∀ global_step importable,
       ∃ logged : bool,
         StepCallbacks.tpu_on_step_end log_every_n_steps global_step importable
         = Ok logged
         ∧ (logged = true
            ↔ importable = true ∧ (log_every_n_steps | global_step)))
  ∧ (0 < log_every_n_steps →
     ∀ first : Z,
       ∃ global_step : Z,
         first ≤ global_step < first + log_every_n_steps
         ∧ StepCallbacks.tpu_on_step_end log_every_n_steps global_step true
           = Ok true
         ∧ ∀ other : Z,
             first ≤ other < first + log_every_n_steps →
             StepCallbacks.tpu_on_step_end log_every_n_steps other true = Ok true →
             other = global_step).
Proof.
  assert (Hlogged : log_every_n_steps ≠ 0 → ∀ global_step importable,
            StepCallbacks.tpu_on_step_end log_every_n_steps global_step importable
            = Ok ((global_step mod log_every_n_steps =? 0) && importable)).
  { intros Hn global_step importable. unfold StepCallbacks.tpu_on_step_end.
    by destruct (Z.eqb_spec log_every_n_steps 0). }
  split_and!.
  - by intros ->.
  - intros Hn global_step importable. eexists. split; [by apply Hlogged|].
    rewrite andb_true_iff, Z.eqb_eq, Z.mod_divide by done. tauto.
  - intros Hn first.
    exists (first + (- first) mod log_every_n_steps).
    pose proof (Z.mod_pos_bound (- first) log_every_n_steps Hn) as Hbound.
    assert (Hzero : (first + (- first) mod log_every_n_steps) mod log_every_n_steps = 0).
    { rewrite Z.add_mod_idemp_r by lia.
      replace (first + - first) with 0 by lia. by apply Z.mod_0_l; lia. }
    split_and!; [lia|lia| |].
    + rewrite Hlogged by lia. by rewrite Hzero.
    + intros other Hother. rewrite Hlogged by lia.
      rewrite andb_true_r. intros [= Hmod%Z.eqb_eq].
      apply Z.mod_divide in Hmod as [k Hk]; [|lia].
      apply Z.mod_divide in Hzero as [k' Hk']; [|lia].
      assert (k = k') by nia. subst k. lia.
Qed.
